(** * cert-checker: a shallow embedding of [main.go] and its properties

    The program probes the TLS certificate of every configured site,
    classifies it by the number of days left, prints and mails a report,
    posts a Discord webhook and picks the exit code.

    Go values are modelled as follows.
    - [int], [int64], [time.Duration]: [Z] (no arithmetic of the program
      on them can overflow except [Time.Sub], whose saturation is written
      out);
    - [float64]: Rocq's primitive binary64 floats, so that
      [Duration.Hours] and the quotient by 24 round as they do in Go;
    - [string]: [String.string], a sequence of bytes; the Japanese
      literals of the source are kept as their UTF-8 bytes;
    - slices: [list];
    - the network, the clock, the logger and the library functions whose
      text is not in the repository: an environment record and a small
      state monad over the counters of the calls and the trace of
      events. *)

From Stdlib Require Import ZArith Lia List Bool String Ascii.
From Stdlib Require Import Floats Uint63 DecimalString.
Import ListNotations.

Open Scope Z_scope.

(** ** Integers and durations *)

Definition minInt64 : Z := - 2 ^ 63.
Definition maxInt64 : Z := 2 ^ 63 - 1.

(** [time.Duration] is an [int64] count of nanoseconds. *)
Definition Duration := Z.

Definition Nanosecond : Duration := 1.
Definition Second : Duration := 1000000000 * Nanosecond.
Definition Minute : Duration := 60 * Second.
Definition Hour : Duration := 60 * Minute.

(** An instant, in nanoseconds since 1 January of year 1, 00:00:00 UTC,
    so that the zero [time.Time] is [0]. *)
Definition Time := Z.

Definition zeroTime : Time := 0.

(** [func (t Time) Sub(u Time) Duration]: the difference, saturated to
    the range of [Duration] when it does not fit. *)
Definition Time_Sub (t u : Time) : Duration :=
  let d := t - u in
  if d <? minInt64 then minInt64
  else if maxInt64 <? d then maxInt64
  else d.

(** ** float64 *)

(** [float64(n)] for an [int64] [n]: the nearest binary64 value.  The
    machine integers of the library hold the magnitudes below [2^63]; the
    least [int64] is [-2^63], a float. *)
Definition float64_of_int64 (n : Z) : float :=
  if n =? minInt64 then (-9223372036854775808)%float
  else if n <? 0
  then PrimFloat.opp (PrimFloat.of_uint63 (Uint63.of_Z (- n)))
  else PrimFloat.of_uint63 (Uint63.of_Z n).

(** [int(f)] for a [float64] [f]: the fraction is discarded.  The float is
    taken apart into its 53-bit mantissa and its exponent; what is left of
    the binary point is the result.  Where the value does not fit (or is
    not a number) Go leaves the result to the machine: amd64 gives the
    least [int64]. *)
Definition int_of_float64 (f : float) : Z :=
  if PrimFloat.is_nan f || PrimFloat.is_infinity f then minInt64
  else
    let (m, se) := PrimFloat.frshiftexp f in
    let mant := Uint63.to_Z (PrimFloat.normfr_mantissa m) in
    let ex := Uint63.to_Z se - FloatOps.shift - FloatOps.prec in
    let mag := if 0 <=? ex then mant * 2 ^ ex else mant / 2 ^ (- ex) in
    let v := if PrimFloat.get_sign f then - mag else mag in
    if (minInt64 <=? v) && (v <=? maxInt64) then v else minInt64.

(** [func (d Duration) Hours() float64] of package [time]:
<<
    hour := d / Hour
    nsec := d % Hour
    return float64(hour) + float64(nsec)/(60*60*1e9)
>>
    Go's [/] and [%] on integers truncate toward zero. *)
Definition Duration_Hours (d : Duration) : float :=
  let hour := Z.quot d Hour in
  let nsec := Z.rem d Hour in
  (float64_of_int64 hour + float64_of_int64 nsec / 3600000000000)%float.

(** main.go:239, [int(cert.NotAfter.Sub(now).Hours() / 24)]. *)
Definition daysRemaining (notAfter now : Time) : Z :=
  int_of_float64 (Duration_Hours (Time_Sub notAfter now) / 24)%float.

(** The day count the specification describes: the floor of the
    difference divided by 24 hours ([Z.div] rounds down). *)
Definition floorDays (notAfter now : Time) : Z :=
  (notAfter - now) / (24 * Hour).

(** ** Strings *)

Open Scope string_scope.

(** The double quote and the line feed, for the literals that hold them. *)
Definition dq : string := String "034"%char EmptyString.
Definition nl : string := String "010"%char EmptyString.

(** The verb [%d] of [fmt.Sprintf]: a decimal numeral, with a minus sign
    for a negative number. *)
Definition itoa (n : Z) : string := NilZero.string_of_int (Z.to_int n).

(** [strings.Join]. *)
Definition strings_Join (elems : list string) (sep : string) : string :=
  String.concat sep elems.

(** [strings.ToLower] on the ASCII letters; other bytes are kept.  Every
    status label the program produces is ASCII. *)
Definition lowerAscii (c : ascii) : ascii :=
  let n := nat_of_ascii c in
  if (Nat.leb 65 n && Nat.leb n 90)%bool then ascii_of_nat (n + 32) else c.

Fixpoint strings_ToLower (s : string) : string :=
  match s with
  | EmptyString => EmptyString
  | String c rest => String (lowerAscii c) (strings_ToLower rest)
  end.

(** [needle] occurs in [hay] as a run of consecutive bytes. *)
Definition contains (needle hay : string) : Prop :=
  exists before after, hay = before ++ needle ++ after.

(** ** Data model (main.go:20-71) *)

(** [Site]. *)
Record Site := mkSite {
  site_URL : string;
  site_Port : Z;
  site_Name : string
}.

(** The [Alert] and [Discord] parts of [Config].  The [Email] and
    [Logging] parts are read by [sendEmail] and [setupLogger] only. *)
Record AlertConfig := mkAlert {
  WarningDays : Z;
  CriticalDays : Z
}.

Record DiscordConfig := mkDiscord {
  Enabled : bool;
  WebhookURL : string;
  NotifyOn : list string
}.

Record Config := mkConfig {
  Sites : list Site;
  Alert : AlertConfig;
  Discord : DiscordConfig
}.

(** [CertInfo]; [Status] is one of the strings OK, WARNING, CRITICAL and
    ERROR. *)
Record CertInfo := mkCertInfo {
  SiteName : string;
  URL : string;
  Port : Z;
  Issuer : string;
  Subject : string;
  NotBefore : Time;
  NotAfter : Time;
  DaysRemaining : Z;
  Status : string;
  ErrorMessage : string
}.

(** What the program reads of an [x509.Certificate]. *)
Record Name := mkName {
  Organization : list string;
  CommonName : string
}.

Record Certificate := mkCertificate {
  cert_Issuer : Name;
  cert_Subject : Name;
  cert_NotBefore : Time;
  cert_NotAfter : Time
}.

(** The types declared inside [sendDiscordNotification]. *)
Record EmbedField := mkEmbedField {
  field_Name : string;
  field_Value : string;
  field_Inline : bool
}.

Record Embed := mkEmbed {
  embed_Title : string;
  embed_Color : Z;
  embed_Fields : list EmbedField;
  embed_Timestamp : string
}.

Record Payload := mkPayload {
  payload_Username : string;
  payload_Embeds : list Embed
}.

(** ** The environment and the effects *)

(** [tls.DialWithDialer] gives an error or a connection, of which the
    program reads the peer certificates. *)
Inductive DialOutcome :=
| DialError (err : string)
| DialOK (PeerCertificates : list Certificate).

(** [http.Post] gives a transport error or a response, of which the
    program reads the status code. *)
Inductive PostOutcome :=
| PostError (err : string)
| PostResponse (StatusCode : Z).

(** What the program does to the outside, in order. *)
Inductive Event :=
| LogLine (line : string)
| TlsDial (address serverName : string)
| HttpPost (url contentType body : string).

(** The outside world and the library functions whose result the program
    only passes on.  The clock and the network are indexed by the number
    of earlier calls, so that they may answer differently each time. *)
Record Env := mkEnv {
  timeNow : nat -> Time;
  tlsDial : nat -> string -> string -> DialOutcome;
  httpPost : string -> string -> string -> PostOutcome;
  (** [json.Marshal]: the document, or an error. *)
  jsonMarshal : Payload -> string + string;
  (** [t.In(JST).Format(layout)]. *)
  formatJST : Time -> string -> string;
  (** [t.Format(layout)], in the local zone. *)
  formatLocal : Time -> string -> string
}.

Record World := mkWorld {
  clockReads : nat;
  dials : nat;
  trace : list Event
}.

Definition initialWorld : World := mkWorld 0 0 [].

Definition M (A : Type) : Type := World -> A * World.

Definition ret {A} (a : A) : M A := fun w => (a, w).

Definition bind {A B} (m : M A) (f : A -> M B) : M B :=
  fun w => let (a, w') := m w in f a w'.

Declare Scope go_scope.
Delimit Scope go_scope with go.
Notation "x <- m ;; k" := (bind m (fun x => k))
  (at level 61, m at next level, right associativity) : go_scope.
Notation "m ;; k" := (bind m (fun _ => k))
  (at level 61, right associativity) : go_scope.

Definition emit (e : Event) : M unit :=
  fun w => (tt, mkWorld (clockReads w) (dials w) (trace w ++ [e])).

(** [Logger.Println] and [Logger.Printf], after formatting. *)
Definition logLine (line : string) : M unit := emit (LogLine line).

(** [time.Now()]. *)
Definition time_Now (env : Env) : M Time :=
  fun w => (timeNow env (clockReads w),
            mkWorld (S (clockReads w)) (dials w) (trace w)).

(** [tls.DialWithDialer(dialer, "tcp", address, conf)]. *)
Definition tls_Dial (env : Env) (address serverName : string) : M DialOutcome :=
  fun w => (tlsDial env (dials w) address serverName,
            mkWorld (clockReads w) (S (dials w))
                    (trace w ++ [TlsDial address serverName])).

(** [http.Post(url, contentType, body)]. *)
Definition http_Post (env : Env) (url contentType body : string) : M PostOutcome :=
  fun w => (httpPost env url contentType body,
            mkWorld (clockReads w) (dials w)
                    (trace w ++ [HttpPost url contentType body])).

(** ** The probe (main.go:176-274) *)

Open Scope go_scope.
Open Scope Z_scope.

(** main.go:241-251, the status decision written inline in
    [checkCertificate]. *)
Definition classify (config : Config) (daysRemaining : Z) : string :=
  if daysRemaining <? 0 then "CRITICAL"
  else if daysRemaining <=? CriticalDays (Alert config) then "CRITICAL"
  else if daysRemaining <=? WarningDays (Alert config) then "WARNING"
  else "OK".

(** main.go:253-261, the issuer line. *)
Definition issuerOf (cert : Certificate) : string :=
  let issuer := Organization (cert_Issuer cert) in
  let issuer :=
    match issuer with
    | [] => [CommonName (cert_Issuer cert)]
    | _ :: _ => issuer
    end in
  let issuerStr := strings_Join issuer ", " in
  if String.eqb issuerStr EmptyString then "Unknown" else issuerStr.

(** main.go:194-200, the defaults of a site. *)
Definition withDefaults (site : Site) : Site :=
  let port := if site_Port site =? 0 then 443 else site_Port site in
  let name :=
    if String.eqb (site_Name site) EmptyString then site_URL site
    else site_Name site in
  mkSite (site_URL site) port name.

(** [checkCertificate]. *)
Definition checkCertificate (env : Env) (config : Config) (site : Site)
  : M CertInfo :=
  logLine ("チェック開始: " ++ site_Name site ++ " (" ++ site_URL site ++ ":"
           ++ itoa (site_Port site) ++ ")") ;;
  let site := withDefaults site in
  let address := site_URL site ++ ":" ++ itoa (site_Port site) in
  conn <- tls_Dial env address (site_URL site) ;;
  match conn with
  | DialError err =>
      let errorMsg := "証明書の取得に失敗: " ++ err in
      logLine (site_URL site ++ ":" ++ itoa (site_Port site) ++ " - "
               ++ errorMsg) ;;
      ret (mkCertInfo (site_Name site) (site_URL site) (site_Port site)
             EmptyString EmptyString zeroTime zeroTime 0
             "ERROR" errorMsg)
  | DialOK certs =>
      match certs with
      | [] =>
          ret (mkCertInfo (site_Name site) (site_URL site) (site_Port site)
                 EmptyString EmptyString zeroTime zeroTime 0
                 "ERROR" "証明書が見つかりません")
      | cert :: _ =>
          now <- time_Now env ;;
          let days := daysRemaining (cert_NotAfter cert) now in
          let status := classify config days in
          let issuerStr := issuerOf cert in
          ret (mkCertInfo (site_Name site) (site_URL site) (site_Port site)
                 issuerStr (CommonName (cert_Subject cert))
                 (cert_NotBefore cert) (cert_NotAfter cert) days
                 status EmptyString)
      end
  end.

(** The loop of [checkAllSites]: one probe and one [append] per site. *)
Fixpoint checkSitesFrom (env : Env) (config : Config) (sites : list Site)
    (results : list CertInfo) : M (list CertInfo) :=
  match sites with
  | [] => ret results
  | site :: rest =>
      result <- checkCertificate env config site ;;
      checkSitesFrom env config rest (results ++ [result])
  end.

(** [checkAllSites]. *)
Definition checkAllSites (env : Env) (config : Config) : M (list CertInfo) :=
  logLine (itoa (Z.of_nat (List.length (Sites config)))
           ++ "サイトのチェックを開始します") ;;
  results <- checkSitesFrom env config (Sites config) [] ;;
  logLine "すべてのサイトのチェックが完了しました" ;;
  ret results.

(** ** The exit code (main.go:130-140) *)

(** The loop that sets [hasIssues], with its [break]. *)
Fixpoint hasIssues (results : list CertInfo) : bool :=
  match results with
  | [] => false
  | result :: rest =>
      if String.eqb (Status result) "WARNING"
         || String.eqb (Status result) "CRITICAL"
         || String.eqb (Status result) "ERROR"
      then true
      else hasIssues rest
  end.

(** [os.Exit(1)] when [hasIssues]; otherwise [main] returns, which is
    exit code 0. *)
Definition exitCode (results : list CertInfo) : Z :=
  if hasIssues results then 1 else 0.

(** ** The webhook (main.go:468-588) *)

Definition placeholderURL : string :=
  "https://discord.com/api/webhooks/YOUR_WEBHOOK_ID/YOUR_WEBHOOK_TOKEN".

(** main.go:487-492, the inner loop: [result] is appended at the first
    status of [notifyOn] equal to its own, and the loop is left. *)
Fixpoint appendIfListed (result : CertInfo) (notifyOn : list string)
    (filteredResults : list CertInfo) : list CertInfo :=
  match notifyOn with
  | [] => filteredResults
  | status :: rest =>
      if String.eqb (Status result) status
      then filteredResults ++ [result]
      else appendIfListed result rest filteredResults
  end.

(** main.go:481-496. *)
Definition filterResults (notifyOn : list string) (results : list CertInfo)
  : list CertInfo :=
  if (0 <? Z.of_nat (List.length notifyOn))%Z
  then fold_left (fun filteredResults result =>
                    appendIfListed result notifyOn filteredResults)
                 results []
  else results.

(** main.go:525-534, [colorMap] and its default. *)
Definition colorMap : list (string * Z) :=
  [("OK", 65280); ("WARNING", 16753920);
   ("CRITICAL", 16711680); ("ERROR", 9109504)].

Fixpoint mapLookup (m : list (string * Z)) (key : string) : Z :=
  match m with
  | [] => 0
  | (k, v) :: rest => if String.eqb k key then v else mapLookup rest key
  end.

Definition colorOf (status : string) : Z :=
  let color := mapLookup colorMap status in
  if color =? 0 then 8421504 else color.

(** main.go:536-552. *)
Definition fieldsOf (env : Env) (cert : CertInfo) : list EmbedField :=
  if negb (String.eqb (Status cert) "ERROR") then
    [ mkEmbedField "URL" (URL cert ++ ":" ++ itoa (Port cert)) true;
      mkEmbedField "ステータス" (Status cert) true;
      mkEmbedField "残り日数" (itoa (DaysRemaining cert) ++ "日") true;
      mkEmbedField "発行者" (Issuer cert) false;
      mkEmbedField "有効期限"
        (formatJST env (NotAfter cert) "2006-01-02 15:04:05" ++ " JST") false ]
  else
    [ mkEmbedField "URL" (URL cert ++ ":" ++ itoa (Port cert)) true;
      mkEmbedField "ステータス" (Status cert) true;
      mkEmbedField "エラー" (ErrorMessage cert) false ].

(** main.go:522-561, one embed per filtered result. *)
Fixpoint buildEmbeds (env : Env) (filteredResults : list CertInfo)
    (embeds : list Embed) : M (list Embed) :=
  match filteredResults with
  | [] => ret embeds
  | cert :: rest =>
      now <- time_Now env ;;
      let embed :=
        mkEmbed ("🔒 " ++ SiteName cert) (colorOf (Status cert))
                (fieldsOf env cert)
                (formatLocal env now "2006-01-02T15:04:05Z07:00") in
      buildEmbeds env rest (embeds ++ [embed])
  end.

(** [sendDiscordNotification]; [None] is the [nil] error. *)
Definition sendDiscordNotification (env : Env) (config : Config)
    (results : list CertInfo) : M (option string) :=
  if negb (Enabled (Discord config)) then
    logLine "Discord通知は無効です" ;;
    ret None
  else
    let webhookURL := WebhookURL (Discord config) in
    if String.eqb webhookURL EmptyString
       || String.eqb webhookURL placeholderURL
    then
      logLine "Discord Webhook URLが設定されていません" ;;
      ret None
    else
      let filteredResults := filterResults (NotifyOn (Discord config)) results in
      if (Z.of_nat (List.length filteredResults) =? 0)%Z then
        logLine "Discord通知対象の結果がありません" ;;
        ret None
      else
        embeds <- buildEmbeds env filteredResults [] ;;
        let payload := mkPayload "SSL証明書チェッカー" embeds in
        match jsonMarshal env payload with
        | inr err => ret (Some ("JSONのマーシャルに失敗: " ++ err))
        | inl jsonData =>
            resp <- http_Post env webhookURL "application/json" jsonData ;;
            match resp with
            | PostError err =>
                ret (Some ("Discord通知の送信に失敗: " ++ err))
            | PostResponse code =>
                (if (code =? 204)%Z
                 then logLine "Discord通知を送信しました"
                 else logLine ("Discord通知の送信結果: " ++ itoa code)) ;;
                ret None
            end
        end.

(** ** The HTML report (main.go:306-371) *)

(** main.go:310-338, the head of the document; [%%] of the format is a
    percent sign. *)
Definition htmlHead (checkTime : string) : string :=
"<html>
<head>
    <meta charset=" ++ dq ++ "UTF-8" ++ dq ++ ">
    <style>
        body { font-family: Arial, sans-serif; margin: 20px; }
        h1 { color: #333; }
        table { border-collapse: collapse; width: 100%; margin-top: 20px; }
        th, td { border: 1px solid #ddd; padding: 12px; text-align: left; }
        th { background-color: #4CAF50; color: white; }
        tr:nth-child(even) { background-color: #f2f2f2; }
        .ok { color: green; font-weight: bold; }
        .warning { color: orange; font-weight: bold; }
        .critical { color: red; font-weight: bold; }
        .error { color: darkred; font-weight: bold; }
    </style>
</head>
<body>
    <h1>SSL証明書有効期限チェック結果</h1>
    <p>チェック日時: " ++ checkTime ++ "</p>
    <table>
        <tr>
            <th>サイト名</th>
            <th>URL</th>
            <th>発行者</th>
            <th>有効期限</th>
            <th>残り日数</th>
            <th>ステータス</th>
        </tr>
".

(** main.go:341-363, the row of one result. *)
Definition htmlRow (env : Env) (cert : CertInfo) : string :=
  let statusClass := strings_ToLower (Status cert) in
  if negb (String.eqb (Status cert) "ERROR") then
"        <tr>
            <td>" ++ SiteName cert ++ "</td>
            <td>" ++ URL cert ++ ":" ++ itoa (Port cert) ++ "</td>
            <td>" ++ Issuer cert ++ "</td>
            <td>" ++ formatJST env (NotAfter cert) "2006-01-02" ++ " JST</td>
            <td>" ++ itoa (DaysRemaining cert) ++ "日</td>
            <td class=" ++ dq ++ statusClass ++ dq ++ ">" ++ Status cert ++ "</td>
        </tr>
"
  else
"        <tr>
            <td>" ++ SiteName cert ++ "</td>
            <td>" ++ URL cert ++ ":" ++ itoa (Port cert) ++ "</td>
            <td colspan=" ++ dq ++ "3" ++ dq ++ ">" ++ ErrorMessage cert ++ "</td>
            <td class=" ++ dq ++ statusClass ++ dq ++ ">" ++ Status cert ++ "</td>
        </tr>
".

Definition htmlFoot : string :=
"    </table>
</body>
</html>".

(** [generateHTMLReport]: [html += row] for each result, in order. *)
Definition generateHTMLReport (env : Env) (results : list CertInfo)
  : M string :=
  now <- time_Now env ;;
  let checkTime := formatJST env now "2006-01-02 15:04:05" in
  let html := htmlHead checkTime in
  let html := fold_left (fun html cert => html ++ htmlRow env cert)
                        results html in
  ret (html ++ htmlFoot).

(** ** Definitions used by the statements and the proofs *)

(** The answer of the network to the dial of the probe of [site] that
    starts in world [w]. *)
Definition dialAnswer (env : Env) (site : Site) (w : World) : DialOutcome :=
  let site := withDefaults site in
  tlsDial env (dials w) (site_URL site ++ ":" ++ itoa (site_Port site))
          (site_URL site).

(** The order of severity of the specification, OK < WARNING < CRITICAL. *)
Definition severity (status : string) : option nat :=
  if String.eqb status "OK" then Some 0%nat
  else if String.eqb status "WARNING" then Some 1%nat
  else if String.eqb status "CRITICAL" then Some 2%nat
  else None.

(** The status of [result] is one of the labels of [notifyOn]. *)
Definition statusListed (notifyOn : list string) (result : CertInfo) : bool :=
  existsb (String.eqb (Status result)) notifyOn.

(** No [http.Post] among the events. *)
Definition noHttpCall (events : list Event) : Prop :=
  forall url contentType body, ~ In (HttpPost url contentType body) events.










(** An environment for the examples: the [k]-th dial is answered by the
    [k]-th element of [answers], the clock stands at [now], the webhook
    answers [post]. *)
Definition exampleEnv (answers : list DialOutcome) (now : Time)
    (post : PostOutcome) : Env :=
  mkEnv (fun _ => now)
        (fun k _ _ => nth k answers (DialError "no such host"))
        (fun _ _ _ => post)
        (fun _ => inl "{}")
        (fun _ _ => "2026-01-01")
        (fun _ _ => "2026-01-01T00:00:00Z").

Definition exampleCert (notAfter : Time) : Certificate :=
  mkCertificate (mkName ["Let's Encrypt"] "R3") (mkName [] "example.com")
                0 notAfter.

Definition exampleConfig (sites : list Site) (warningDays criticalDays : Z)
    (notifyOn : list string) : Config :=
  mkConfig sites (mkAlert warningDays criticalDays)
           (mkDiscord true "https://discord.example/hook" notifyOn).

(** The certificate fields of [result] are those of [cert], read at
    [now]. *)
Definition populatedFrom (cert : Certificate) (now : Time)
    (result : CertInfo) : Prop :=
  Issuer result = issuerOf cert
  /\ Subject result = CommonName (cert_Subject cert)
  /\ NotBefore result = cert_NotBefore cert
  /\ NotAfter result = cert_NotAfter cert
  /\ DaysRemaining result = daysRemaining (cert_NotAfter cert) now.

(** The certificate fields of [result] hold the zero values of their
    types. *)
Definition unpopulated (result : CertInfo) : Prop :=
  Issuer result = EmptyString
  /\ Subject result = EmptyString
  /\ NotBefore result = zeroTime
  /\ NotAfter result = zeroTime
  /\ DaysRemaining result = 0.

(** [s] starts with [prefix]. *)
Definition startsWith (prefix s : string) : Prop :=
  exists after, s = prefix ++ after.

(** The inputs of the examples: an instant in the year 2025, a site, and
    the environment in which its certificate ran out twelve hours
    before the probe. *)
Definition someInstant : Time := 63900000000 * Second.

Definition exampleSite : Site := mkSite "example.com" 0 EmptyString.

Definition halfDayLateEnv : Env :=
  exampleEnv [DialOK [exampleCert someInstant]]
             (someInstant + 12 * Hour) (PostResponse 204).

Definition twoSites : list Site :=
  [mkSite "invalid-test-site-12345.com" 443 "Test Site 1";
   mkSite "invalid-test-site-67890.com" 0 EmptyString].

(** Every dial fails. *)
Definition offlineEnv : Env := exampleEnv [] someInstant (PostResponse 204).

(** Results with a given status. *)
Definition resultWith (name status : string) : CertInfo :=
  mkCertInfo name "example.com" 443 "Let's Encrypt" "example.com"
             0 someInstant 60 status EmptyString.

(** The webhook answers 500. *)
Definition rejectingEnv : Env := exampleEnv [] someInstant (PostResponse 500).

(** The webhook cannot be reached: the POST fails in transport. *)
Definition unreachableEnv : Env :=
  exampleEnv [] someInstant (PostError "connection refused").

(** [json.Marshal] fails on every payload. *)
Definition unmarshallableEnv : Env :=
  mkEnv (fun _ => someInstant)
        (fun _ _ _ => DialError "no such host")
        (fun _ _ _ => PostResponse 204)
        (fun _ => inr "unsupported value")
        (fun _ _ => "2026-01-01")
        (fun _ _ => "2026-01-01T00:00:00Z").

(** A site whose name is a piece of HTML. *)
Definition markupSite : Site :=
  mkSite "example.com" 443 "<script>alert(1)</script>".

(** * The rest of [main.go] *)

(** ** The text report (main.go:276-304) *)

(** [strings.Repeat]. *)
Fixpoint strings_Repeat (s : string) (count : nat) : string :=
  match count with
  | O => EmptyString
  | S n => s ++ strings_Repeat s n
  end.

(** main.go:280-283, what is written before the loop. *)
Definition textHead (checkTime : string) : string :=
  (strings_Repeat "=" 80 ++ nl)
  ++ ("SSL証明書有効期限チェック結果" ++ nl)
  ++ ("チェック日時: " ++ checkTime ++ nl)
  ++ (strings_Repeat "=" 80 ++ nl ++ nl).

(** main.go:286-300, what one turn of the loop writes. *)
Definition textBlock (env : Env) (cert : CertInfo) : string :=
  ("サイト名: " ++ SiteName cert ++ nl)
  ++ ("URL: " ++ URL cert ++ ":" ++ itoa (Port cert) ++ nl)
  ++ ("ステータス: " ++ Status cert ++ nl)
  ++ (if negb (String.eqb (Status cert) "ERROR") then
        ("発行者: " ++ Issuer cert ++ nl)
        ++ ("主体者: " ++ Subject cert ++ nl)
        ++ ("有効期限開始: "
            ++ formatJST env (NotBefore cert) "2006-01-02 15:04:05"
            ++ " JST" ++ nl)
        ++ ("有効期限終了: "
            ++ formatJST env (NotAfter cert) "2006-01-02 15:04:05"
            ++ " JST" ++ nl)
        ++ ("残り日数: " ++ itoa (DaysRemaining cert) ++ "日" ++ nl)
      else
        "エラー: " ++ ErrorMessage cert ++ nl)
  ++ (strings_Repeat "-" 80 ++ nl).

(** [generateTextReport]: the builder grows by one block per result. *)
Definition generateTextReport (env : Env) (results : list CertInfo)
  : M string :=
  now <- time_Now env ;;
  let sb := textHead (formatJST env now "2006-01-02 15:04:05") in
  let sb := fold_left (fun sb cert => sb ++ textBlock env cert) results sb in
  ret sb.

(** ** The rest of the settings (main.go:27-49) *)

Record SMTPConfig := mkSMTP {
  smtp_Host : string;
  smtp_Port : Z;
  UseSSL : bool;
  UseTLS : bool;
  Username : string;
  Password : string
}.

Record EmailConfig := mkEmail {
  email_Enabled : bool;
  SMTP : SMTPConfig;
  From : string;
  To : list string;
  email_Subject : string
}.

Record LoggingConfig := mkLogging {
  Level : string;
  File : string
}.

(** The whole of the Go [Config]: the parts above together with the
    parts that [sendEmail] and [setupLogger] read. *)
Record Settings := mkSettings {
  settings_Config : Config;
  Email : EmailConfig;
  Logging : LoggingConfig
}.

(** ** The process: mail, files and standard output *)

(** The value of [smtp.PlainAuth(identity, username, password, host)]. *)
Record PlainAuth := mkPlainAuth {
  auth_identity : string;
  auth_username : string;
  auth_password : string;
  auth_host : string
}.

(** The calls of [sendEmail] that can fail.  The deferred [Close] calls,
    whose results are dropped, are left out. *)
Inductive SmtpOp :=
| SmtpTlsDial (addr serverName : string)
| SmtpNewClient (host : string)
| SmtpAuth (auth : PlainAuth)
| SmtpMail (from : string)
| SmtpRcpt (to : string)
| SmtpData
| SmtpWrite (message : string)
| SmtpCloseData
| SmtpQuit
| SmtpSendMail (addr : string) (auth : option PlainAuth) (from : string)
               (to : list string) (message : string).

(** Where [Logger] writes. *)
Inductive LogSink :=
| SinkStdout
| SinkFile (path : string).

(** The outside world of the process besides [Env]: the mail server,
    which answers a call, given the calls before it, with an error or
    with none; the file system; the YAML parser. *)
Record ProcEnv := mkProcEnv {
  smtpAnswer : list SmtpOp -> SmtpOp -> option string;
  (** [os.OpenFile] of the log file: an error or none. *)
  openLogFile : string -> option string;
  (** [os.ReadFile]: the bytes, or an error. *)
  readFile : string -> string + string;
  (** [yaml.Unmarshal] into a [Config]: the settings, or an error. *)
  yamlUnmarshal : string -> Settings + string
}.

Record Process := mkProcess {
  world : World;
  smtpOps : list SmtpOp;
  (** What [fmt.Println] wrote. *)
  printed : list string;
  (** What the standard logger of package [log] wrote. *)
  stdLog : list string;
  (** The sink of [Logger], once [setupLogger] has run. *)
  logger : option LogSink
}.

Definition initialProcess : Process := mkProcess initialWorld [] [] [] None.

Definition P (A : Type) : Type := Process -> A * Process.

Definition retP {A} (a : A) : P A := fun p => (a, p).

Definition bindP {A B} (m : P A) (f : A -> P B) : P B :=
  fun p => let (a, p') := m p in f a p'.

(** A computation on the world of the probes, run inside the process. *)
Definition liftW {A} (m : M A) : P A :=
  fun p => let (a, w') := m (world p) in
           (a, mkProcess w' (smtpOps p) (printed p) (stdLog p) (logger p)).

Definition smtpDo (penv : ProcEnv) (op : SmtpOp) : P (option string) :=
  fun p => (smtpAnswer penv (smtpOps p) op,
            mkProcess (world p) (smtpOps p ++ [op]) (printed p) (stdLog p)
                      (logger p)).

(** [fmt.Println(s)]. *)
Definition fmt_Println (s : string) : P unit :=
  fun p => (tt, mkProcess (world p) (smtpOps p) (printed p ++ [s ++ nl])
                          (stdLog p) (logger p)).

(** [log.Printf] of the standard logger. *)
Definition log_Printf (line : string) : P unit :=
  fun p => (tt, mkProcess (world p) (smtpOps p) (printed p)
                          (stdLog p ++ [line]) (logger p)).

Declare Scope proc_scope.
Delimit Scope proc_scope with proc.
Notation "x <- m ;; k" := (bindP m (fun x => k))
  (at level 61, m at next level, right associativity) : proc_scope.
Notation "m ;; k" := (bindP m (fun _ => k))
  (at level 61, right associativity) : proc_scope.

(** [if err != nil { return fmt.Errorf(prefix + "%v", err) }], then the
    rest. *)
Definition orReturn (prefix : string) (m : P (option string))
    (rest : P (option string)) : P (option string) :=
  (r <- m ;;
   match r with
   | Some err => retP (Some (prefix ++ err))
   | None => rest
   end)%proc.

(** ** The mail (main.go:373-466) *)

Definition crlf : string := String "013"%char (String "010"%char EmptyString).

(** main.go:379-400, the multipart message. *)
Definition mailMessage (email : EmailConfig) (textReport htmlReport : string)
  : string :=
  let boundary := "boundary123456789" in
  ("From: " ++ From email ++ crlf)
  ++ ("To: " ++ strings_Join (To email) ", " ++ crlf)
  ++ ("Subject: " ++ email_Subject email ++ crlf)
  ++ ("MIME-Version: 1.0" ++ crlf)
  ++ ("Content-Type: multipart/alternative; boundary=" ++ boundary ++ crlf)
  ++ crlf
  ++ ("--" ++ boundary ++ crlf)
  ++ ("Content-Type: text/plain; charset=UTF-8" ++ crlf)
  ++ crlf
  ++ (textReport ++ crlf)
  ++ ("--" ++ boundary ++ crlf)
  ++ ("Content-Type: text/html; charset=UTF-8" ++ crlf)
  ++ crlf
  ++ (htmlReport ++ crlf)
  ++ ("--" ++ boundary ++ "--" ++ crlf).

(** main.go:405-408. *)
Definition mailAuth (smtp : SMTPConfig) : option PlainAuth :=
  if negb (String.eqb (Username smtp) EmptyString)
     && negb (String.eqb (Password smtp) EmptyString)
  then Some (mkPlainAuth EmptyString (Username smtp) (Password smtp)
                         (smtp_Host smtp))
  else None.

(** main.go:439-443, the loop over the recipients; it returns at the
    first refusal. *)
Fixpoint rcptAll (penv : ProcEnv) (to : list string) : P (option string) :=
  match to with
  | [] => retP None
  | t :: rest =>
      (r <- smtpDo penv (SmtpRcpt t) ;;
       match r with
       | Some err => retP (Some err)
       | None => rcptAll penv rest
       end)%proc
  end.

(** [sendEmail]; [None] is the [nil] error. *)
Definition sendEmail (env : Env) (penv : ProcEnv) (settings : Settings)
    (results : list CertInfo) : P (option string) :=
  (textReport <- liftW (generateTextReport env results) ;;
   htmlReport <- liftW (generateHTMLReport env results) ;;
   let email := Email settings in
   let smtp := SMTP email in
   let message := mailMessage email textReport htmlReport in
   let smtpAddr := smtp_Host smtp ++ ":" ++ itoa (smtp_Port smtp) in
   let auth := mailAuth smtp in
   if UseSSL smtp then
     orReturn "SSL接続に失敗: "
       (smtpDo penv (SmtpTlsDial smtpAddr (smtp_Host smtp)))
    (orReturn "SMTPクライアントの作成に失敗: "
       (smtpDo penv (SmtpNewClient (smtp_Host smtp)))
    (orReturn "認証に失敗: "
       (match auth with
        | Some a => smtpDo penv (SmtpAuth a)
        | None => retP None
        end)
    (orReturn "MAIL FROMに失敗: " (smtpDo penv (SmtpMail (From email)))
    (orReturn "RCPT TOに失敗: " (rcptAll penv (To email))
    (orReturn "DATAコマンドに失敗: " (smtpDo penv SmtpData)
    (orReturn "メッセージの送信に失敗: " (smtpDo penv (SmtpWrite message))
    (orReturn "メッセージのクローズに失敗: " (smtpDo penv SmtpCloseData)
    (smtpDo penv SmtpQuit))))))))
   else if UseTLS smtp then
     smtpDo penv (SmtpSendMail smtpAddr auth (From email) (To email) message)
   else
     smtpDo penv (SmtpSendMail smtpAddr auth (From email) (To email) message)
  )%proc.

(** ** Start-up and [main] (main.go:89-174) *)

(** [loadConfig]. *)
Definition loadConfig (penv : ProcEnv) (path : string) : Settings + string :=
  match readFile penv path with
  | inr err => inr err
  | inl data =>
      match yamlUnmarshal penv data with
      | inr err => inr err
      | inl settings => inl settings
      end
  end.

(** [setupLogger]. *)
Definition setupLogger (penv : ProcEnv) (settings : Settings) : P unit :=
  let setSink (output : LogSink) : P unit :=
    fun p => (tt, mkProcess (world p) (smtpOps p) (printed p) (stdLog p)
                            (Some output)) in
  (if negb (String.eqb (File (Logging settings)) EmptyString) then
     match openLogFile penv (File (Logging settings)) with
     | Some err =>
         log_Printf ("ログファイルのオープンに失敗: " ++ err) ;;
         setSink SinkStdout
     | None => setSink (SinkFile (File (Logging settings)))
     end
   else setSink SinkStdout)%proc.

(** main.go:112-121, the mail part of [main]. *)
Definition mailPart (env : Env) (penv : ProcEnv) (settings : Settings)
    (results : list CertInfo) : P unit :=
  (if email_Enabled (Email settings) then
     err <- sendEmail env penv settings results ;;
     match err with
     | Some e => liftW (logLine ("メール送信に失敗しました: " ++ e))
     | None => liftW (logLine "メールを送信しました")
     end
   else liftW (logLine "メール送信は無効です"))%proc.

(** [main] from the point where the settings are loaded; the value is
    the exit code. *)
Definition run (env : Env) (penv : ProcEnv) (settings : Settings) : P Z :=
  (setupLogger penv settings ;;
   liftW (logLine "SSL証明書チェッカーを開始します") ;;
   results <- liftW (checkAllSites env (settings_Config settings)) ;;
   textReport <- liftW (generateTextReport env results) ;;
   fmt_Println (nl ++ textReport) ;;
   mailPart env penv settings results ;;
   err <- liftW (sendDiscordNotification env (settings_Config settings) results) ;;
   match err with
   | Some e => liftW (logLine ("Discord通知でエラーが発生しました: " ++ e))
   | None => retP tt
   end ;;
   liftW (logLine "SSL証明書チェッカーを終了します") ;;
   retP (exitCode results))%proc.

(** [main], with the path that the [-config] flag gives; [log.Fatalf]
    writes its line and leaves with exit code 1. *)
Definition main (env : Env) (penv : ProcEnv) (configPath : string) : P Z :=
  match loadConfig penv configPath with
  | inr err =>
      (log_Printf ("設定ファイルの読み込みに失敗しました: " ++ err) ;;
       retP 1)%proc
  | inl settings => run env penv settings
  end.

(** ** Definitions used by the further statements *)

(** The dials among the events, each with its address and server name. *)
Fixpoint dialsOf (events : list Event) : list (string * string) :=
  match events with
  | [] => []
  | TlsDial address serverName :: rest => (address, serverName) :: dialsOf rest
  | _ :: rest => dialsOf rest
  end.

(** The address a probe of [site] dials: the URL and the port after the
    defaults. *)
Definition addressOf (site : Site) : string :=
  site_URL (withDefaults site) ++ ":" ++ itoa (site_Port (withDefaults site)).

(** A certificate that never runs out in practice: not after
    31 December 9999, 23:59:59 UTC. *)
Definition endOfTime : Time := 315537897599 * Second.

(** The certificate of [exampleSite] never runs out in practice. *)
Definition foreverEnv : Env :=
  exampleEnv [DialOK [exampleCert endOfTime]] someInstant (PostResponse 204).

(** The posts among the events. *)
Fixpoint postsOf (events : list Event) : list (string * string * string) :=
  match events with
  | [] => []
  | HttpPost url contentType body :: rest =>
      (url, contentType, body) :: postsOf rest
  | _ :: rest => postsOf rest
  end.

(** The notify-on list of the example configuration. *)
Definition issueLabels : list string := ["WARNING"; "CRITICAL"; "ERROR"].

(** Two results agree on what the reports and the embeds show: the name,
    the URL, the port and the status, and then the error message for an
    ERROR result, the certificate fields and the day count for any
    other. *)
Definition sameShown (a b : CertInfo) : Prop :=
  SiteName a = SiteName b /\ URL a = URL b /\ Port a = Port b
  /\ Status a = Status b
  /\ if String.eqb (Status a) "ERROR"
     then ErrorMessage a = ErrorMessage b
     else Issuer a = Issuer b /\ Subject a = Subject b
          /\ NotBefore a = NotBefore b /\ NotAfter a = NotAfter b
          /\ DaysRemaining a = DaysRemaining b.

(** The layout of the check time of both reports. *)
Definition checkTimeLayout : string := "2006-01-02 15:04:05".

(** The steps of the session that [sendEmail] holds over implicit TLS,
    in order, each with the words put before its error; the last, QUIT,
    returns its error as it is. *)
Definition sslPlan (email : EmailConfig) (message : string)
  : list (string * SmtpOp) :=
  let smtp := SMTP email in
  [("SSL接続に失敗: ",
    SmtpTlsDial (smtp_Host smtp ++ ":" ++ itoa (smtp_Port smtp))
                (smtp_Host smtp));
   ("SMTPクライアントの作成に失敗: ", SmtpNewClient (smtp_Host smtp))]
  ++ match mailAuth smtp with
     | Some a => [("認証に失敗: ", SmtpAuth a)]
     | None => []
     end
  ++ [("MAIL FROMに失敗: ", SmtpMail (From email))]
  ++ map (fun t => ("RCPT TOに失敗: ", SmtpRcpt t)) (To email)
  ++ [("DATAコマンドに失敗: ", SmtpData);
      ("メッセージの送信に失敗: ", SmtpWrite message);
      ("メッセージのクローズに失敗: ", SmtpCloseData);
      (EmptyString, SmtpQuit)].

(** A plan run step by step until a step fails. *)
Fixpoint runSteps (penv : ProcEnv) (plan : list (string * SmtpOp))
  : P (option string) :=
  match plan with
  | [] => retP None
  | (prefix, op) :: rest =>
      (r <- smtpDo penv op ;;
       match r with
       | Some err => retP (Some (prefix ++ err))
       | None => runSteps penv rest
       end)%proc
  end.

(** The process once [sendEmail] has made its two reports, and the
    message it has built from them. *)
Definition afterReports (env : Env) (results : list CertInfo) (p : Process)
  : Process :=
  snd (liftW (generateHTMLReport env results)
         (snd (liftW (generateTextReport env results) p))).

Definition mailOf (env : Env) (settings : Settings) (results : list CertInfo)
    (p : Process) : string :=
  mailMessage (Email settings)
    (fst (generateTextReport env results (world p)))
    (fst (generateHTMLReport env results
            (snd (generateTextReport env results (world p))))).

(** The settings with another [use_tls]. *)
Definition withUseTLS (useTLS : bool) (settings : Settings) : Settings :=
  let email := Email settings in
  let smtp := SMTP email in
  mkSettings (settings_Config settings)
    (mkEmail (email_Enabled email)
       (mkSMTP (smtp_Host smtp) (smtp_Port smtp) (UseSSL smtp) useTLS
               (Username smtp) (Password smtp))
       (From email) (To email) (email_Subject email))
    (Logging settings).

(** Every call of the plan before the failing one was answered without
    error. *)
Fixpoint allAccepted (penv : ProcEnv) (history : list SmtpOp)
    (ops : list SmtpOp) : Prop :=
  match ops with
  | [] => True
  | op :: rest =>
      smtpAnswer penv history op = None
      /\ allAccepted penv (history ++ [op]) rest
  end.

(** Settings for the examples: mail from the checker to [to] through
    [smtp.example.com]. *)
Definition exampleSettings (useSSL useTLS : bool) (username password : string)
    (to : list string) : Settings :=
  mkSettings (exampleConfig [exampleSite] 30 7 issueLabels)
    (mkEmail true
       (mkSMTP "smtp.example.com" 465 useSSL useTLS username password)
       "cert-checker@example.com" to "SSL証明書有効期限チェック結果")
    (mkLogging "INFO" EmptyString).

(** A mail server that refuses the recipient [nobody@example.com] and
    accepts everything else; no file can be read. *)
Definition pickyMail : ProcEnv :=
  mkProcEnv
    (fun _ op =>
       match op with
       | SmtpRcpt t =>
           if String.eqb t "nobody@example.com"
           then Some "550 no such user" else None
       | _ => None
       end)
    (fun _ => None)
    (fun _ => inr "no such file")
    (fun _ => inr "empty document").

(** The world in which the scan of a run starts, the results of the scan
    and the world it leaves. *)
Definition scanStart (p : Process) : World :=
  snd (logLine "SSL証明書チェッカーを開始します" (world p)).

Definition scanOf (env : Env) (settings : Settings) (p : Process)
  : list CertInfo * World :=
  checkAllSites env (settings_Config settings) (scanStart p).

(** * Properties *)

(** ** The day count *)
















(** ** Running one probe *)

(** The three ways out of [checkCertificate]. *)
Lemma checkCertificate_dial_error env config site w err :
  dialAnswer env site w = DialError err ->
  fst (checkCertificate env config site w)
  = mkCertInfo (site_Name (withDefaults site)) (site_URL (withDefaults site))
      (site_Port (withDefaults site)) EmptyString EmptyString zeroTime zeroTime
      0 "ERROR" ("証明書の取得に失敗: " ++ err).
Proof.
  unfold dialAnswer, checkCertificate, bind, logLine, emit, tls_Dial, ret.
  cbn -[withDefaults String.append itoa]. intros ->. reflexivity.
Qed.

Lemma checkCertificate_no_certificate env config site w :
  dialAnswer env site w = DialOK [] ->
  fst (checkCertificate env config site w)
  = mkCertInfo (site_Name (withDefaults site)) (site_URL (withDefaults site))
      (site_Port (withDefaults site)) EmptyString EmptyString zeroTime zeroTime
      0 "ERROR" "証明書が見つかりません".
Proof.
  unfold dialAnswer, checkCertificate, bind, logLine, emit, tls_Dial, ret.
  cbn -[withDefaults String.append itoa]. intros ->. reflexivity.
Qed.

Lemma checkCertificate_leaf env config site w cert rest :
  dialAnswer env site w = DialOK (cert :: rest) ->
  fst (checkCertificate env config site w)
  = mkCertInfo (site_Name (withDefaults site)) (site_URL (withDefaults site))
      (site_Port (withDefaults site)) (issuerOf cert)
      (CommonName (cert_Subject cert)) (cert_NotBefore cert)
      (cert_NotAfter cert)
      (daysRemaining (cert_NotAfter cert) (timeNow env (clockReads w)))
      (classify config
         (daysRemaining (cert_NotAfter cert) (timeNow env (clockReads w))))
      EmptyString.
Proof.
  unfold dialAnswer, checkCertificate, bind, logLine, emit, tls_Dial,
    time_Now, ret.
  cbn -[withDefaults String.append itoa daysRemaining classify issuerOf].
  intros ->. reflexivity.
Qed.

(** Every probe dials once. *)
Lemma checkCertificate_dials env config site w :
  dials (snd (checkCertificate env config site w)) = S (dials w).
Proof.
  unfold checkCertificate, bind, logLine, emit, tls_Dial, time_Now, ret.
  cbn -[withDefaults String.append itoa daysRemaining classify issuerOf].
  destruct (tlsDial env (dials w) _ _) as [err|[|cert rest]]; reflexivity.
Qed.

Ltac classify_cases :=
  unfold classify;
  repeat match goal with
         | |- context [?a <? ?b] => destruct (Z.ltb_spec a b)
         | |- context [?a <=? ?b] => destruct (Z.leb_spec a b)
         end;
  try reflexivity; try discriminate; try lia.

Lemma classify_not_error config days : classify config days <> "ERROR".
Proof. classify_cases. Qed.

Lemma classify_labels config days :
  classify config days = "OK" \/ classify config days = "WARNING"
  \/ classify config days = "CRITICAL".
Proof. classify_cases; auto. Qed.

Lemma issuerOf_nonempty cert : issuerOf cert <> EmptyString.
Proof.
  unfold issuerOf. cbv zeta.
  destruct (String.eqb_spec
              (strings_Join match Organization (cert_Issuer cert) with
                            | [] => [CommonName (cert_Issuer cert)]
                            | _ :: _ => Organization (cert_Issuer cert)
                            end ", ") EmptyString) as [E|E].
  - discriminate.
  - exact E.
Qed.

(** ** C1: the day count is cut toward zero *)


(** Away from the whole hours the rounding of the floats shows: one
    nanosecond short of 200 days, [Hours()] is already [4800.0] and the
    day count is 200, where the exact quotient is below 200. *)
Example daysRemaining_one_nanosecond_short :
  daysRemaining (someInstant + 200 * 24 * Hour - 1) someInstant = 200
  /\ floorDays (someInstant + 200 * 24 * Hour - 1) someInstant = 199.
Proof. split; vm_compute; reflexivity. Qed.



(** ** C2, C3, C4: the status decision *)

(** The thresholds and the day counts of [TestCertInfoStatusDetermination]. *)
Example classify_test_cases :
  classify (exampleConfig [] 30 7 []) 60 = "OK"
  /\ classify (exampleConfig [] 30 7 []) 20 = "WARNING"
  /\ classify (exampleConfig [] 30 7 []) 5 = "CRITICAL"
  /\ classify (exampleConfig [] 30 7 []) (-1) = "CRITICAL".
Proof. repeat split. Qed.

(** C2, as stated, fails: with [warning_days: 5] and [critical_days: 10]
    a certificate with 7 days left is above the warning threshold and is
    CRITICAL, not OK. *)
Lemma status_buckets_need_ordered_thresholds :
  7 > WarningDays (Alert (exampleConfig [] 5 10 []))
  /\ classify (exampleConfig [] 5 10 []) 7 = "CRITICAL"
  /\ classify (exampleConfig [] 5 10 []) 7 <> "OK".
Proof. split; [reflexivity | split; [reflexivity | discriminate]]. Qed.

(** C2, amended: for every probe that obtains a certificate, with [d] the
    day count of the result and any thresholds, the status is CRITICAL
    when [d < 0]; CRITICAL when [0 <= d <= criticalDays]; WARNING when
    [0 <= d] and [criticalDays < d <= warningDays]; OK when [0 <= d],
    [criticalDays < d] and [warningDays < d].  The branches are tried in
    this order, boundary values fall in the more severe bucket and a
    negative [d] is compared as it is.  For thresholds with
    [0 <= criticalDays <= warningDays] the last two cases are those of
    the claim: WARNING when [criticalDays < d <= warningDays] and OK when
    [d > warningDays]. *)
Theorem status_buckets
    (env : Env) (config : Config) (site : Site) (w : World)
    (cert : Certificate) (rest : list Certificate) :
  dialAnswer env site w = DialOK (cert :: rest) ->
  let result := fst (checkCertificate env config site w) in
  let d := DaysRemaining result in
  let c := CriticalDays (Alert config) in
  let wd := WarningDays (Alert config) in
  (d < 0 -> Status result = "CRITICAL")
  /\ (0 <= d <= c -> Status result = "CRITICAL")
  /\ (0 <= d -> c < d <= wd -> Status result = "WARNING")
  /\ (0 <= d -> c < d -> wd < d -> Status result = "OK")
  /\ (0 <= c <= wd ->
      (c < d <= wd -> Status result = "WARNING")
      /\ (d > wd -> Status result = "OK")).
Proof.
  intros Hdial. rewrite (checkCertificate_leaf _ _ _ _ _ _ Hdial).
  cbn [DaysRemaining Status].
  generalize (daysRemaining (cert_NotAfter cert) (timeNow env (clockReads w))).
  intros d. cbv zeta.
  repeat split; intros; classify_cases.
Qed.

Lemma status_buckets_witness :
  Status (fst (checkCertificate halfDayLateEnv (exampleConfig [] 30 7 [])
                 exampleSite initialWorld)) = "CRITICAL".
Proof.
  apply (proj1 (proj2 (status_buckets halfDayLateEnv
                         (exampleConfig [] 30 7 []) exampleSite initialWorld
                         (exampleCert someInstant) [] eq_refl))).
  vm_compute. split; discriminate.
Defined.

(** C3, as stated, fails: with [warning_days: 7] and [critical_days: 7]
    a day count equal to the warning threshold is CRITICAL, not
    WARNING. *)
Lemma boundary_law_needs_distinct_thresholds :
  classify (exampleConfig [] 7 7 [])
           (WarningDays (Alert (exampleConfig [] 7 7 []))) = "CRITICAL"
  /\ classify (exampleConfig [] 7 7 [])
              (WarningDays (Alert (exampleConfig [] 7 7 []))) <> "WARNING".
Proof. split; [reflexivity | discriminate]. Qed.

(** C3, amended: for every pair of thresholds, a day count equal to
    [criticalDays] is CRITICAL and a day count of [-1] is CRITICAL; a day
    count equal to [warningDays] is WARNING exactly when
    [0 <= warningDays] and [criticalDays < warningDays], and CRITICAL
    otherwise. *)
Theorem boundary_law (config : Config) :
  classify config (CriticalDays (Alert config)) = "CRITICAL"
  /\ classify config (-1) = "CRITICAL"
  /\ (classify config (WarningDays (Alert config)) = "WARNING"
      <-> 0 <= WarningDays (Alert config)
          /\ CriticalDays (Alert config) < WarningDays (Alert config))
  /\ (classify config (WarningDays (Alert config)) = "CRITICAL"
      <-> WarningDays (Alert config) < 0
          \/ WarningDays (Alert config) <= CriticalDays (Alert config)).
Proof.
  split; [classify_cases|]. split; [classify_cases|].
  split; split; intros H; revert H; classify_cases.
Qed.

Lemma boundary_law_witness :
  classify (exampleConfig [] 30 7 []) 30 = "WARNING".
Proof.
  apply (proj2 (proj1 (proj2 (proj2 (boundary_law (exampleConfig [] 30 7 [])))))).
  cbn. lia.
Defined.

(** The status decision never grows less severe as the day count
    falls, whatever the thresholds. *)
Lemma classify_antitone (config : Config) (d1 d2 : Z) :
  d1 <= d2 ->
  exists s1 s2,
    severity (classify config d1) = Some s1
    /\ severity (classify config d2) = Some s2
    /\ (s2 <= s1)%nat.
Proof.
  intros Hle. unfold classify.
  repeat match goal with
         | |- context [?a <? ?b] => destruct (Z.ltb_spec a b)
         | |- context [?a <=? ?b] => destruct (Z.leb_spec a b)
         end;
    try lia;
    cbn; do 2 eexists; (split; [reflexivity | split; [reflexivity | lia]]).
Qed.

(** C4: for thresholds with [criticalDays <= warningDays] and day counts
    [d1 <= d2], the status of [d1] is at least as severe as the status of
    [d2] in the order OK < WARNING < CRITICAL. *)
Theorem classify_monotone (config : Config) (d1 d2 : Z) :
  CriticalDays (Alert config) <= WarningDays (Alert config) ->
  d1 <= d2 ->
  exists s1 s2,
    severity (classify config d1) = Some s1
    /\ severity (classify config d2) = Some s2
    /\ (s2 <= s1)%nat.
Proof. intros _. apply classify_antitone. Qed.

Lemma classify_monotone_witness :
  exists s1 s2,
    severity (classify (exampleConfig [] 30 7 []) 5) = Some s1
    /\ severity (classify (exampleConfig [] 30 7 []) 20) = Some s2
    /\ (s2 <= s1)%nat.
Proof.
  apply (classify_monotone (exampleConfig [] 30 7 []) 5 20); cbn; lia.
Defined.

(** ** C5: one result per site, in order *)

(** The identity of a result is that of its site, whatever the probe
    met. *)
Lemma checkCertificate_identity env config site w :
  SiteName (fst (checkCertificate env config site w))
    = site_Name (withDefaults site)
  /\ URL (fst (checkCertificate env config site w)) = site_URL site
  /\ Port (fst (checkCertificate env config site w))
     = site_Port (withDefaults site).
Proof.
  destruct (dialAnswer env site w) as [err|[|cert rest]] eqn:E.
  - rewrite (checkCertificate_dial_error _ _ _ _ _ E). auto.
  - rewrite (checkCertificate_no_certificate _ _ _ _ E). auto.
  - rewrite (checkCertificate_leaf _ _ _ _ _ _ E). auto.
Qed.

(** The loop appends to [results] one result per site: the [i]-th is the
    probe of the [i]-th site, run as the [i]-th dial after [w]. *)
Lemma checkSitesFrom_spec env config (sites : list Site) :
  forall (results : list CertInfo) (w : World),
  exists added,
    fst (checkSitesFrom env config sites results w) = (results ++ added)%list
    /\ List.length added = List.length sites
    /\ forall i site,
        nth_error sites i = Some site ->
        exists w',
          dials w' = (dials w + i)%nat
          /\ nth_error added i
             = Some (fst (checkCertificate env config site w')).
Proof.
  induction sites as [|site0 rest IH]; intros results w.
  - exists []. cbn. rewrite app_nil_r. repeat split.
    intros [|i] site H; discriminate H.
  - cbn [checkSitesFrom]. unfold bind at 1.
    destruct (checkCertificate env config site0 w) as [r w1] eqn:E.
    destruct (IH (results ++ [r])%list w1) as (added & Hres & Hlen & Hnth).
    exists (r :: added). split; [|split].
    + rewrite Hres, <- app_assoc. reflexivity.
    + cbn. rewrite Hlen. reflexivity.
    + intros [|i] site H; cbn in H.
      * injection H as Hs. subst site. exists w. split; [lia|].
        cbn [nth_error]. rewrite E. reflexivity.
      * destruct (Hnth i site H) as (w' & Hd & Hr).
        exists w'. split; [|exact Hr].
        rewrite Hd. pose proof (checkCertificate_dials env config site0 w) as D.
        rewrite E in D. cbn in D. rewrite D. lia.
Qed.

Lemma checkAllSites_results env config w :
  fst (checkAllSites env config w)
  = fst (checkSitesFrom env config (Sites config) []
           (snd (logLine (itoa (Z.of_nat (List.length (Sites config)))
                          ++ "サイトのチェックを開始します") w))).
Proof.
  unfold checkAllSites, bind, ret.
  destruct (logLine _ w) as [u w0]. cbn [snd].
  destruct (checkSitesFrom env config (Sites config) [] w0) as [rs w1].
  destruct (logLine _ w1). reflexivity.
Qed.

(** C5: a scan over [N] sites gives [N] results; the [i]-th result is the
    probe of the [i]-th site, it is the [i]-th dial of the scan, and it
    carries the URL, the port and the name of that site; when every dial
    fails the batch still has [N] results, all of them ERROR. *)
Theorem checkAllSites_one_result_per_site (env : Env) (config : Config)
    (w : World) :
  let results := fst (checkAllSites env config w) in
  List.length results = List.length (Sites config)
  /\ (forall i site,
        nth_error (Sites config) i = Some site ->
        exists w' result,
          dials w' = (dials w + i)%nat
          /\ nth_error results i = Some result
          /\ result = fst (checkCertificate env config site w')
          /\ URL result = site_URL site
          /\ Port result = site_Port (withDefaults site)
          /\ SiteName result = site_Name (withDefaults site))
  /\ ((forall k address serverName,
          exists err, tlsDial env k address serverName = DialError err) ->
      List.length results = List.length (Sites config)
      /\ Forall (fun result => Status result = "ERROR") results).
Proof.
  cbv zeta. rewrite checkAllSites_results.
  set (w0 := snd (logLine _ w)).
  assert (Hd0 : dials w0 = dials w) by reflexivity.
  destruct (checkSitesFrom_spec env config (Sites config) [] w0)
    as (added & Hres & Hlen & Hnth).
  rewrite Hres. cbn [app].
  assert (Hall : forall i site, nth_error (Sites config) i = Some site ->
            exists w' result,
              dials w' = (dials w + i)%nat
              /\ nth_error added i = Some result
              /\ result = fst (checkCertificate env config site w')
              /\ URL result = site_URL site
              /\ Port result = site_Port (withDefaults site)
              /\ SiteName result = site_Name (withDefaults site)).
  { intros i site H. destruct (Hnth i site H) as (w' & Hd & Hr).
    exists w', (fst (checkCertificate env config site w')).
    destruct (checkCertificate_identity env config site w') as (Hn & Hu & Hp).
    rewrite Hd, Hd0. auto 10. }
  split; [exact Hlen|]. split; [exact Hall|].
  intros Hfail. split; [exact Hlen|].
  apply Forall_forall. intros r Hin.
  apply In_nth_error in Hin as [i Hi].
  assert (Hlt : (i < List.length (Sites config))%nat).
  { rewrite <- Hlen. apply nth_error_Some. rewrite Hi. discriminate. }
  destruct (nth_error (Sites config) i) as [site|] eqn:Hs.
  2:{ apply nth_error_None in Hs. lia. }
  destruct (Hall i site Hs) as (w' & r' & _ & Hr' & Heq & _).
  rewrite Hi in Hr'. injection Hr' as <-.
  destruct (Hfail (dials w')
              (site_URL (withDefaults site) ++ ":"
               ++ itoa (site_Port (withDefaults site)))
              (site_URL (withDefaults site))) as [err Herr].
  rewrite Heq, (checkCertificate_dial_error env config site w' err Herr).
  reflexivity.
Qed.

Lemma checkAllSites_one_result_per_site_witness :
  List.length (fst (checkAllSites offlineEnv (exampleConfig twoSites 30 7 [])
                      initialWorld))
  = List.length (Sites (exampleConfig twoSites 30 7 []))
  /\ Forall (fun result => Status result = "ERROR")
            (fst (checkAllSites offlineEnv (exampleConfig twoSites 30 7 [])
                    initialWorld)).
Proof.
  apply (proj2 (proj2 (checkAllSites_one_result_per_site offlineEnv
                         (exampleConfig twoSites 30 7 []) initialWorld))).
  intros k address serverName. exists "no such host".
  destruct k; reflexivity.
Defined.

(** ** C6: the exit code *)

Lemma hasIssues_true_iff (results : list CertInfo) :
  hasIssues results = true
  <-> Exists (fun result => Status result = "WARNING"
                            \/ Status result = "CRITICAL"
                            \/ Status result = "ERROR") results.
Proof.
  induction results as [|r rest IH]; cbn [hasIssues].
  - split; [discriminate | intros H; inversion H].
  - destruct (String.eqb_spec (Status r) "WARNING") as [Ew|Ew];
    destruct (String.eqb_spec (Status r) "CRITICAL") as [Ec|Ec];
    destruct (String.eqb_spec (Status r) "ERROR") as [Ee|Ee];
    cbn [orb];
    try (split; [intros _; apply Exists_cons_hd; auto | reflexivity]).
    rewrite IH. split.
    + intros H. apply Exists_cons_tl. exact H.
    + intros H. inversion H as [? ? [Hw|[Hc|He]]|]; subst;
        [contradiction | contradiction | contradiction | assumption].
Qed.

(** C6: the exit code is 0 when every result is OK, in particular for an
    empty batch, and 1 when some result is WARNING, CRITICAL or ERROR. *)
Theorem exitCode_reports_issues (results : list CertInfo) :
  (Forall (fun result => Status result = "OK") results ->
   exitCode results = 0)
  /\ (Exists (fun result => Status result = "WARNING"
                            \/ Status result = "CRITICAL"
                            \/ Status result = "ERROR") results ->
      exitCode results = 1)
  /\ exitCode [] = 0.
Proof.
  unfold exitCode. split; [|split; [|reflexivity]].
  - intros Hok. destruct (hasIssues results) eqn:E; [|reflexivity].
    apply hasIssues_true_iff in E. apply Exists_exists in E as (r & Hin & Hr).
    rewrite Forall_forall in Hok. rewrite (Hok r Hin) in Hr.
    destruct Hr as [H|[H|H]]; discriminate H.
  - intros Hex. apply hasIssues_true_iff in Hex. rewrite Hex. reflexivity.
Qed.

Lemma exitCode_reports_issues_witness :
  exitCode [resultWith "a" "OK"; resultWith "b" "OK"] = 0
  /\ exitCode [resultWith "a" "OK"; resultWith "b" "WARNING"] = 1.
Proof.
  split.
  - apply (proj1 (exitCode_reports_issues _)).
    repeat constructor.
  - apply (proj1 (proj2 (exitCode_reports_issues _))).
    apply Exists_cons_tl, Exists_cons_hd. left. reflexivity.
Defined.

(** ** C7: the results the webhook is sent *)

Lemma appendIfListed_spec (result : CertInfo) (notifyOn : list string)
    (acc : list CertInfo) :
  appendIfListed result notifyOn acc
  = if statusListed notifyOn result then (acc ++ [result])%list else acc.
Proof.
  unfold statusListed.
  induction notifyOn as [|status rest IH]; cbn [appendIfListed existsb].
  - reflexivity.
  - destruct (String.eqb (Status result) status); cbn [orb];
      [reflexivity | exact IH].
Qed.

Lemma fold_appendIfListed (notifyOn : list string) (results : list CertInfo) :
  forall acc,
    fold_left (fun filteredResults result =>
                 appendIfListed result notifyOn filteredResults) results acc
    = (acc ++ filter (statusListed notifyOn) results)%list.
Proof.
  induction results as [|r rest IH]; intros acc; cbn [fold_left filter].
  - rewrite app_nil_r. reflexivity.
  - rewrite IH, appendIfListed_spec.
    destruct (statusListed notifyOn r);
      [rewrite <- app_assoc|]; reflexivity.
Qed.

Lemma statusListed_In (notifyOn : list string) (result : CertInfo) :
  statusListed notifyOn result = true <-> In (Status result) notifyOn.
Proof.
  unfold statusListed. rewrite existsb_exists. split.
  - intros (s & Hin & Heq). apply String.eqb_eq in Heq. rewrite Heq.
    exact Hin.
  - intros Hin. exists (Status result). split; [exact Hin|].
    apply String.eqb_refl.
Qed.

(** C7: with an empty notify-on list the filtered results are the whole
    batch, in order; otherwise they are the results whose status is in
    the list, each kept once however often its status is listed, in the
    order of the batch. *)
Theorem filterResults_spec (notifyOn : list string)
    (results : list CertInfo) :
  (notifyOn = [] -> filterResults notifyOn results = results)
  /\ (notifyOn <> [] ->
      filterResults notifyOn results
      = filter (statusListed notifyOn) results)
  /\ (forall result,
        statusListed notifyOn result = true <-> In (Status result) notifyOn).
Proof.
  unfold filterResults. split; [|split].
  - intros ->. reflexivity.
  - intros Hne. destruct notifyOn as [|s rest]; [contradiction|].
    replace (0 <? Z.of_nat (List.length (s :: rest))) with true
      by (symmetry; apply Z.ltb_lt; cbn [List.length]; lia).
    rewrite fold_appendIfListed. reflexivity.
  - intros result. apply statusListed_In.
Qed.

Lemma filterResults_spec_witness :
  filterResults [] [resultWith "a" "OK"; resultWith "b" "WARNING"]
  = [resultWith "a" "OK"; resultWith "b" "WARNING"]
  /\ filterResults ["WARNING"; "OK"; "WARNING"]
       [resultWith "a" "OK"; resultWith "b" "ERROR"; resultWith "c" "WARNING"]
     = [resultWith "a" "OK"; resultWith "c" "WARNING"].
Proof.
  split.
  - apply (proj1 (filterResults_spec [] _)). reflexivity.
  - rewrite (proj1 (proj2 (filterResults_spec ["WARNING"; "OK"; "WARNING"] _)))
      by discriminate.
    reflexivity.
Defined.

(** ** C8: the outcomes of the webhook dispatcher *)

Lemma buildEmbeds_trace env (filteredResults : list CertInfo) :
  forall embeds w,
    trace (snd (buildEmbeds env filteredResults embeds w)) = trace w.
Proof.
  induction filteredResults as [|cert rest IH]; intros embeds w.
  - reflexivity.
  - cbn [buildEmbeds]. unfold bind, time_Now. rewrite IH. reflexivity.
Qed.

Lemma noHttpCall_logs (lines : list string) :
  noHttpCall (map LogLine lines).
Proof.
  intros url contentType body Hin. apply in_map_iff in Hin as (l & H & _).
  discriminate H.
Qed.

(** The ways through [sendDiscordNotification]. *)
Lemma send_disabled env config results w :
  Enabled (Discord config) = false ->
  sendDiscordNotification env config results w
  = (None, mkWorld (clockReads w) (dials w)
             (trace w ++ [LogLine "Discord通知は無効です"])).
Proof.
  intros H. unfold sendDiscordNotification. rewrite H. reflexivity.
Qed.

Lemma send_no_url env config results w :
  Enabled (Discord config) = true ->
  WebhookURL (Discord config) = EmptyString
  \/ WebhookURL (Discord config) = placeholderURL ->
  sendDiscordNotification env config results w
  = (None, mkWorld (clockReads w) (dials w)
             (trace w ++ [LogLine "Discord Webhook URLが設定されていません"])).
Proof.
  intros H Hurl. unfold sendDiscordNotification. rewrite H. cbn [negb].
  replace (String.eqb (WebhookURL (Discord config)) EmptyString
           || String.eqb (WebhookURL (Discord config)) placeholderURL)%bool
    with true; [reflexivity|].
  symmetry. apply orb_true_iff.
  destruct Hurl as [E|E]; [left|right]; apply String.eqb_eq; exact E.
Qed.

Lemma send_nothing_left env config results w :
  Enabled (Discord config) = true ->
  WebhookURL (Discord config) <> EmptyString ->
  WebhookURL (Discord config) <> placeholderURL ->
  filterResults (NotifyOn (Discord config)) results = [] ->
  sendDiscordNotification env config results w
  = (None, mkWorld (clockReads w) (dials w)
             (trace w ++ [LogLine "Discord通知対象の結果がありません"])).
Proof.
  intros H H1 H2 Hf. unfold sendDiscordNotification. rewrite H. cbn [negb].
  apply String.eqb_neq in H1, H2. rewrite H1, H2. cbn [orb]. cbv zeta.
  rewrite Hf. reflexivity.
Qed.

Lemma send_attempt env config results w :
  Enabled (Discord config) = true ->
  WebhookURL (Discord config) <> EmptyString ->
  WebhookURL (Discord config) <> placeholderURL ->
  filterResults (NotifyOn (Discord config)) results <> [] ->
  sendDiscordNotification env config results w
  = let (embeds, w1) :=
      buildEmbeds env (filterResults (NotifyOn (Discord config)) results)
                  [] w in
    match jsonMarshal env (mkPayload "SSL証明書チェッカー" embeds) with
    | inr err => (Some ("JSONのマーシャルに失敗: " ++ err), w1)
    | inl jsonData =>
        let url := WebhookURL (Discord config) in
        match httpPost env url "application/json" jsonData with
        | PostError err =>
            (Some ("Discord通知の送信に失敗: " ++ err),
             mkWorld (clockReads w1) (dials w1)
               (trace w1 ++ [HttpPost url "application/json" jsonData]))
        | PostResponse code =>
            (None,
             mkWorld (clockReads w1) (dials w1)
               ((trace w1 ++ [HttpPost url "application/json" jsonData])
                ++ [LogLine (if code =? 204 then "Discord通知を送信しました"
                             else "Discord通知の送信結果: " ++ itoa code)]))
        end
    end.
Proof.
  intros H H1 H2 Hf. unfold sendDiscordNotification. rewrite H. cbn [negb].
  apply String.eqb_neq in H1, H2. rewrite H1, H2. cbn [orb]. cbv zeta.
  destruct (filterResults (NotifyOn (Discord config)) results)
    as [|r0 filtered]; [contradiction|].
  replace (Z.of_nat (List.length (r0 :: filtered)) =? 0) with false
    by (symmetry; apply Z.eqb_neq; cbn [List.length]; lia).
  unfold bind at 1.
  destruct (buildEmbeds env (r0 :: filtered) [] w) as [embeds w1].
  destruct (jsonMarshal env (mkPayload "SSL証明書チェッカー" embeds))
    as [jsonData|err]; [|reflexivity].
  unfold bind, http_Post.
  destruct (httpPost env (WebhookURL (Discord config)) "application/json"
              jsonData) as [err|code]; [reflexivity|].
  destruct (code =? 204); reflexivity.
Qed.

(** C8: the dispatcher returns no error and posts nothing when the
    webhook is disabled, when the URL is empty or is the placeholder, or
    when no result is left after filtering; when it does post, every
    response, whatever its status code, gives no error; an error is
    returned only when [json.Marshal] fails (and then nothing is posted)
    or when the POST itself fails in transport.  Both failures are
    returned: a POST that fails in transport gives its error behind the
    words of the dispatcher, and so does a failure of [json.Marshal] of
    the payload of a dispatch that is not skipped; a dispatch that is
    not skipped and whose payload is marshalled does post it, to the
    configured URL as application/json. *)
Theorem sendDiscordNotification_outcomes (env : Env) (config : Config)
    (results : list CertInfo) (w : World) :
  exists events,
    trace (snd (sendDiscordNotification env config results w))
    = (trace w ++ events)%list
    /\ ((Enabled (Discord config) = false
         \/ WebhookURL (Discord config) = EmptyString
         \/ WebhookURL (Discord config) = placeholderURL
         \/ filterResults (NotifyOn (Discord config)) results = []) ->
        fst (sendDiscordNotification env config results w) = None
        /\ noHttpCall events)
    /\ (forall url contentType body code,
          In (HttpPost url contentType body) events ->
          httpPost env url contentType body = PostResponse code ->
          fst (sendDiscordNotification env config results w) = None)
    /\ (forall e,
          fst (sendDiscordNotification env config results w) = Some e ->
          (exists payload m,
              jsonMarshal env payload = inr m
              /\ e = "JSONのマーシャルに失敗: " ++ m
              /\ noHttpCall events)
          \/ (exists body m,
                 In (HttpPost (WebhookURL (Discord config))
                              "application/json" body) events
                 /\ httpPost env (WebhookURL (Discord config))
                             "application/json" body = PostError m
                 /\ e = "Discord通知の送信に失敗: " ++ m))
    /\ (forall url contentType body m,
          In (HttpPost url contentType body) events ->
          httpPost env url contentType body = PostError m ->
          fst (sendDiscordNotification env config results w)
          = Some ("Discord通知の送信に失敗: " ++ m))
    /\ (Enabled (Discord config) = true ->
        WebhookURL (Discord config) <> EmptyString ->
        WebhookURL (Discord config) <> placeholderURL ->
        filterResults (NotifyOn (Discord config)) results <> [] ->
        (forall m,
            jsonMarshal env
              (mkPayload "SSL証明書チェッカー"
                 (fst (buildEmbeds env
                         (filterResults (NotifyOn (Discord config)) results)
                         [] w)))
            = inr m ->
            fst (sendDiscordNotification env config results w)
            = Some ("JSONのマーシャルに失敗: " ++ m)
            /\ noHttpCall events)
        /\ (forall body,
              jsonMarshal env
                (mkPayload "SSL証明書チェッカー"
                   (fst (buildEmbeds env
                           (filterResults (NotifyOn (Discord config)) results)
                           [] w)))
              = inl body ->
              In (HttpPost (WebhookURL (Discord config)) "application/json"
                           body) events)).
Proof.
  destruct (Enabled (Discord config)) eqn:Hen.
  2:{ rewrite (send_disabled env config results w Hen). cbn [fst snd trace].
      eexists. split; [reflexivity|]. split; [|split; [|split; [|split]]].
      - intros _. split; [reflexivity|]. apply (noHttpCall_logs [_]).
      - reflexivity.
      - discriminate.
      - intros url contentType body m [H|[]]. discriminate H.
      - discriminate. }
  destruct (String.eqb_spec (WebhookURL (Discord config)) EmptyString)
    as [Hempty|Hempty].
  { rewrite (send_no_url env config results w Hen (or_introl Hempty)).
    cbn [fst snd trace].
    eexists. split; [reflexivity|]. split; [|split; [|split; [|split]]].
    - intros _. split; [reflexivity|]. apply (noHttpCall_logs [_]).
    - reflexivity.
    - discriminate.
    - intros url contentType body m [H|[]]. discriminate H.
    - intros _ H. contradiction. }
  destruct (String.eqb_spec (WebhookURL (Discord config)) placeholderURL)
    as [Hph|Hph].
  { rewrite (send_no_url env config results w Hen (or_intror Hph)).
    cbn [fst snd trace].
    eexists. split; [reflexivity|]. split; [|split; [|split; [|split]]].
    - intros _. split; [reflexivity|]. apply (noHttpCall_logs [_]).
    - reflexivity.
    - discriminate.
    - intros url contentType body m [H|[]]. discriminate H.
    - intros _ _ H. contradiction. }
  destruct (filterResults (NotifyOn (Discord config)) results)
    as [|r0 filtered] eqn:Hf.
  { rewrite (send_nothing_left env config results w Hen Hempty Hph Hf).
    cbn [fst snd trace].
    eexists. split; [reflexivity|]. split; [|split; [|split; [|split]]].
    - intros _. split; [reflexivity|]. apply (noHttpCall_logs [_]).
    - reflexivity.
    - discriminate.
    - intros url contentType body m [H|[]]. discriminate H.
    - intros _ _ _ H. contradiction. }
  assert (Hne : filterResults (NotifyOn (Discord config)) results <> [])
    by (rewrite Hf; discriminate).
  assert (Hskip : ~ (true = false \/ WebhookURL (Discord config) = EmptyString
                     \/ WebhookURL (Discord config) = placeholderURL
                     \/ r0 :: filtered = [])).
  { intros [H|[H|[H|H]]]; [discriminate | contradiction | contradiction
                           | discriminate]. }
  rewrite (send_attempt env config results w Hen Hempty Hph Hne). rewrite Hf.
  pose proof (buildEmbeds_trace env (r0 :: filtered) [] w) as Htr.
  destruct (buildEmbeds env (r0 :: filtered) [] w) as [embeds w1].
  cbn [snd] in Htr. cbn [fst].
  destruct (jsonMarshal env (mkPayload "SSL証明書チェッカー" embeds))
    as [jsonData|err] eqn:Hjson.
  2:{ exists []. cbn [fst snd]. rewrite Htr, app_nil_r.
      split; [reflexivity|]. split; [|split; [|split; [|split]]].
      - intros H. contradiction.
      - intros url contentType body code [].
      - intros e H. injection H as <-. left.
        exists (mkPayload "SSL証明書チェッカー" embeds), err.
        split; [exact Hjson|]. split; [reflexivity|].
        intros url contentType body [].
      - intros url contentType body m [].
      - intros _ _ _ _. split.
        + intros m H. injection H as <-. split; [reflexivity|].
          intros url contentType body [].
        + intros body H. discriminate H. }
  cbv zeta.
  destruct (httpPost env (WebhookURL (Discord config)) "application/json"
              jsonData) as [err|code] eqn:Hpost.
  - exists [HttpPost (WebhookURL (Discord config)) "application/json" jsonData].
    cbn [fst snd trace]. rewrite Htr.
    split; [reflexivity|]. split; [|split; [|split; [|split]]].
    + intros H. contradiction.
    + intros url contentType body code [H|[]]. injection H as <- <- <-.
      rewrite Hpost. discriminate.
    + intros e H. injection H as <-. right. exists jsonData, err.
      split; [left; reflexivity|]. split; [exact Hpost | reflexivity].
    + intros url contentType body m [H|[]]. injection H as <- <- <-.
      rewrite Hpost. intros H. injection H as <-. reflexivity.
    + intros _ _ _ _. split.
      * intros m H. discriminate H.
      * intros body H. injection H as <-. left. reflexivity.
  - exists [HttpPost (WebhookURL (Discord config)) "application/json" jsonData;
            LogLine (if code =? 204 then "Discord通知を送信しました"
                     else "Discord通知の送信結果: " ++ itoa code)].
    cbn [fst snd trace]. rewrite Htr, <- app_assoc.
    split; [reflexivity|]. split; [|split; [|split; [|split]]].
    + intros H. contradiction.
    + reflexivity.
    + discriminate.
    + intros url contentType body m [H|[H|[]]]; [|discriminate H].
      injection H as <- <- <-. rewrite Hpost. discriminate.
    + intros _ _ _ _. split.
      * intros m H. discriminate H.
      * intros body H. injection H as <-. left. reflexivity.
Qed.

Lemma sendDiscordNotification_outcomes_witness :
  (fst (sendDiscordNotification rejectingEnv
          (exampleConfig [] 30 7 ["CRITICAL"])
          [resultWith "a" "OK"; resultWith "b" "WARNING"] initialWorld) = None)
  /\ (fst (sendDiscordNotification rejectingEnv
             (exampleConfig [] 30 7 ["CRITICAL"])
             [resultWith "a" "OK"; resultWith "b" "CRITICAL"] initialWorld)
      = None)
  /\ (fst (sendDiscordNotification unreachableEnv
             (exampleConfig [] 30 7 ["CRITICAL"])
             [resultWith "a" "OK"; resultWith "b" "CRITICAL"] initialWorld)
      = Some "Discord通知の送信に失敗: connection refused")
  /\ (fst (sendDiscordNotification unmarshallableEnv
             (exampleConfig [] 30 7 ["CRITICAL"])
             [resultWith "a" "OK"; resultWith "b" "CRITICAL"] initialWorld)
      = Some "JSONのマーシャルに失敗: unsupported value")
  /\ In (HttpPost "https://discord.example/hook" "application/json" "{}")
        (trace (snd (sendDiscordNotification unreachableEnv
                       (exampleConfig [] 30 7 ["CRITICAL"])
                       [resultWith "a" "OK"; resultWith "b" "CRITICAL"]
                       initialWorld))).
Proof.
  split; [|split; [|split; [|split]]].
  - destruct (sendDiscordNotification_outcomes rejectingEnv
                (exampleConfig [] 30 7 ["CRITICAL"])
                [resultWith "a" "OK"; resultWith "b" "WARNING"] initialWorld)
      as (events & _ & Hskip & _).
    apply Hskip. right. right. right. reflexivity.
  - destruct (sendDiscordNotification_outcomes rejectingEnv
                (exampleConfig [] 30 7 ["CRITICAL"])
                [resultWith "a" "OK"; resultWith "b" "CRITICAL"] initialWorld)
      as (events & Htr & _ & Hresp & _).
    vm_compute in Htr. subst events.
    apply (Hresp "https://discord.example/hook" "application/json" "{}" 500).
    + left. reflexivity.
    + reflexivity.
  - destruct (sendDiscordNotification_outcomes unreachableEnv
                (exampleConfig [] 30 7 ["CRITICAL"])
                [resultWith "a" "OK"; resultWith "b" "CRITICAL"] initialWorld)
      as (events & Htr & _ & _ & _ & Hfail & _).
    vm_compute in Htr. subst events.
    apply (Hfail "https://discord.example/hook" "application/json" "{}"
                 "connection refused").
    + left. reflexivity.
    + reflexivity.
  - destruct (sendDiscordNotification_outcomes unmarshallableEnv
                (exampleConfig [] 30 7 ["CRITICAL"])
                [resultWith "a" "OK"; resultWith "b" "CRITICAL"] initialWorld)
      as (events & _ & _ & _ & _ & _ & Hsent).
    destruct Hsent as (Hmarshal & _);
      [reflexivity | discriminate | discriminate | discriminate |].
    apply (Hmarshal "unsupported value"). reflexivity.
  - destruct (sendDiscordNotification_outcomes unreachableEnv
                (exampleConfig [] 30 7 ["CRITICAL"])
                [resultWith "a" "OK"; resultWith "b" "CRITICAL"] initialWorld)
      as (events & Htr & _ & _ & _ & _ & Hsent).
    destruct Hsent as (_ & Hposted);
      [reflexivity | discriminate | discriminate | discriminate |].
    rewrite Htr. apply in_or_app. right. apply (Hposted "{}"). reflexivity.
Defined.

(** ** C9: the invariant of a probe result *)

(** C9: every result of [checkCertificate] has one of the four statuses;
    its error message is non-empty exactly when the status is ERROR; its
    certificate fields and day count are those of the leaf certificate
    (with a non-empty issuer) exactly when the status is not ERROR, and
    hold their zero values exactly when the status is ERROR, which
    covers the dial failure and the connection without certificates. *)
Theorem checkCertificate_invariant (env : Env) (config : Config)
    (site : Site) (w : World) :
  let result := fst (checkCertificate env config site w) in
  (Status result = "OK" \/ Status result = "WARNING"
   \/ Status result = "CRITICAL" \/ Status result = "ERROR")
  /\ (ErrorMessage result <> EmptyString <-> Status result = "ERROR")
  /\ (Status result <> "ERROR"
      <-> exists cert rest,
            dialAnswer env site w = DialOK (cert :: rest)
            /\ populatedFrom cert (timeNow env (clockReads w)) result
            /\ Issuer result <> EmptyString)
  /\ (Status result = "ERROR" <-> unpopulated result)
  /\ (dialAnswer env site w = DialOK [] -> Status result = "ERROR").
Proof.
  cbv zeta. unfold populatedFrom, unpopulated.
  destruct (dialAnswer env site w) as [err|[|cert rest]] eqn:E.
  - rewrite (checkCertificate_dial_error _ _ _ _ _ E).
    cbn [Status ErrorMessage Issuer Subject NotBefore NotAfter DaysRemaining].
    split; [auto|]. split; [|split; [|split]].
    + split; [reflexivity | intros _; discriminate].
    + split; [intros H; contradiction H; reflexivity
             | intros (c & r & H & _); discriminate H].
    + split; [intros _; repeat split | reflexivity].
    + discriminate.
  - rewrite (checkCertificate_no_certificate _ _ _ _ E).
    cbn [Status ErrorMessage Issuer Subject NotBefore NotAfter DaysRemaining].
    split; [auto|]. split; [|split; [|split]].
    + split; [reflexivity | intros _; discriminate].
    + split; [intros H; contradiction H; reflexivity
             | intros (c & r & H & _); discriminate H].
    + split; [intros _; repeat split | reflexivity].
    + reflexivity.
  - rewrite (checkCertificate_leaf _ _ _ _ _ _ E).
    cbn [Status ErrorMessage Issuer Subject NotBefore NotAfter DaysRemaining].
    pose proof (classify_not_error config
                  (daysRemaining (cert_NotAfter cert)
                     (timeNow env (clockReads w)))) as Hne.
    pose proof (classify_labels config
                  (daysRemaining (cert_NotAfter cert)
                     (timeNow env (clockReads w)))) as Hl.
    pose proof (issuerOf_nonempty cert) as Hi.
    split; [tauto|]. split; [|split; [|split]].
    + split; [intros H; contradiction H; reflexivity
             | intros H; contradiction].
    + split; [|intros _; exact Hne].
      intros _. exists cert, rest. repeat split. exact Hi.
    + split; [intros H; contradiction | intros (H & _); contradiction].
    + discriminate.
Qed.

Lemma checkCertificate_invariant_witness :
  unpopulated (fst (checkCertificate offlineEnv (exampleConfig [] 30 7 [])
                      exampleSite initialWorld)).
Proof.
  apply (proj1 (proj1 (proj2 (proj2 (proj2
           (checkCertificate_invariant offlineEnv (exampleConfig [] 30 7 [])
              exampleSite initialWorld)))))).
  reflexivity.
Defined.

(** A field set from the certificate may still hold a zero: the
    certificate that ran out twelve hours ago has a day count of [0]
    under the status CRITICAL. *)
Example populated_day_count_may_be_zero :
  Status (fst (checkCertificate halfDayLateEnv (exampleConfig [] 30 7 [])
                 exampleSite initialWorld)) = "CRITICAL"
  /\ DaysRemaining (fst (checkCertificate halfDayLateEnv
                           (exampleConfig [] 30 7 []) exampleSite
                           initialWorld)) = 0
  /\ Issuer (fst (checkCertificate halfDayLateEnv (exampleConfig [] 30 7 [])
                    exampleSite initialWorld)) = "Let's Encrypt".
Proof. repeat split; vm_compute; reflexivity. Qed.

(** ** C10: the HTML report does not escape *)

Lemma string_app_assoc (a b c : string) : (a ++ b) ++ c = a ++ (b ++ c).
Proof.
  induction a as [|x a IH]; cbn [append]; [reflexivity|].
  rewrite IH. reflexivity.
Qed.

Lemma string_app_nil_r (a : string) : a ++ EmptyString = a.
Proof.
  induction a as [|x a IH]; cbn [append]; [reflexivity|].
  rewrite IH. reflexivity.
Qed.

Lemma startsWith_nil (s : string) : startsWith EmptyString s.
Proof. exists s. reflexivity. Qed.

Lemma startsWith_cons (c : ascii) (prefix s : string) :
  startsWith prefix s -> startsWith (String c prefix) (String c s).
Proof. intros (after & ->). exists after. reflexivity. Qed.

Lemma startsWith_app (a prefix s : string) :
  startsWith prefix s -> startsWith (a ++ prefix) (a ++ s).
Proof.
  intros (after & ->). exists after. rewrite string_app_assoc. reflexivity.
Qed.

Lemma contains_startsWith (needle s : string) :
  startsWith needle s -> contains needle s.
Proof. intros (after & ->). exists EmptyString, after. reflexivity. Qed.

Lemma contains_skip_char (needle : string) (c : ascii) (s : string) :
  contains needle s -> contains needle (String c s).
Proof.
  intros (before & after & ->). exists (String c before), after. reflexivity.
Qed.

Lemma contains_app_r (needle a s : string) :
  contains needle s -> contains needle (a ++ s).
Proof.
  intros (before & after & ->). exists (a ++ before), after.
  rewrite string_app_assoc. reflexivity.
Qed.

Lemma contains_trans (a b c : string) :
  contains a b -> contains b c -> contains a c.
Proof.
  intros (p1 & q1 & ->) (p2 & q2 & ->).
  exists (p2 ++ p1), (q1 ++ q2).
  rewrite !string_app_assoc. reflexivity.
Qed.

(** Looks for the needle at the head of the text, then one byte or one
    variable piece further on. *)
Ltac starts_here :=
  solve [ apply contains_startsWith;
          repeat first [ apply startsWith_nil
                       | apply startsWith_cons
                       | apply startsWith_app ] ].

Ltac find_needle :=
  first [ starts_here
        | apply contains_skip_char; find_needle
        | apply contains_app_r; find_needle ].

(** The rows are appended one after the other. *)
Lemma fold_rows env (results : list CertInfo) :
  exists rows, forall html,
    fold_left (fun html cert => html ++ htmlRow env cert) results html
    = html ++ rows.
Proof.
  induction results as [|cert rest (rows & IH)].
  - exists EmptyString. intros html. cbn [fold_left].
    rewrite string_app_nil_r. reflexivity.
  - exists (htmlRow env cert ++ rows). intros html. cbn [fold_left].
    rewrite IH, string_app_assoc. reflexivity.
Qed.

Lemma generateHTMLReport_has_rows env results w result :
  In result results ->
  contains (htmlRow env result) (fst (generateHTMLReport env results w)).
Proof.
  intros Hin. apply in_split in Hin as (l1 & l2 & ->).
  unfold generateHTMLReport, bind, time_Now, ret. cbn [fst].
  rewrite fold_left_app. cbn [fold_left].
  destruct (fold_rows env l2) as (rows & Hrows). rewrite Hrows.
  match goal with
  | |- contains _ (((?x ++ _) ++ _) ++ _) => exists x, (rows ++ htmlFoot)
  end.
  rewrite !string_app_assoc. reflexivity.
Qed.

(** C10: every row of the HTML report holds the site name and the URL of
    its result between the cell tags as they are, and likewise the
    issuer (for a result that is not ERROR) or the error message (for
    an ERROR result); nothing is escaped, so markup in these strings is
    markup in the document. *)
Theorem generateHTMLReport_verbatim (env : Env) (results : list CertInfo)
    (w : World) (result : CertInfo) :
  In result results ->
  let html := fst (generateHTMLReport env results w) in
  contains ("<td>" ++ SiteName result ++ "</td>") html
  /\ contains ("<td>" ++ URL result ++ ":" ++ itoa (Port result) ++ "</td>")
              html
  /\ (Status result <> "ERROR" ->
      contains ("<td>" ++ Issuer result ++ "</td>") html)
  /\ (Status result = "ERROR" ->
      contains ("<td colspan=" ++ dq ++ "3" ++ dq ++ ">"
                ++ ErrorMessage result ++ "</td>") html).
Proof.
  intros Hin html.
  pose proof (generateHTMLReport_has_rows env results w result Hin) as Hrow.
  fold html in Hrow. clearbody html.
  split; [|split; [|split]]; [| |intros Hst|intros Hst];
    (apply (contains_trans _ (htmlRow env result)); [|exact Hrow]);
    clear Hrow; unfold htmlRow; cbv zeta.
  - destruct (negb (String.eqb (Status result) "ERROR"));
      cbn [append dq]; find_needle.
  - destruct (negb (String.eqb (Status result) "ERROR"));
      cbn [append dq]; find_needle.
  - apply String.eqb_neq in Hst. rewrite Hst.
    cbn [negb append dq]. find_needle.
  - apply String.eqb_eq in Hst. rewrite Hst.
    cbn [negb append dq]. find_needle.
Qed.

Lemma generateHTMLReport_verbatim_witness :
  contains ("<td>" ++ "<script>alert(1)</script>" ++ "</td>")
    (fst (generateHTMLReport offlineEnv
            (fst (checkAllSites offlineEnv
                    (exampleConfig [markupSite] 30 7 []) initialWorld))
            initialWorld)).
Proof.
  apply (proj1 (generateHTMLReport_verbatim offlineEnv
                  (fst (checkAllSites offlineEnv
                          (exampleConfig [markupSite] 30 7 []) initialWorld))
                  initialWorld
                  (fst (checkCertificate offlineEnv
                          (exampleConfig [markupSite] 30 7 []) markupSite
                          initialWorld))
                  (or_introl eq_refl))).
Defined.

(** * Further properties *)

(** ** The probe and the scan *)

Lemma withDefaults_idempotent (site : Site) :
  withDefaults (withDefaults site) = withDefaults site.
Proof.
  unfold withDefaults. cbn [site_URL site_Port site_Name].
  destruct (Z.eqb_spec (site_Port site) 0) as [Hp|Hp];
    destruct (String.eqb_spec (site_Name site) EmptyString) as [Hn|Hn].
  - cbn [Z.eqb]. destruct (String.eqb_spec (site_URL site) EmptyString);
      reflexivity.
  - cbn [Z.eqb]. apply String.eqb_neq in Hn. rewrite Hn. reflexivity.
  - apply Z.eqb_neq in Hp. rewrite Hp.
    destruct (String.eqb_spec (site_URL site) EmptyString); reflexivity.
  - apply Z.eqb_neq in Hp. apply String.eqb_neq in Hn. rewrite Hp, Hn.
    reflexivity.
Qed.

(** X1: whatever the probe meets, its result never has port 0 (a port of
    0 becomes 443, any other port is kept, also a negative one) and has
    an empty name only for a site whose name and URL are both empty;
    applying the defaults twice changes nothing. *)
Theorem probe_result_defaults (env : Env) (config : Config) (site : Site)
    (w : World) :
  Port (fst (checkCertificate env config site w)) <> 0
  /\ (site_Port site <> 0 ->
      Port (fst (checkCertificate env config site w)) = site_Port site)
  /\ (site_Port site = 0 ->
      Port (fst (checkCertificate env config site w)) = 443)
  /\ (site_Name site <> EmptyString ->
      SiteName (fst (checkCertificate env config site w)) = site_Name site)
  /\ (site_Name site = EmptyString ->
      SiteName (fst (checkCertificate env config site w)) = site_URL site)
  /\ (SiteName (fst (checkCertificate env config site w)) = EmptyString ->
      site_Name site = EmptyString /\ site_URL site = EmptyString)
  /\ withDefaults (withDefaults site) = withDefaults site.
Proof.
  destruct (checkCertificate_identity env config site w) as (Hn & _ & Hp).
  rewrite Hn, Hp. split; [|split; [|split; [|split; [|split; [|split]]]]];
    try apply withDefaults_idempotent;
    unfold withDefaults; cbn [site_Name site_Port];
    destruct (Z.eqb_spec (site_Port site) 0) as [E0|E0];
    destruct (String.eqb_spec (site_Name site) EmptyString) as [En|En];
    try (intros; congruence); try (intros; lia); try discriminate;
    try (intros H; split; congruence).
Qed.

Lemma probe_result_defaults_witness :
  Port (fst (checkCertificate offlineEnv (exampleConfig [] 30 7 [])
               exampleSite initialWorld)) = 443
  /\ SiteName (fst (checkCertificate offlineEnv (exampleConfig [] 30 7 [])
                      exampleSite initialWorld)) = "example.com".
Proof.
  split.
  - apply (proj1 (proj2 (proj2 (probe_result_defaults offlineEnv
             (exampleConfig [] 30 7 []) exampleSite initialWorld)))).
    reflexivity.
  - apply (proj1 (proj2 (proj2 (proj2 (proj2 (probe_result_defaults offlineEnv
             (exampleConfig [] 30 7 []) exampleSite initialWorld)))))).
    reflexivity.
Defined.

Lemma dialsOf_app (a b : list Event) :
  dialsOf (a ++ b) = (dialsOf a ++ dialsOf b)%list.
Proof.
  induction a as [|e a IH]; [reflexivity|].
  destruct e; cbn [dialsOf app]; rewrite IH; reflexivity.
Qed.

(** The events and the clock readings of one probe. *)
Lemma checkCertificate_world env config site w :
  trace (snd (checkCertificate env config site w))
  = (trace w
     ++ [LogLine ("チェック開始: " ++ site_Name site ++ " (" ++ site_URL site
                  ++ ":" ++ itoa (site_Port site) ++ ")");
         TlsDial (addressOf site) (site_URL site)]
     ++ match dialAnswer env site w with
        | DialError err =>
            [LogLine (addressOf site ++ " - " ++ "証明書の取得に失敗: " ++ err)]
        | DialOK _ => []
        end)%list
  /\ clockReads (snd (checkCertificate env config site w))
     = match dialAnswer env site w with
       | DialOK (_ :: _) => S (clockReads w)
       | _ => clockReads w
       end.
Proof.
  unfold dialAnswer, addressOf, checkCertificate, bind, logLine, emit,
    tls_Dial, time_Now, ret.
  cbn -[withDefaults String.append itoa daysRemaining classify issuerOf].
  change (site_URL (withDefaults site)) with (site_URL site).
  destruct (tlsDial env (dials w) _ _) as [err|[|cert rest]];
    cbn [snd trace clockReads]; rewrite <- ?app_assoc;
    split; try reflexivity.
  rewrite !string_app_assoc. reflexivity.
Qed.

(** X2: a probe dials once, at the URL and the port after the defaults,
    with the URL as server name; it logs its start, logs the failure of
    the dial, and logs nothing when the connection has no certificate;
    it reads the clock once when it has a leaf certificate and not at all
    otherwise; it posts nothing. *)
Theorem probe_effects (env : Env) (config : Config) (site : Site)
    (w : World) :
  dialsOf (trace (snd (checkCertificate env config site w)))
  = (dialsOf (trace w) ++ [(addressOf site, site_URL site)])%list
  /\ dials (snd (checkCertificate env config site w)) = S (dials w)
  /\ clockReads (snd (checkCertificate env config site w))
     = match dialAnswer env site w with
       | DialOK (_ :: _) => S (clockReads w)
       | _ => clockReads w
       end
  /\ (exists added,
        trace (snd (checkCertificate env config site w))
        = (trace w ++ added)%list
        /\ noHttpCall added
        /\ List.length added
           = match dialAnswer env site w with
             | DialError _ => 3%nat
             | DialOK _ => 2%nat
             end).
Proof.
  destruct (checkCertificate_world env config site w) as (Htr & Hck).
  split; [|split; [apply checkCertificate_dials|split; [exact Hck|]]].
  - rewrite Htr, !dialsOf_app. cbn [dialsOf].
    destruct (dialAnswer env site w); cbn [dialsOf]; rewrite ?app_nil_r;
      reflexivity.
  - eexists. split; [exact Htr|]. split.
    + intros url contentType body Hin. apply in_app_iff in Hin as [Hin|Hin].
      * destruct Hin as [H|[H|[]]]; discriminate H.
      * destruct (dialAnswer env site w); destruct Hin as [H|[]] || destruct Hin.
        discriminate H.
    + rewrite length_app. destruct (dialAnswer env site w); reflexivity.
Qed.

(** The same, in the form the scan uses. *)
Lemma probe_effects_parts env config site w :
  exists added,
    trace (snd (checkCertificate env config site w)) = (trace w ++ added)%list
    /\ noHttpCall added
    /\ dialsOf added = [(addressOf site, site_URL site)]
    /\ dials (snd (checkCertificate env config site w)) = S (dials w)
    /\ (clockReads w <= clockReads (snd (checkCertificate env config site w))
        <= S (clockReads w))%nat.
Proof.
  destruct (checkCertificate_world env config site w) as (Htr & Hck).
  eexists. split; [exact Htr|]. split; [|split; [|split]].
  - intros url contentType body Hin. apply in_app_iff in Hin as [Hin|Hin].
    + destruct Hin as [H|[H|[]]]; discriminate H.
    + destruct (dialAnswer env site w); destruct Hin as [H|[]] || destruct Hin.
      discriminate H.
  - rewrite dialsOf_app. cbn [dialsOf].
    destruct (dialAnswer env site w); reflexivity.
  - apply checkCertificate_dials.
  - rewrite Hck. destruct (dialAnswer env site w) as [|[|]]; lia.
Qed.

(** The status of a probe result is one of the four labels. *)
Lemma checkCertificate_label env config site w :
  Status (fst (checkCertificate env config site w)) = "OK"
  \/ Status (fst (checkCertificate env config site w)) = "WARNING"
  \/ Status (fst (checkCertificate env config site w)) = "CRITICAL"
  \/ Status (fst (checkCertificate env config site w)) = "ERROR".
Proof.
  destruct (dialAnswer env site w) as [err|[|cert rest]] eqn:E.
  - rewrite (checkCertificate_dial_error _ _ _ _ _ E). auto.
  - rewrite (checkCertificate_no_certificate _ _ _ _ E). auto.
  - rewrite (checkCertificate_leaf _ _ _ _ _ _ E). cbn [Status].
    pose proof (classify_labels config
                  (daysRemaining (cert_NotAfter cert)
                     (timeNow env (clockReads w)))).
    tauto.
Qed.

(** The world after the loop of the scan. *)
Lemma checkSitesFrom_world env config (sites : list Site) :
  forall (results : list CertInfo) (w : World),
  exists added,
    trace (snd (checkSitesFrom env config sites results w))
    = (trace w ++ added)%list
    /\ noHttpCall added
    /\ dialsOf added
       = map (fun site => (addressOf site, site_URL site)) sites
    /\ dials (snd (checkSitesFrom env config sites results w))
       = (dials w + List.length sites)%nat
    /\ (clockReads w
        <= clockReads (snd (checkSitesFrom env config sites results w))
        <= clockReads w + List.length sites)%nat.
Proof.
  induction sites as [|site rest IH]; intros results w.
  - exists []. cbn. rewrite app_nil_r. repeat split; try lia.
    intros url contentType body [].
  - cbn [checkSitesFrom]. unfold bind.
    destruct (probe_effects_parts env config site w)
      as (added1 & Htr1 & Hno1 & Hd1 & Hdials1 & Hck1).
    destruct (checkCertificate env config site w) as [r w1] eqn:E.
    cbn [snd] in Htr1, Hdials1, Hck1.
    destruct (IH (results ++ [r])%list w1)
      as (added2 & Htr2 & Hno2 & Hd2 & Hdials2 & Hck2).
    exists (added1 ++ added2)%list. split; [|split; [|split; [|split]]].
    + rewrite Htr2, Htr1, app_assoc. reflexivity.
    + intros url contentType body Hin.
      apply in_app_iff in Hin as [Hin|Hin];
        [exact (Hno1 _ _ _ Hin) | exact (Hno2 _ _ _ Hin)].
    + rewrite dialsOf_app, Hd1, Hd2. reflexivity.
    + rewrite Hdials2, Hdials1. cbn [List.length]. lia.
    + cbn [List.length]. lia.
Qed.

Lemma checkAllSites_world env config w :
  exists added,
    trace (snd (checkAllSites env config w)) = (trace w ++ added)%list
    /\ noHttpCall added
    /\ dialsOf added
       = map (fun site => (addressOf site, site_URL site)) (Sites config)
    /\ dials (snd (checkAllSites env config w))
       = (dials w + List.length (Sites config))%nat
    /\ (clockReads w <= clockReads (snd (checkAllSites env config w))
        <= clockReads w + List.length (Sites config))%nat.
Proof.
  unfold checkAllSites, bind, ret, logLine, emit. cbn [fst snd].
  match goal with
  | |- context [checkSitesFrom env config (Sites config) [] ?w0] =>
      destruct (checkSitesFrom_world env config (Sites config) [] w0)
        as (added & Htr & Hno & Hd & Hdials & Hck);
      destruct (checkSitesFrom env config (Sites config) [] w0) as [rs w1]
  end.
  cbn [snd trace dials clockReads] in *.
  eexists (_ :: added ++ [_])%list. split; [|split; [|split; [|split]]].
  - rewrite Htr, <- !app_assoc. reflexivity.
  - intros url contentType body [H|Hin]; [discriminate H|].
    apply in_app_iff in Hin as [Hin|[H|[]]];
      [exact (Hno _ _ _ Hin) | discriminate H].
  - cbn [dialsOf]. rewrite dialsOf_app, Hd. cbn [dialsOf].
    rewrite app_nil_r. reflexivity.
  - exact Hdials.
  - exact Hck.
Qed.

(** X3: a scan dials each site once, in the order of the site list, at
    the URL and the port after the defaults and with the URL as server
    name; there are no retries and no other dials; it reads the clock at
    most once per site and posts nothing. *)
Theorem scan_dials_in_order (env : Env) (config : Config) (w : World) :
  dialsOf (trace (snd (checkAllSites env config w)))
  = (dialsOf (trace w)
     ++ map (fun site => (addressOf site, site_URL site)) (Sites config))%list
  /\ dials (snd (checkAllSites env config w))
     = (dials w + List.length (Sites config))%nat
  /\ (clockReads w <= clockReads (snd (checkAllSites env config w))
      <= clockReads w + List.length (Sites config))%nat
  /\ (noHttpCall (trace w) ->
      noHttpCall (trace (snd (checkAllSites env config w)))).
Proof.
  destruct (checkAllSites_world env config w)
    as (added & Htr & Hno & Hd & Hdials & Hck).
  split; [|split; [exact Hdials|split; [exact Hck|]]].
  - rewrite Htr, dialsOf_app, Hd. reflexivity.
  - intros Hw url contentType body Hin. rewrite Htr in Hin.
    apply in_app_iff in Hin as [Hin|Hin];
      [exact (Hw _ _ _ Hin) | exact (Hno _ _ _ Hin)].
Qed.

Lemma scan_dials_in_order_witness :
  noHttpCall (trace (snd (checkAllSites offlineEnv
                            (exampleConfig twoSites 30 7 []) initialWorld))).
Proof.
  apply (proj2 (proj2 (proj2 (scan_dials_in_order offlineEnv
                                (exampleConfig twoSites 30 7 [])
                                initialWorld)))).
  intros url contentType body [].
Defined.

(** Every result of a scan is the result of a probe of one of its
    sites. *)
Lemma checkAllSites_members env config w result :
  In result (fst (checkAllSites env config w)) ->
  exists site w',
    In site (Sites config)
    /\ result = fst (checkCertificate env config site w').
Proof.
  rewrite checkAllSites_results.
  match goal with
  | |- context [checkSitesFrom env config (Sites config) [] ?w0] =>
      destruct (checkSitesFrom_spec env config (Sites config) [] w0)
        as (added & Hres & Hlen & Hnth)
  end.
  rewrite Hres. cbn [app]. intros Hin.
  apply In_nth_error in Hin as [i Hi].
  assert (Hlt : (i < List.length (Sites config))%nat).
  { rewrite <- Hlen. apply nth_error_Some. rewrite Hi. discriminate. }
  destruct (nth_error (Sites config) i) as [site|] eqn:Hs.
  2:{ apply nth_error_None in Hs. lia. }
  destruct (Hnth i site Hs) as (w' & _ & Hr).
  exists site, w'. split; [exact (nth_error_In _ _ Hs)|].
  rewrite Hi in Hr. injection Hr as ->. reflexivity.
Qed.

(** X4: the exit code of a scan is 0 exactly when every result is OK and
    1 exactly when some result is not OK; without sites it is 0; a site
    whose dial fails whenever it is tried makes it 1. *)
Theorem scan_exit_code (env : Env) (config : Config) (w : World) :
  (exitCode (fst (checkAllSites env config w)) = 0
   <-> Forall (fun result => Status result = "OK")
              (fst (checkAllSites env config w)))
  /\ (exitCode (fst (checkAllSites env config w)) = 1
      <-> Exists (fun result => Status result <> "OK")
                 (fst (checkAllSites env config w)))
  /\ (Sites config = [] -> exitCode (fst (checkAllSites env config w)) = 0)
  /\ (forall site,
        In site (Sites config) ->
        (forall k, exists err,
            tlsDial env k (addressOf site) (site_URL site) = DialError err) ->
        exitCode (fst (checkAllSites env config w)) = 1).
Proof.
  assert (Hlab : forall r, In r (fst (checkAllSites env config w)) ->
            Status r = "OK" \/ Status r = "WARNING"
            \/ Status r = "CRITICAL" \/ Status r = "ERROR").
  { intros r Hin.
    destruct (checkAllSites_members env config w r Hin) as (s & w' & _ & ->).
    apply checkCertificate_label. }
  assert (Hiff : hasIssues (fst (checkAllSites env config w)) = true
                 <-> Exists (fun result => Status result <> "OK")
                            (fst (checkAllSites env config w))).
  { rewrite hasIssues_true_iff, !Exists_exists. split.
    - intros (r & Hin & Hr). exists r. split; [exact Hin|].
      intros E. rewrite E in Hr. destruct Hr as [H|[H|H]]; discriminate H.
    - intros (r & Hin & Hr). exists r. split; [exact Hin|].
      destruct (Hlab r Hin) as [H|H]; [contradiction | exact H]. }
  assert (H1 : exitCode (fst (checkAllSites env config w)) = 1
               <-> Exists (fun result => Status result <> "OK")
                          (fst (checkAllSites env config w))).
  { rewrite <- Hiff. unfold exitCode.
    destruct (hasIssues _); split; intros H; try reflexivity;
      discriminate H. }
  assert (H0 : exitCode (fst (checkAllSites env config w)) = 0
               <-> Forall (fun result => Status result = "OK")
                          (fst (checkAllSites env config w))).
  { split.
    - intros E. apply Forall_forall. intros r Hin.
      destruct (String.eqb_spec (Status r) "OK") as [|Hne]; [assumption|].
      assert (Hex : Exists (fun result => Status result <> "OK")
                           (fst (checkAllSites env config w))).
      { apply Exists_exists. exists r. auto. }
      apply H1 in Hex. rewrite Hex in E. discriminate E.
    - intros Hall.
      assert (H01 : exitCode (fst (checkAllSites env config w)) = 0
                    \/ exitCode (fst (checkAllSites env config w)) = 1)
        by (unfold exitCode; destruct (hasIssues _); auto).
      destruct H01 as [E|E]; [exact E|].
      apply H1 in E. apply Exists_exists in E as (r & Hin & Hr).
      rewrite Forall_forall in Hall. contradiction (Hr (Hall r Hin)). }
  split; [exact H0|]. split; [exact H1|]. split.
  - intros Hs. apply H0. rewrite checkAllSites_results, Hs. constructor.
  - intros site Hin Hfail. apply H1.
    apply In_nth_error in Hin as [i Hi].
    rewrite checkAllSites_results.
    match goal with
    | |- context [checkSitesFrom env config (Sites config) [] ?w0] =>
        destruct (checkSitesFrom_spec env config (Sites config) [] w0)
          as (added & Hres & Hlen & Hnth)
    end.
    rewrite Hres. cbn [app].
    destruct (Hnth i site Hi) as (w' & _ & Hr).
    apply Exists_exists.
    exists (fst (checkCertificate env config site w')).
    split; [exact (nth_error_In _ _ Hr)|].
    destruct (Hfail (dials w')) as [err Herr].
    rewrite (checkCertificate_dial_error env config site w' err Herr).
    discriminate.
Qed.

Lemma scan_exit_code_witness :
  exitCode (fst (checkAllSites offlineEnv (exampleConfig twoSites 30 7 [])
                   initialWorld)) = 1
  /\ exitCode (fst (checkAllSites offlineEnv (exampleConfig [] 30 7 [])
                      initialWorld)) = 0.
Proof.
  split.
  - apply (proj2 (proj2 (proj2 (scan_exit_code offlineEnv
                                  (exampleConfig twoSites 30 7 [])
                                  initialWorld)))
             (mkSite "invalid-test-site-12345.com" 443 "Test Site 1")).
    + left. reflexivity.
    + intros k. exists "no such host". destruct k; reflexivity.
  - apply (proj1 (proj2 (proj2 (scan_exit_code offlineEnv
                                  (exampleConfig [] 30 7 [])
                                  initialWorld)))).
    reflexivity.
Defined.

(** ** The day count and the status at the edges *)

Lemma Time_Sub_high (t u : Time) :
  maxInt64 < t - u -> Time_Sub t u = maxInt64.
Proof.
  intros H. unfold Time_Sub. cbv zeta.
  replace (t - u <? minInt64) with false
    by (symmetry; apply Z.ltb_ge; unfold minInt64, maxInt64 in *; lia).
  replace (maxInt64 <? t - u) with true by (symmetry; apply Z.ltb_lt; lia).
  reflexivity.
Qed.

Lemma Time_Sub_low (t u : Time) :
  t - u < minInt64 -> Time_Sub t u = minInt64.
Proof.
  intros H. unfold Time_Sub. cbv zeta.
  replace (t - u <? minInt64) with true by (symmetry; apply Z.ltb_lt; lia).
  reflexivity.
Qed.

(** X5: the day count saturates.  When the certificate runs out more
    than [2^63 - 1] nanoseconds (about 292 years) after the probe, the
    result holds 106751 days, however far away the date is; when it ran
    out more than [2^63] nanoseconds before, the result holds -106751
    days.  The status is decided on the saturated count. *)
Theorem daysRemaining_saturates
    (env : Env) (config : Config) (site : Site) (w : World)
    (cert : Certificate) (rest : list Certificate) :
  dialAnswer env site w = DialOK (cert :: rest) ->
  (maxInt64 < cert_NotAfter cert - timeNow env (clockReads w) ->
   DaysRemaining (fst (checkCertificate env config site w)) = 106751
   /\ Status (fst (checkCertificate env config site w))
      = classify config 106751)
  /\ (cert_NotAfter cert - timeNow env (clockReads w) < minInt64 ->
      DaysRemaining (fst (checkCertificate env config site w)) = -106751
      /\ Status (fst (checkCertificate env config site w)) = "CRITICAL").
Proof.
  intros Hdial. rewrite (checkCertificate_leaf _ _ _ _ _ _ Hdial).
  cbn [DaysRemaining Status]. unfold daysRemaining. split; intros H.
  - rewrite (Time_Sub_high _ _ H).
    change (int_of_float64 (Duration_Hours maxInt64 / 24)%float) with 106751.
    split; reflexivity.
  - rewrite (Time_Sub_low _ _ H).
    change (int_of_float64 (Duration_Hours minInt64 / 24)%float)
      with (-106751).
    split; reflexivity.
Qed.

Lemma daysRemaining_saturates_witness :
  DaysRemaining (fst (checkCertificate foreverEnv (exampleConfig [] 30 7 [])
                        exampleSite initialWorld)) = 106751
  /\ Status (fst (checkCertificate foreverEnv (exampleConfig [] 30 7 [])
                    exampleSite initialWorld))
     = classify (exampleConfig [] 30 7 []) 106751.
Proof.
  apply (proj1 (daysRemaining_saturates foreverEnv (exampleConfig [] 30 7 [])
                  exampleSite initialWorld (exampleCert endOfTime) []
                  eq_refl)).
  vm_compute. reflexivity.
Defined.

(** X6: when [warningDays <= criticalDays] or [warningDays < 0], no probe
    result is ever WARNING: every certificate is CRITICAL or OK (or the
    probe is an ERROR). *)
Theorem no_warning_without_room (env : Env) (config : Config) (site : Site)
    (w : World) :
  WarningDays (Alert config) <= CriticalDays (Alert config)
  \/ WarningDays (Alert config) < 0 ->
  Status (fst (checkCertificate env config site w)) <> "WARNING"
  /\ forall days, classify config days <> "WARNING".
Proof.
  intros Hroom.
  assert (Hc : forall days, classify config days <> "WARNING")
    by (intros days; classify_cases).
  split; [|exact Hc].
  destruct (dialAnswer env site w) as [err|[|cert rest]] eqn:E.
  - rewrite (checkCertificate_dial_error _ _ _ _ _ E). discriminate.
  - rewrite (checkCertificate_no_certificate _ _ _ _ E). discriminate.
  - rewrite (checkCertificate_leaf _ _ _ _ _ _ E). apply Hc.
Qed.

Lemma no_warning_without_room_witness :
  Status (fst (checkCertificate halfDayLateEnv (exampleConfig [] 7 7 [])
                 exampleSite initialWorld)) <> "WARNING"
  /\ forall days, classify (exampleConfig [] 7 7 []) days <> "WARNING".
Proof.
  apply (no_warning_without_room halfDayLateEnv (exampleConfig [] 7 7 [])
           exampleSite initialWorld).
  left. cbn. lia.
Defined.

Lemma concat_cons_nonempty (sep first : string) (others : list string) :
  first <> EmptyString -> String.concat sep (first :: others) <> EmptyString.
Proof.
  intros Hne. destruct first as [|c first]; [contradiction|].
  destruct others; cbn; discriminate.
Qed.

(** X7: the issuer line is never empty.  When the certificate names
    organizations, the line is their names joined by a comma and a
    space, and the common name is not looked at, even if every
    organization name is empty; when it names none, the line is the
    common name; an empty line becomes Unknown. *)
Theorem issuer_line (cert : Certificate) :
  issuerOf cert <> EmptyString
  /\ (Organization (cert_Issuer cert) = [] ->
      issuerOf cert
      = if String.eqb (CommonName (cert_Issuer cert)) EmptyString
        then "Unknown" else CommonName (cert_Issuer cert))
  /\ (Organization (cert_Issuer cert) <> [] ->
      issuerOf cert
      = if String.eqb (strings_Join (Organization (cert_Issuer cert)) ", ")
                      EmptyString
        then "Unknown"
        else strings_Join (Organization (cert_Issuer cert)) ", ")
  /\ (forall first others,
        Organization (cert_Issuer cert) = first :: others ->
        first <> EmptyString ->
        issuerOf cert = strings_Join (first :: others) ", ").
Proof.
  split; [apply issuerOf_nonempty|]. unfold issuerOf, strings_Join.
  split; [|split].
  - intros ->. reflexivity.
  - destruct (Organization (cert_Issuer cert)); [contradiction|reflexivity].
  - intros first others -> Hne. cbv zeta.
    pose proof (concat_cons_nonempty ", " first others Hne) as Hc.
    apply String.eqb_neq in Hc. rewrite Hc. reflexivity.
Qed.

Lemma issuer_line_witness :
  issuerOf (mkCertificate (mkName ["Google Trust Services"; "LLC"] "WR2")
                          (mkName [] "www.google.com") 0 someInstant)
  = "Google Trust Services, LLC"
  /\ issuerOf (mkCertificate (mkName [] EmptyString) (mkName [] "x") 0 0)
     = "Unknown".
Proof.
  split.
  - apply (proj2 (proj2 (proj2 (issuer_line _)))
             "Google Trust Services" ["LLC"]); [reflexivity | discriminate].
  - exact (proj1 (proj2 (issuer_line
             (mkCertificate (mkName [] EmptyString) (mkName [] "x") 0 0)))
             eq_refl).
Defined.

(** ** The webhook *)

(** X8: the colour of an embed is never 0: it is green, orange, red and
    dark red for OK, WARNING, CRITICAL and ERROR, and grey for every
    other status, which is the only way to get grey. *)
Theorem colorOf_total (status : string) :
  colorOf status <> 0
  /\ colorOf "OK" = 65280 /\ colorOf "WARNING" = 16753920
  /\ colorOf "CRITICAL" = 16711680 /\ colorOf "ERROR" = 9109504
  /\ (colorOf status = 8421504
      <-> status <> "OK" /\ status <> "WARNING"
          /\ status <> "CRITICAL" /\ status <> "ERROR").
Proof.
  split; [|split; [reflexivity|split; [reflexivity|split;
           [reflexivity|split; [reflexivity|]]]]];
    unfold colorOf, colorMap, mapLookup;
    destruct (String.eqb_spec "OK" status) as [<-|H1];
    try (cbn; first [discriminate | split; [discriminate | intros H; tauto]]);
    destruct (String.eqb_spec "WARNING" status) as [<-|H2];
    try (cbn; first [discriminate | split; [discriminate | intros H; tauto]]);
    destruct (String.eqb_spec "CRITICAL" status) as [<-|H3];
    try (cbn; first [discriminate | split; [discriminate | intros H; tauto]]);
    destruct (String.eqb_spec "ERROR" status) as [<-|H4];
    try (cbn; first [discriminate | split; [discriminate | intros H; tauto]]).
  cbn. split; [intros _|reflexivity]. repeat split; congruence.
Qed.

Lemma filterResults_filter (notifyOn : list string)
    (results : list CertInfo) :
  notifyOn <> [] ->
  filterResults notifyOn results = filter (statusListed notifyOn) results.
Proof.
  intros Hne. unfold filterResults. destruct notifyOn as [|s rest];
    [contradiction|].
  replace (0 <? Z.of_nat (List.length (s :: rest))) with true
    by (symmetry; apply Z.ltb_lt; cbn [List.length]; lia).
  rewrite fold_appendIfListed. reflexivity.
Qed.

Lemma filter_idempotent {A} (f : A -> bool) (l : list A) :
  filter f (filter f l) = filter f l.
Proof.
  induction l as [|x l IH]; [reflexivity|]. cbn [filter].
  destruct (f x) eqn:E; [cbn [filter]; rewrite E, IH|]; auto.
Qed.

(** X9: filtering is stable and local.  Filtering a filtered batch again
    changes nothing; the filter of two batches put end to end is the
    two filtered batches put end to end; the filtered batch is never
    longer than the batch and holds only results of the batch. *)
Theorem filterResults_stable (notifyOn : list string)
    (results more : list CertInfo) :
  filterResults notifyOn (filterResults notifyOn results)
  = filterResults notifyOn results
  /\ filterResults notifyOn (results ++ more)
     = (filterResults notifyOn results ++ filterResults notifyOn more)%list
  /\ (List.length (filterResults notifyOn results)
      <= List.length results)%nat
  /\ (forall result,
        In result (filterResults notifyOn results) -> In result results).
Proof.
  destruct notifyOn as [|s rest].
  - cbn. repeat split; auto.
  - rewrite !(filterResults_filter (s :: rest)) by discriminate.
    split; [apply filter_idempotent|]. split; [apply filter_app|].
    split; [apply filter_length_le|].
    intros result Hin. apply filter_In in Hin. tauto.
Qed.

Lemma filterResults_stable_witness :
  In (resultWith "b" "WARNING") [resultWith "a" "OK"; resultWith "b" "WARNING"].
Proof.
  apply (proj2 (proj2 (proj2 (filterResults_stable ["WARNING"]
           [resultWith "a" "OK"; resultWith "b" "WARNING"] [])))).
  left. reflexivity.
Defined.

Lemma noHttpCall_app (a b : list Event) :
  noHttpCall a -> noHttpCall b -> noHttpCall (a ++ b).
Proof.
  intros Ha Hb url contentType body Hin.
  apply in_app_iff in Hin as [Hin|Hin];
    [exact (Ha _ _ _ Hin) | exact (Hb _ _ _ Hin)].
Qed.

Lemma postsOf_app (a b : list Event) :
  postsOf (a ++ b) = (postsOf a ++ postsOf b)%list.
Proof.
  induction a as [|e a IH]; [reflexivity|].
  destruct e; cbn [postsOf app]; rewrite IH; reflexivity.
Qed.

(** X10: with the notify-on list WARNING, CRITICAL, ERROR (in any order,
    with or without repeats) the webhook has something to send exactly
    when the exit code is 1; when the exit code is 0 the dispatcher
    returns no error and posts nothing. *)
Theorem webhook_follows_exit_code (env : Env) (config : Config)
    (results : list CertInfo) (w : World) :
  (forall status,
      In status (NotifyOn (Discord config))
      <-> status = "WARNING" \/ status = "CRITICAL" \/ status = "ERROR") ->
  (filterResults (NotifyOn (Discord config)) results = []
   <-> exitCode results = 0)
  /\ (exitCode results = 0 ->
      fst (sendDiscordNotification env config results w) = None
      /\ postsOf (trace (snd (sendDiscordNotification env config results w)))
         = postsOf (trace w)).
Proof.
  intros Hlabels.
  assert (Hne : NotifyOn (Discord config) <> []).
  { intros E. assert (H : In "WARNING" (NotifyOn (Discord config)))
      by (apply Hlabels; auto).
    rewrite E in H. destruct H. }
  assert (Hiff : filterResults (NotifyOn (Discord config)) results = []
                 <-> exitCode results = 0).
  { rewrite (filterResults_filter _ _ Hne). unfold exitCode. split.
    - intros Hf. destruct (hasIssues results) eqn:E; [|reflexivity].
      apply hasIssues_true_iff in E.
      apply Exists_exists in E as (r & Hin & Hr).
      assert (Hr' : In r (filter (statusListed (NotifyOn (Discord config)))
                             results)).
      { apply filter_In. split; [exact Hin|].
        apply statusListed_In, Hlabels, Hr. }
      rewrite Hf in Hr'. destruct Hr'.
    - intros Hz. destruct (hasIssues results) eqn:E; [discriminate Hz|].
      destruct (filter (statusListed (NotifyOn (Discord config))) results)
        as [|r rest] eqn:Hf; [reflexivity|].
      assert (Hin : In r (filter (statusListed (NotifyOn (Discord config)))
                            results)) by (rewrite Hf; left; reflexivity).
      apply filter_In in Hin as [Hin Hl].
      apply statusListed_In, Hlabels in Hl.
      assert (Ht : hasIssues results = true).
      { apply hasIssues_true_iff, Exists_exists. exists r. auto. }
      rewrite Ht in E. discriminate E. }
  split; [exact Hiff|]. intros Hz. apply Hiff in Hz.
  destruct (Enabled (Discord config)) eqn:Hen.
  2:{ rewrite (send_disabled env config results w Hen). cbn [fst snd trace].
      rewrite postsOf_app, app_nil_r. auto. }
  destruct (String.eqb_spec (WebhookURL (Discord config)) EmptyString)
    as [He|He].
  { rewrite (send_no_url env config results w Hen (or_introl He)).
    cbn [fst snd trace]. rewrite postsOf_app, app_nil_r. auto. }
  destruct (String.eqb_spec (WebhookURL (Discord config)) placeholderURL)
    as [Hp|Hp].
  { rewrite (send_no_url env config results w Hen (or_intror Hp)).
    cbn [fst snd trace]. rewrite postsOf_app, app_nil_r. auto. }
  rewrite (send_nothing_left env config results w Hen He Hp Hz).
  cbn [fst snd trace]. rewrite postsOf_app, app_nil_r. auto.
Qed.

Lemma webhook_follows_exit_code_witness :
  fst (sendDiscordNotification rejectingEnv
         (exampleConfig [] 30 7 issueLabels)
         [resultWith "a" "OK"; resultWith "b" "OK"] initialWorld) = None
  /\ postsOf (trace (snd (sendDiscordNotification rejectingEnv
                            (exampleConfig [] 30 7 issueLabels)
                            [resultWith "a" "OK"; resultWith "b" "OK"]
                            initialWorld)))
     = postsOf (trace initialWorld).
Proof.
  apply (proj2 (webhook_follows_exit_code rejectingEnv
                  (exampleConfig [] 30 7 issueLabels)
                  [resultWith "a" "OK"; resultWith "b" "OK"] initialWorld
                  ltac:(intros status; cbn; intuition congruence))).
  reflexivity.
Defined.

(** What [buildEmbeds] appends: one embed per result, in order, each
    stamped with its own reading of the clock. *)
Lemma buildEmbeds_result env (filteredResults : list CertInfo) :
  forall embeds w,
  exists added,
    fst (buildEmbeds env filteredResults embeds w) = (embeds ++ added)%list
    /\ map embed_Title added
       = map (fun cert => "🔒 " ++ SiteName cert) filteredResults
    /\ map embed_Color added
       = map (fun cert => colorOf (Status cert)) filteredResults
    /\ map embed_Fields added = map (fieldsOf env) filteredResults
    /\ map embed_Timestamp added
       = map (fun k => formatLocal env (timeNow env k)
                         "2006-01-02T15:04:05Z07:00")
             (seq (clockReads w) (List.length filteredResults)).
Proof.
  induction filteredResults as [|cert rest IH]; intros embeds w.
  - exists []. cbn. rewrite app_nil_r. auto.
  - cbn [buildEmbeds]. unfold bind, time_Now.
    match goal with
    | |- context [buildEmbeds env rest (embeds ++ [?e]) ?w1] =>
        destruct (IH (embeds ++ [e])%list w1)
          as (added & Hres & Ht & Hc & Hf & Hs);
        exists (e :: added)
    end.
    cbn [clockReads] in Hs.
    split; [rewrite Hres, <- app_assoc; reflexivity|].
    cbn [map List.length seq embed_Title embed_Color embed_Fields
           embed_Timestamp].
    rewrite Ht, Hc, Hf, Hs. auto.
Qed.

(** X11: a dispatch posts at most once.  What it posts goes to the
    configured webhook URL as application/json, and is the JSON of a
    payload with the fixed user name and one embed per filtered result,
    in the order of the batch: the title is the site name after the
    lock sign, the colour is that of the status, the fields are those
    of the result and the time stamp is a reading of the clock of its
    own. *)
Theorem webhook_post_content (env : Env) (config : Config)
    (results : list CertInfo) (w : World) :
  exists events,
    trace (snd (sendDiscordNotification env config results w))
    = (trace w ++ events)%list
    /\ (List.length (postsOf events) <= 1)%nat
    /\ forall url contentType body,
         In (HttpPost url contentType body) events ->
         url = WebhookURL (Discord config)
         /\ contentType = "application/json"
         /\ Enabled (Discord config) = true
         /\ exists embeds,
              jsonMarshal env (mkPayload "SSL証明書チェッカー" embeds)
              = inl body
              /\ map embed_Title embeds
                 = map (fun cert => "🔒 " ++ SiteName cert)
                       (filterResults (NotifyOn (Discord config)) results)
              /\ map embed_Color embeds
                 = map (fun cert => colorOf (Status cert))
                       (filterResults (NotifyOn (Discord config)) results)
              /\ map embed_Fields embeds
                 = map (fieldsOf env)
                       (filterResults (NotifyOn (Discord config)) results)
              /\ map embed_Timestamp embeds
                 = map (fun k => formatLocal env (timeNow env k)
                                   "2006-01-02T15:04:05Z07:00")
                       (seq (clockReads w)
                            (List.length
                               (filterResults (NotifyOn (Discord config))
                                              results))).
Proof.
  assert (Hlog : forall line,
            exists events,
              (trace w ++ [LogLine line])%list = (trace w ++ events)%list
              /\ (List.length (postsOf events) <= 1)%nat
              /\ forall url contentType body,
                   In (HttpPost url contentType body) events -> False).
  { intros line. exists [LogLine line]. split; [reflexivity|].
    split; [cbn; lia|]. intros url contentType body [H|[]]. discriminate H. }
  destruct (Enabled (Discord config)) eqn:Hen.
  2:{ rewrite (send_disabled env config results w Hen). cbn [snd trace].
      destruct (Hlog "Discord通知は無効です") as (ev & H1 & H2 & H3).
      exists ev. split; [exact H1|]. split; [exact H2|].
      intros url contentType body Hin. destruct (H3 _ _ _ Hin). }
  destruct (String.eqb_spec (WebhookURL (Discord config)) EmptyString)
    as [He|He].
  { rewrite (send_no_url env config results w Hen (or_introl He)).
    cbn [snd trace].
    destruct (Hlog "Discord Webhook URLが設定されていません")
      as (ev & H1 & H2 & H3).
    exists ev. split; [exact H1|]. split; [exact H2|].
    intros url contentType body Hin. destruct (H3 _ _ _ Hin). }
  destruct (String.eqb_spec (WebhookURL (Discord config)) placeholderURL)
    as [Hp|Hp].
  { rewrite (send_no_url env config results w Hen (or_intror Hp)).
    cbn [snd trace].
    destruct (Hlog "Discord Webhook URLが設定されていません")
      as (ev & H1 & H2 & H3).
    exists ev. split; [exact H1|]. split; [exact H2|].
    intros url contentType body Hin. destruct (H3 _ _ _ Hin). }
  destruct (filterResults (NotifyOn (Discord config)) results)
    as [|r0 filtered] eqn:Hf.
  { rewrite (send_nothing_left env config results w Hen He Hp Hf).
    cbn [snd trace].
    destruct (Hlog "Discord通知対象の結果がありません")
      as (ev & H1 & H2 & H3).
    exists ev. split; [exact H1|]. split; [exact H2|].
    intros url contentType body Hin. destruct (H3 _ _ _ Hin). }
  assert (Hne : filterResults (NotifyOn (Discord config)) results <> [])
    by (rewrite Hf; discriminate).
  rewrite (send_attempt env config results w Hen He Hp Hne). rewrite Hf.
  pose proof (buildEmbeds_trace env (r0 :: filtered) [] w) as Htr.
  destruct (buildEmbeds_result env (r0 :: filtered) [] w)
    as (added & Hres & Hbuilt).
  destruct (buildEmbeds env (r0 :: filtered) [] w) as [embeds w1].
  cbn [fst snd app] in Htr, Hres. subst embeds.
  destruct (jsonMarshal env (mkPayload "SSL証明書チェッカー" added))
    as [jsonData|err] eqn:Hjson.
  2:{ exists []. cbn [snd]. rewrite Htr, app_nil_r.
      split; [reflexivity|]. split; [cbn; lia|].
      intros url contentType body []. }
  cbv zeta.
  destruct (httpPost env (WebhookURL (Discord config)) "application/json"
              jsonData) as [err|code].
  - exists [HttpPost (WebhookURL (Discord config)) "application/json" jsonData].
    cbn [snd trace]. rewrite Htr. split; [reflexivity|].
    split; [cbn; lia|].
    intros url contentType body [H|[]]. injection H as <- <- <-.
    repeat split. exists added. split; [exact Hjson | exact Hbuilt].
  - exists [HttpPost (WebhookURL (Discord config)) "application/json" jsonData;
            LogLine (if code =? 204 then "Discord通知を送信しました"
                     else "Discord通知の送信結果: " ++ itoa code)].
    cbn [snd trace]. rewrite Htr, <- app_assoc. split; [reflexivity|].
    split; [cbn; lia|].
    intros url contentType body [H|[H|[]]]; [|discriminate H].
    injection H as <- <- <-.
    repeat split. exists added. split; [exact Hjson | exact Hbuilt].
Qed.

(** ** The reports *)

Lemma string_length_app (a b : string) :
  String.length (a ++ b) = (String.length a + String.length b)%nat.
Proof.
  induction a as [|c a IH]; cbn [append String.length]; [reflexivity|].
  rewrite IH. reflexivity.
Qed.

Lemma string_app_inv_head (p a b : string) : p ++ a = p ++ b -> a = b.
Proof.
  induction p as [|c p IH]; cbn [append]; intros H; [exact H|].
  injection H as H. exact (IH H).
Qed.

Lemma string_app_inv_tail (a b t : string) : a ++ t = b ++ t -> a = b.
Proof.
  revert b. induction a as [|c a IH]; intros [|d b] H; cbn [append] in H.
  - reflexivity.
  - exfalso. apply (f_equal String.length) in H.
    cbn [String.length] in H. rewrite string_length_app in H. lia.
  - exfalso. apply (f_equal String.length) in H.
    cbn [String.length] in H. rewrite string_length_app in H. lia.
  - injection H as -> H. rewrite (IH b H). reflexivity.
Qed.

Lemma concat_empty_cons (x : string) (l : list string) :
  String.concat EmptyString (x :: l) = x ++ String.concat EmptyString l.
Proof.
  destruct l; cbn [String.concat append];
    [rewrite string_app_nil_r|]; reflexivity.
Qed.

(** A builder that grows by one piece per element holds the pieces in
    order. *)
Lemma fold_left_append {A} (piece : A -> string) (l : list A) :
  forall s,
    fold_left (fun s x => s ++ piece x) l s
    = s ++ String.concat EmptyString (map piece l).
Proof.
  induction l as [|x l IH]; intros s; cbn [fold_left map].
  - cbn [String.concat]. rewrite string_app_nil_r. reflexivity.
  - rewrite IH, concat_empty_cons, string_app_assoc. reflexivity.
Qed.

Lemma generateTextReport_text env results w :
  fst (generateTextReport env results w)
  = textHead (formatJST env (timeNow env (clockReads w)) checkTimeLayout)
    ++ String.concat EmptyString (map (textBlock env) results).
Proof.
  unfold generateTextReport, bind, time_Now, ret. cbn [fst].
  apply fold_left_append.
Qed.

Lemma generateHTMLReport_text env results w :
  fst (generateHTMLReport env results w)
  = htmlHead (formatJST env (timeNow env (clockReads w)) checkTimeLayout)
    ++ String.concat EmptyString (map (htmlRow env) results)
    ++ htmlFoot.
Proof.
  unfold generateHTMLReport, bind, time_Now, ret. cbn [fst].
  rewrite fold_left_append, string_app_assoc. reflexivity.
Qed.

Lemma contains_concat_member (piece : string) (pieces : list string) :
  In piece pieces -> contains piece (String.concat EmptyString pieces).
Proof.
  induction pieces as [|x l IH]; intros Hin; [destruct Hin|].
  rewrite concat_empty_cons. destruct Hin as [->|Hin].
  - exists EmptyString, (String.concat EmptyString l). reflexivity.
  - apply contains_app_r, IH, Hin.
Qed.

Lemma generateTextReport_has_blocks env results w result :
  In result results ->
  contains (textBlock env result) (fst (generateTextReport env results w)).
Proof.
  intros Hin. rewrite generateTextReport_text.
  apply contains_app_r, contains_concat_member, in_map, Hin.
Qed.

(** X12: the text report opens with the banner of 80 equals signs; for
    every result of the batch it holds the lines of the site name, of
    URL:port and of the status as they are, then the issuer, the
    subject and the day count for a result that is not ERROR, and the
    error message for an ERROR result. *)
Theorem generateTextReport_lines (env : Env) (results : list CertInfo)
    (w : World) (result : CertInfo) :
  In result results ->
  let report := fst (generateTextReport env results w) in
  startsWith (strings_Repeat "=" 80 ++ nl) report
  /\ contains ("サイト名: " ++ SiteName result ++ nl) report
  /\ contains ("URL: " ++ URL result ++ ":" ++ itoa (Port result) ++ nl)
              report
  /\ contains ("ステータス: " ++ Status result ++ nl) report
  /\ (Status result <> "ERROR" ->
      contains ("発行者: " ++ Issuer result ++ nl) report
      /\ contains ("主体者: " ++ Subject result ++ nl) report
      /\ contains ("残り日数: " ++ itoa (DaysRemaining result) ++ "日" ++ nl)
                  report)
  /\ (Status result = "ERROR" ->
      contains ("エラー: " ++ ErrorMessage result ++ nl) report).
Proof.
  intros Hin report.
  pose proof (generateTextReport_has_blocks env results w result Hin) as Hb.
  fold report in Hb.
  assert (Hstart : startsWith (strings_Repeat "=" 80 ++ nl) report).
  { unfold report. rewrite generateTextReport_text. unfold textHead.
    rewrite !string_app_assoc. eexists. reflexivity. }
  clearbody report.
  assert (Hin_block : forall needle,
            contains needle (textBlock env result) -> contains needle report)
    by (intros needle H; exact (contains_trans _ _ _ H Hb)).
  clear Hb.
  split; [exact Hstart|].
  split; [|split; [|split; [|split]]].
  - apply Hin_block. unfold textBlock.
    rewrite ?string_app_assoc. cbn [append nl]. find_needle.
  - apply Hin_block. unfold textBlock.
    rewrite ?string_app_assoc. cbn [append nl]. find_needle.
  - apply Hin_block. unfold textBlock.
    rewrite ?string_app_assoc. cbn [append nl]. find_needle.
  - intros Hst. apply String.eqb_neq in Hst.
    split; [|split]; apply Hin_block; unfold textBlock; rewrite Hst;
      cbn [negb]; rewrite ?string_app_assoc; cbn [append nl]; find_needle.
  - intros Hst. apply String.eqb_eq in Hst.
    apply Hin_block; unfold textBlock; rewrite Hst;
      cbn [negb]; rewrite ?string_app_assoc; cbn [append nl]; find_needle.
Qed.

Lemma generateTextReport_lines_witness :
  contains ("エラー: " ++ "証明書の取得に失敗: no such host" ++ nl)
    (fst (generateTextReport offlineEnv
            (fst (checkAllSites offlineEnv
                    (exampleConfig [exampleSite] 30 7 []) initialWorld))
            initialWorld)).
Proof.
  apply (proj2 (proj2 (proj2 (proj2 (proj2
           (generateTextReport_lines offlineEnv
              (fst (checkAllSites offlineEnv
                      (exampleConfig [exampleSite] 30 7 []) initialWorld))
              initialWorld
              (fst (checkCertificate offlineEnv
                      (exampleConfig [exampleSite] 30 7 []) exampleSite
                      initialWorld))
              (or_introl eq_refl))))))).
  reflexivity.
Defined.

Lemma sameShown_pieces env (a b : CertInfo) :
  sameShown a b ->
  textBlock env a = textBlock env b
  /\ htmlRow env a = htmlRow env b
  /\ fieldsOf env a = fieldsOf env b.
Proof.
  destruct a, b. unfold sameShown, textBlock, htmlRow, fieldsOf.
  cbn [SiteName URL Port Issuer Subject NotBefore NotAfter DaysRemaining
       Status ErrorMessage].
  intros (-> & -> & -> & -> & H).
  destruct (String.eqb Status1 "ERROR"); cbn [negb].
  - subst. auto.
  - destruct H as (-> & -> & -> & -> & ->). auto.
Qed.

(** X13: what a result shows.  The text report, the HTML report and the
    fields of the embeds depend, for an ERROR result, on nothing but its
    name, URL, port, status and error message, and for any other result
    on nothing but its name, URL, port, status, certificate fields and
    day count: an ERROR row never shows certificate data and no other
    row shows an error message. *)
Theorem outputs_show_only (env : Env) (results results' : list CertInfo)
    (w : World) :
  Forall2 sameShown results results' ->
  fst (generateTextReport env results w)
  = fst (generateTextReport env results' w)
  /\ fst (generateHTMLReport env results w)
     = fst (generateHTMLReport env results' w)
  /\ map (fieldsOf env) results = map (fieldsOf env) results'.
Proof.
  intros Hsame.
  assert (H : map (textBlock env) results = map (textBlock env) results'
              /\ map (htmlRow env) results = map (htmlRow env) results'
              /\ map (fieldsOf env) results = map (fieldsOf env) results').
  { induction Hsame as [|a b l l' Hab _ (IH1 & IH2 & IH3)]; [auto|].
    destruct (sameShown_pieces env a b Hab) as (E1 & E2 & E3).
    cbn [map]. rewrite E1, E2, E3, IH1, IH2, IH3. auto. }
  destruct H as (H1 & H2 & H3).
  rewrite !generateTextReport_text, !generateHTMLReport_text, H1, H2.
  auto.
Qed.

Lemma outputs_show_only_witness :
  fst (generateHTMLReport offlineEnv
         [mkCertInfo "a" "a.example" 443 "Let's Encrypt" "a.example"
                     0 someInstant 60 "ERROR" "timeout"] initialWorld)
  = fst (generateHTMLReport offlineEnv
           [mkCertInfo "a" "a.example" 443 EmptyString EmptyString
                       0 0 0 "ERROR" "timeout"] initialWorld).
Proof.
  refine (proj1 (proj2 (outputs_show_only offlineEnv
           [mkCertInfo "a" "a.example" 443 "Let's Encrypt" "a.example"
                       0 someInstant 60 "ERROR" "timeout"]
           [mkCertInfo "a" "a.example" 443 EmptyString EmptyString
                       0 0 0 "ERROR" "timeout"] initialWorld _))).
  constructor; [|constructor]. repeat split.
Defined.

Lemma textHead_inj (c1 c2 : string) : textHead c1 = textHead c2 -> c1 = c2.
Proof.
  unfold textHead. rewrite !string_app_assoc. intros H.
  repeat (apply string_app_inv_head in H).
  apply string_app_inv_tail in H. exact H.
Qed.

Lemma htmlHead_inj (c1 c2 : string) : htmlHead c1 = htmlHead c2 -> c1 = c2.
Proof.
  unfold htmlHead. intros H.
  repeat (apply string_app_inv_head in H).
  apply string_app_inv_tail in H. exact H.
Qed.

(** X14: a report reads the clock once and does nothing else to the
    world.  Two reports of the same batch made one after the other are
    equal exactly when the two readings of the clock format to the same
    check time; this holds for the text report and for the HTML
    report. *)
Theorem reports_repeat (env : Env) (results : list CertInfo) (w : World) :
  let after := snd (generateTextReport env results w) in
  let after' := snd (generateHTMLReport env results w) in
  trace after = trace w /\ dials after = dials w
  /\ clockReads after = S (clockReads w)
  /\ trace after' = trace w /\ dials after' = dials w
  /\ clockReads after' = S (clockReads w)
  /\ (fst (generateTextReport env results w)
      = fst (generateTextReport env results after)
      <-> formatJST env (timeNow env (clockReads w)) checkTimeLayout
          = formatJST env (timeNow env (S (clockReads w))) checkTimeLayout)
  /\ (fst (generateHTMLReport env results w)
      = fst (generateHTMLReport env results after')
      <-> formatJST env (timeNow env (clockReads w)) checkTimeLayout
          = formatJST env (timeNow env (S (clockReads w))) checkTimeLayout).
Proof.
  cbv zeta. rewrite !generateTextReport_text, !generateHTMLReport_text.
  unfold generateTextReport, generateHTMLReport, bind, time_Now, ret.
  cbn [snd trace dials clockReads].
  repeat (split; [reflexivity|]). split; split; intros H.
  - apply string_app_inv_tail in H. apply textHead_inj in H. exact H.
  - rewrite H. reflexivity.
  - apply string_app_inv_tail in H. apply htmlHead_inj in H. exact H.
  - rewrite H. reflexivity.
Qed.

(** ** The mail *)

Lemma sendEmail_plain env penv settings results p :
  UseSSL (SMTP (Email settings)) = false ->
  sendEmail env penv settings results p
  = smtpDo penv
      (SmtpSendMail (smtp_Host (SMTP (Email settings)) ++ ":"
                     ++ itoa (smtp_Port (SMTP (Email settings))))
                    (mailAuth (SMTP (Email settings)))
                    (From (Email settings)) (To (Email settings))
                    (mailOf env settings results p))
      (afterReports env results p).
Proof.
  intros Hssl. unfold sendEmail, mailOf, afterReports, bindP, liftW.
  destruct (generateTextReport env results (world p)) as [text w1].
  cbn [fst snd world].
  destruct (generateHTMLReport env results w1) as [html w2].
  cbn [fst snd]. rewrite Hssl.
  destruct (UseTLS (SMTP (Email settings))); reflexivity.
Qed.

Lemma rcptAll_runSteps penv (to : list string) (rest : P (option string))
    (restPlan : list (string * SmtpOp)) :
  (forall p, rest p = runSteps penv restPlan p) ->
  forall p,
    orReturn "RCPT TOに失敗: " (rcptAll penv to) rest p
    = runSteps penv
        (map (fun t => ("RCPT TOに失敗: ", SmtpRcpt t)) to ++ restPlan) p.
Proof.
  intros Hrest. induction to as [|t to IH]; intros p.
  - cbn [map app rcptAll]. unfold orReturn, bindP, retP. apply Hrest.
  - cbn [map app rcptAll runSteps]. unfold orReturn, bindP in *.
    destruct (smtpDo penv (SmtpRcpt t) p) as [[err|] p1].
    + reflexivity.
    + apply IH.
Qed.

Ltac smtp_step :=
  cbv beta iota;
  match goal with
  | |- context [smtpDo ?pe ?op ?q] =>
      destruct (smtpDo pe op q) as [[?|] ?]; [reflexivity|]
  end.

Lemma sendEmail_ssl env penv settings results p :
  UseSSL (SMTP (Email settings)) = true ->
  sendEmail env penv settings results p
  = runSteps penv (sslPlan (Email settings) (mailOf env settings results p))
             (afterReports env results p).
Proof.
  intros Hssl. unfold sendEmail, mailOf, afterReports, bindP, liftW.
  destruct (generateTextReport env results (world p)) as [text w1].
  cbn [fst snd world].
  destruct (generateHTMLReport env results w1) as [html w2].
  cbn [fst snd]. rewrite Hssl. unfold sslPlan. cbv zeta.
  destruct (mailAuth (SMTP (Email settings))) as [a|];
    cbn [app runSteps]; unfold orReturn at 1 2 3 4, bindP, retP;
    repeat smtp_step; cbv beta iota;
    apply rcptAll_runSteps; intros q5; cbn [runSteps];
    unfold orReturn, bindP, retP; repeat smtp_step; reflexivity.
Qed.

Lemma allAccepted_app penv history (a b : list SmtpOp) :
  allAccepted penv history (a ++ b)
  <-> allAccepted penv history a /\ allAccepted penv (history ++ a) b.
Proof.
  revert history. induction a as [|op a IH]; intros history; cbn [app allAccepted].
  - rewrite app_nil_r. tauto.
  - rewrite IH, <- app_assoc. cbn [app]. tauto.
Qed.

(** A plan stops at its first refused step: the steps before it were
    accepted, its error is returned behind its words, and no later step
    is taken; a plan without refusal is run to its end. *)
Lemma runSteps_outcome penv (plan : list (string * SmtpOp)) :
  forall q,
    world (snd (runSteps penv plan q)) = world q
    /\ printed (snd (runSteps penv plan q)) = printed q
    /\ ((fst (runSteps penv plan q) = None
         /\ smtpOps (snd (runSteps penv plan q))
            = (smtpOps q ++ map snd plan)%list
         /\ allAccepted penv (smtpOps q) (map snd plan))
        \/ exists before prefix op err later,
             plan = (before ++ (prefix, op) :: later)%list
             /\ allAccepted penv (smtpOps q) (map snd before)
             /\ smtpAnswer penv (smtpOps q ++ map snd before) op = Some err
             /\ fst (runSteps penv plan q) = Some (prefix ++ err)
             /\ smtpOps (snd (runSteps penv plan q))
                = (smtpOps q ++ map snd before ++ [op])%list).
Proof.
  induction plan as [|[prefix op] rest IH]; intros q.
  - cbn. rewrite app_nil_r. split; [reflexivity|]. split; [reflexivity|].
    left. auto.
  - cbn [runSteps]. unfold bindP, smtpDo.
    destruct (smtpAnswer penv (smtpOps q) op) as [err|] eqn:Hans.
    + cbn [fst snd world printed smtpOps]. split; [reflexivity|].
      split; [reflexivity|]. right.
      exists [], prefix, op, err, rest. cbn [map app allAccepted].
      rewrite app_nil_r. auto.
    + cbv beta iota.
      match goal with
      | |- context [runSteps penv rest ?q1] =>
          destruct (IH q1) as (Hw & Hp & Hcases)
      end.
      cbn [world printed smtpOps] in Hw, Hp, Hcases.
      split; [exact Hw|]. split; [exact Hp|].
      destruct Hcases as [(Hn & Hops & Hacc)
                         |(before & pre & op' & err & later & Hplan & Hacc
                           & Hans' & Hres & Hops)].
      * left. split; [exact Hn|]. cbn [map allAccepted].
        rewrite Hops, <- app_assoc. auto.
      * right. exists ((prefix, op) :: before), pre, op', err, later.
        cbn [map app allAccepted snd].
        split; [rewrite Hplan; reflexivity|].
        split; [auto|].
        split; [rewrite <- app_assoc in Hans'; exact Hans'|].
        split; [exact Hres|].
        rewrite Hops, <- !app_assoc. reflexivity.
Qed.

(** X15: over implicit TLS ([use_ssl]) the mail goes step by step: dial,
    client, authentication (when there are credentials), MAIL FROM, one
    RCPT TO per recipient in order, DATA, the message, its end, QUIT.
    The session stops at the first step the server refuses: every step
    before it was accepted, no step after it is taken, and the error
    returned is the server's behind the words of that step (QUIT's as
    it is).  Without refusal every step is taken and no error is
    returned.  [use_tls] is not looked at. *)
Theorem ssl_session (env : Env) (penv : ProcEnv) (settings : Settings)
    (results : list CertInfo) (p : Process) :
  UseSSL (SMTP (Email settings)) = true ->
  let plan := sslPlan (Email settings) (mailOf env settings results p) in
  let out := sendEmail env penv settings results p in
  (fst out = None
   /\ smtpOps (snd out) = (smtpOps p ++ map snd plan)%list
   /\ allAccepted penv (smtpOps p) (map snd plan))
  \/ exists before prefix op err later,
       plan = (before ++ (prefix, op) :: later)%list
       /\ allAccepted penv (smtpOps p) (map snd before)
       /\ smtpAnswer penv (smtpOps p ++ map snd before) op = Some err
       /\ fst out = Some (prefix ++ err)
       /\ smtpOps (snd out) = (smtpOps p ++ map snd before ++ [op])%list.
Proof.
  intros Hssl plan out. unfold out, plan.
  rewrite (sendEmail_ssl env penv settings results p Hssl).
  destruct (runSteps_outcome penv
              (sslPlan (Email settings) (mailOf env settings results p))
              (afterReports env results p)) as (_ & _ & H).
  assert (Hops : smtpOps (afterReports env results p) = smtpOps p).
  { unfold afterReports, liftW.
    destruct (generateTextReport env results (world p)). cbn [snd world].
    destruct (generateHTMLReport env results w). reflexivity. }
  rewrite Hops in H. exact H.
Qed.

Lemma ssl_session_witness :
  let plan := sslPlan (Email (exampleSettings true false "u" "p"
                                ["admin@example.com"; "nobody@example.com"]))
                (mailOf offlineEnv
                   (exampleSettings true false "u" "p"
                      ["admin@example.com"; "nobody@example.com"])
                   [] initialProcess) in
  let out := sendEmail offlineEnv pickyMail
               (exampleSettings true false "u" "p"
                  ["admin@example.com"; "nobody@example.com"])
               [] initialProcess in
  (fst out = None
   /\ smtpOps (snd out) = (smtpOps initialProcess ++ map snd plan)%list
   /\ allAccepted pickyMail (smtpOps initialProcess) (map snd plan))
  \/ exists before prefix op err later,
       plan = (before ++ (prefix, op) :: later)%list
       /\ allAccepted pickyMail (smtpOps initialProcess) (map snd before)
       /\ smtpAnswer pickyMail (smtpOps initialProcess ++ map snd before) op
          = Some err
       /\ fst out = Some (prefix ++ err)
       /\ smtpOps (snd out)
          = (smtpOps initialProcess ++ map snd before ++ [op])%list.
Proof.
  exact (ssl_session offlineEnv pickyMail
           (exampleSettings true false "u" "p"
              ["admin@example.com"; "nobody@example.com"])
           [] initialProcess eq_refl).
Defined.

(** The session of the example stops at the recipient that is refused. *)
Example refused_recipient_stops_the_mail :
  fst (sendEmail offlineEnv pickyMail
         (exampleSettings true false "u" "p"
            ["admin@example.com"; "nobody@example.com"; "late@example.com"])
         [] initialProcess)
  = Some ("RCPT TOに失敗: " ++ "550 no such user")
  /\ map (fun op => match op with SmtpRcpt t => t | _ => EmptyString end)
         (smtpOps (snd (sendEmail offlineEnv pickyMail
            (exampleSettings true false "u" "p"
               ["admin@example.com"; "nobody@example.com";
                "late@example.com"])
            [] initialProcess)))
     = [EmptyString; EmptyString; EmptyString; EmptyString;
        "admin@example.com"; "nobody@example.com"].
Proof. split; vm_compute; reflexivity. Qed.

Lemma afterReports_parts env results p :
  smtpOps (afterReports env results p) = smtpOps p
  /\ printed (afterReports env results p) = printed p
  /\ stdLog (afterReports env results p) = stdLog p
  /\ logger (afterReports env results p) = logger p
  /\ trace (world (afterReports env results p)) = trace (world p)
  /\ dials (world (afterReports env results p)) = dials (world p)
  /\ clockReads (world (afterReports env results p))
     = S (S (clockReads (world p))).
Proof.
  unfold afterReports, liftW, generateTextReport, generateHTMLReport, bind,
    time_Now, ret.
  cbn [fst snd world smtpOps printed stdLog logger trace dials clockReads].
  repeat split.
Qed.

(** What [sendEmail] asks of the mail server: a beginning of the plan
    over implicit TLS, one [SendMail] otherwise. *)
Lemma sendEmail_ops env penv settings results p :
  exists ops,
    smtpOps (snd (sendEmail env penv settings results p))
    = (smtpOps p ++ ops)%list
    /\ world (snd (sendEmail env penv settings results p))
       = world (afterReports env results p)
    /\ printed (snd (sendEmail env penv settings results p)) = printed p
    /\ (UseSSL (SMTP (Email settings)) = true ->
        exists later,
          map snd (sslPlan (Email settings) (mailOf env settings results p))
          = (ops ++ later)%list)
    /\ (UseSSL (SMTP (Email settings)) = false ->
        ops = [SmtpSendMail
                 (smtp_Host (SMTP (Email settings)) ++ ":"
                  ++ itoa (smtp_Port (SMTP (Email settings))))
                 (mailAuth (SMTP (Email settings)))
                 (From (Email settings)) (To (Email settings))
                 (mailOf env settings results p)]
        /\ fst (sendEmail env penv settings results p)
           = smtpAnswer penv (smtpOps p)
               (SmtpSendMail
                  (smtp_Host (SMTP (Email settings)) ++ ":"
                   ++ itoa (smtp_Port (SMTP (Email settings))))
                  (mailAuth (SMTP (Email settings)))
                  (From (Email settings)) (To (Email settings))
                  (mailOf env settings results p))).
Proof.
  destruct (afterReports_parts env results p) as (Hops & Hpr & _).
  destruct (UseSSL (SMTP (Email settings))) eqn:Hssl.
  - rewrite (sendEmail_ssl env penv settings results p Hssl).
    destruct (runSteps_outcome penv
                (sslPlan (Email settings) (mailOf env settings results p))
                (afterReports env results p)) as (Hw & Hp & H).
    rewrite Hops in H. rewrite Hw, Hp, Hpr.
    destruct H as [(_ & Ho & _)
                  |(before & prefix & op & err & later & Hplan & _ & _ & _
                    & Ho)].
    + eexists. split; [exact Ho|]. split; [reflexivity|].
      split; [reflexivity|]. split; [|discriminate].
      intros _. exists []. rewrite app_nil_r. reflexivity.
    + eexists. split; [exact Ho|]. split; [reflexivity|].
      split; [reflexivity|]. split; [|discriminate].
      intros _. exists (map snd later). rewrite Hplan, map_app.
      cbn [map snd]. rewrite <- app_assoc. reflexivity.
  - rewrite (sendEmail_plain env penv settings results p Hssl).
    unfold smtpDo. cbn [fst snd smtpOps world printed]. rewrite Hops, Hpr.
    eexists. split; [reflexivity|]. split; [reflexivity|].
    split; [reflexivity|]. split; [discriminate|]. auto.
Qed.

(** A beginning of a list that holds an element the first part lacks
    goes beyond that part. *)
Lemma prefix_reaches {A} (l r a b : list A) (y : A) :
  (l ++ r = a ++ b)%list -> In y l -> ~ In y a ->
  exists l', l = (a ++ l')%list /\ (l' ++ r)%list = b.
Proof.
  intros Heq Hin Hnot. apply app_eq_app in Heq as [l' [[-> ->]|[-> ->]]].
  - exists l'. auto.
  - exfalso. apply Hnot, in_app_iff. auto.
Qed.

(** The steps of the plan before the message, as calls. *)
Lemma sslPlan_split (email : EmailConfig) (message : string) :
  exists head,
    map snd (sslPlan email message)
    = ((head ++ SmtpMail (From email) :: map SmtpRcpt (To email)
        ++ [SmtpData])
       ++ [SmtpWrite message; SmtpCloseData; SmtpQuit])%list
    /\ forall op, In op head ->
         (exists a s, op = SmtpTlsDial a s) \/ (exists h, op = SmtpNewClient h)
         \/ (exists a, op = SmtpAuth a /\ mailAuth (SMTP email) = Some a).
Proof.
  unfold sslPlan. cbv zeta.
  destruct (mailAuth (SMTP email)) as [a|];
    cbn [app map snd]; rewrite !map_app, map_map; cbn [map snd];
    rewrite map_ext with (g := SmtpRcpt) by reflexivity.
  - exists [SmtpTlsDial (smtp_Host (SMTP email) ++ ":"
                         ++ itoa (smtp_Port (SMTP email)))
                        (smtp_Host (SMTP email));
            SmtpNewClient (smtp_Host (SMTP email)); SmtpAuth a].
    cbn [app]. rewrite <- !app_assoc. split; [reflexivity|].
    intros op [<-|[<-|[<-|[]]]]; eauto 6.
  - exists [SmtpTlsDial (smtp_Host (SMTP email) ++ ":"
                         ++ itoa (smtp_Port (SMTP email)))
                        (smtp_Host (SMTP email));
            SmtpNewClient (smtp_Host (SMTP email))].
    cbn [app]. rewrite <- !app_assoc. split; [reflexivity|].
    intros op [<-|[<-|[]]]; eauto 6.
Qed.

(** The messages among the calls of a session over implicit TLS. *)
Lemma message_parts_ssl env settings results p (ops : list SmtpOp) :
  (exists later,
      map snd (sslPlan (Email settings) (mailOf env settings results p))
      = (ops ++ later)%list) ->
  forall message,
    (In (SmtpWrite message) ops -> message = mailOf env settings results p)
    /\ (forall addr auth from to,
          ~ In (SmtpSendMail addr auth from to message) ops).
Proof.
  intros (later & Hl) message.
  destruct (sslPlan_split (Email settings) (mailOf env settings results p))
    as (head & Hsplit & Hhead).
  rewrite Hsplit in Hl.
  assert (Hcases : forall op, In op ops ->
            In op head \/ op = SmtpMail (From (Email settings))
            \/ (exists t, op = SmtpRcpt t) \/ op = SmtpData
            \/ op = SmtpWrite (mailOf env settings results p)
            \/ op = SmtpCloseData \/ op = SmtpQuit).
  { intros op Hop.
    assert (Hop' : In op (ops ++ later)) by (apply in_app_iff; auto).
    rewrite <- Hl in Hop'.
    apply in_app_iff in Hop' as [Hop'|[H|[H|[H|[]]]]]; auto 10.
    apply in_app_iff in Hop' as [Hop'|[H|Hop']]; auto.
    apply in_app_iff in Hop' as [Hop'|[H|[]]]; auto.
    apply in_map_iff in Hop' as (t & H & _). eauto 10. }
  split.
  - intros Hin.
    destruct (Hcases _ Hin) as [Hh|[H|[(t & H)|[H|[H|[H|H]]]]]];
      try discriminate H.
    + destruct (Hhead _ Hh) as [(x & s & H)|[(h & H)|(x & H & _)]];
        discriminate H.
    + injection H as <-. reflexivity.
  - intros addr auth from to Hin.
    destruct (Hcases _ Hin) as [Hh|[H|[(t & H)|[H|[H|[H|H]]]]]];
      try discriminate H.
    destruct (Hhead _ Hh) as [(x & s & H)|[(h & H)|(x & H & _)]];
      discriminate H.
Qed.

(** X16: over implicit TLS the message is handed over only after the
    sender and every recipient have been put to the server and DATA has
    been sent: if the message is among the calls of a [sendEmail], so
    are MAIL FROM, a RCPT TO for each configured recipient and DATA; no
    [SendMail] is made in this mode. *)
Theorem message_after_recipients (env : Env) (penv : ProcEnv)
    (settings : Settings) (results : list CertInfo) (p : Process) :
  UseSSL (SMTP (Email settings)) = true ->
  exists ops,
    smtpOps (snd (sendEmail env penv settings results p))
    = (smtpOps p ++ ops)%list
    /\ (forall message,
          In (SmtpWrite message) ops ->
          message = mailOf env settings results p
          /\ In (SmtpMail (From (Email settings))) ops
          /\ (forall t, In t (To (Email settings)) -> In (SmtpRcpt t) ops)
          /\ In SmtpData ops)
    /\ (forall addr auth from to message,
          ~ In (SmtpSendMail addr auth from to message) ops).
Proof.
  intros Hssl.
  destruct (sendEmail_ops env penv settings results p)
    as (ops & Hops & _ & _ & Hplan & _).
  destruct (Hplan Hssl) as (later & Hl).
  destruct (sslPlan_split (Email settings) (mailOf env settings results p))
    as (head & Hsplit & Hhead).
  rewrite Hsplit in Hl. symmetry in Hl.
  assert (Hnotwrite : forall m,
            ~ In (SmtpWrite m)
                (head ++ SmtpMail (From (Email settings))
                 :: map SmtpRcpt (To (Email settings)) ++ [SmtpData])%list).
  { intros m Hin. apply in_app_iff in Hin as [Hin|[Hin|Hin]].
    - destruct (Hhead _ Hin) as [(a & s & H)|[(h & H)|(a & H & _)]];
        discriminate H.
    - discriminate Hin.
    - apply in_app_iff in Hin as [Hin|[Hin|[]]]; [|discriminate Hin].
      apply in_map_iff in Hin as (t & H & _). discriminate H. }
  exists ops. split; [exact Hops|]. split.
  - intros message Hin.
    destruct (prefix_reaches _ _ _ _ _ Hl Hin (Hnotwrite message))
      as (l' & -> & Hl').
    apply in_app_iff in Hin as [Hin|Hin]; [destruct (Hnotwrite _ Hin)|].
    assert (Hin' : In (SmtpWrite message)
                      [SmtpWrite (mailOf env settings results p);
                       SmtpCloseData; SmtpQuit]).
    { rewrite <- Hl'. apply in_app_iff. auto. }
    split.
    { destruct Hin' as [H|[H|[H|[]]]]; try discriminate H.
      injection H as <-. reflexivity. }
    split; [|split].
    + apply in_app_iff. left. apply in_app_iff. right. left. reflexivity.
    + intros t Ht. apply in_app_iff. left. apply in_app_iff. right. right.
      apply in_app_iff. left. apply in_map. exact Ht.
    + apply in_app_iff. left. apply in_app_iff. right. right.
      apply in_app_iff. right. left. reflexivity.
  - intros addr auth from to message Hin.
    assert (Hin' : In (SmtpSendMail addr auth from to message)
                      (ops ++ later)) by (apply in_app_iff; auto).
    rewrite Hl in Hin'.
    apply in_app_iff in Hin' as [Hin'|Hin'].
    + apply in_app_iff in Hin' as [Hin'|[Hin'|Hin']].
      * destruct (Hhead _ Hin') as [(a & s & H)|[(h & H)|(a & H & _)]];
          discriminate H.
      * discriminate Hin'.
      * apply in_app_iff in Hin' as [Hin'|[Hin'|[]]]; [|discriminate Hin'].
        apply in_map_iff in Hin' as (t & H & _). discriminate H.
    + destruct Hin' as [H|[H|[H|[]]]]; discriminate H.
Qed.

Lemma message_after_recipients_witness :
  exists ops,
    smtpOps (snd (sendEmail offlineEnv pickyMail
                    (exampleSettings true false "u" "p"
                       ["admin@example.com"; "nobody@example.com"])
                    [] initialProcess))
    = (smtpOps initialProcess ++ ops)%list
    /\ (forall message,
          In (SmtpWrite message) ops ->
          message = mailOf offlineEnv
                      (exampleSettings true false "u" "p"
                         ["admin@example.com"; "nobody@example.com"])
                      [] initialProcess
          /\ In (SmtpMail (From (Email (exampleSettings true false "u" "p"
                       ["admin@example.com"; "nobody@example.com"])))) ops
          /\ (forall t,
                In t (To (Email (exampleSettings true false "u" "p"
                       ["admin@example.com"; "nobody@example.com"]))) ->
                In (SmtpRcpt t) ops)
          /\ In SmtpData ops)
    /\ (forall addr auth from to message,
          ~ In (SmtpSendMail addr auth from to message) ops).
Proof.
  exact (message_after_recipients offlineEnv pickyMail
           (exampleSettings true false "u" "p"
              ["admin@example.com"; "nobody@example.com"])
           [] initialProcess eq_refl).
Defined.

(** X17: [use_tls] changes nothing: with either value [sendEmail] makes
    the same calls and returns the same error.  Without [use_ssl] the
    mail is one [SendMail] call to host:port with the credentials, the
    sender, the recipients and the message, and its error is returned as
    it is. *)
Theorem use_tls_is_ignored (env : Env) (penv : ProcEnv) (settings : Settings)
    (results : list CertInfo) (p : Process) (useTLS : bool) :
  sendEmail env penv (withUseTLS useTLS settings) results p
  = sendEmail env penv settings results p
  /\ (UseSSL (SMTP (Email settings)) = false ->
      smtpOps (snd (sendEmail env penv settings results p))
      = (smtpOps p
         ++ [SmtpSendMail
               (smtp_Host (SMTP (Email settings)) ++ ":"
                ++ itoa (smtp_Port (SMTP (Email settings))))
               (mailAuth (SMTP (Email settings)))
               (From (Email settings)) (To (Email settings))
               (mailOf env settings results p)])%list
      /\ fst (sendEmail env penv settings results p)
         = smtpAnswer penv (smtpOps p)
             (SmtpSendMail
                (smtp_Host (SMTP (Email settings)) ++ ":"
                 ++ itoa (smtp_Port (SMTP (Email settings))))
                (mailAuth (SMTP (Email settings)))
                (From (Email settings)) (To (Email settings))
                (mailOf env settings results p))).
Proof.
  split.
  - destruct (UseSSL (SMTP (Email settings))) eqn:Hssl.
    + rewrite (sendEmail_ssl env penv settings results p Hssl).
      rewrite (sendEmail_ssl env penv (withUseTLS useTLS settings) results p)
        by exact Hssl.
      reflexivity.
    + rewrite (sendEmail_plain env penv settings results p Hssl).
      rewrite (sendEmail_plain env penv (withUseTLS useTLS settings)
                 results p) by exact Hssl.
      reflexivity.
  - intros Hssl.
    destruct (sendEmail_ops env penv settings results p)
      as (ops & Hops & _ & _ & _ & Hplain).
    destruct (Hplain Hssl) as (-> & Hres). auto.
Qed.

Lemma use_tls_is_ignored_witness :
  smtpOps (snd (sendEmail offlineEnv pickyMail
                  (exampleSettings false true "u" "p" ["admin@example.com"])
                  [] initialProcess))
  = (smtpOps initialProcess
     ++ [SmtpSendMail "smtp.example.com:465"
           (Some (mkPlainAuth EmptyString "u" "p" "smtp.example.com"))
           "cert-checker@example.com" ["admin@example.com"]
           (mailOf offlineEnv
              (exampleSettings false true "u" "p" ["admin@example.com"])
              [] initialProcess)])%list.
Proof.
  exact (proj1 (proj2 (use_tls_is_ignored offlineEnv pickyMail
                         (exampleSettings false true "u" "p"
                            ["admin@example.com"])
                         [] initialProcess true) eq_refl)).
Defined.

Lemma mailAuth_none (smtp : SMTPConfig) :
  mailAuth smtp = None
  <-> Username smtp = EmptyString \/ Password smtp = EmptyString.
Proof.
  unfold mailAuth.
  destruct (String.eqb_spec (Username smtp) EmptyString);
    destruct (String.eqb_spec (Password smtp) EmptyString);
    cbn [negb andb]; split; intros H; auto; try discriminate H.
  destruct H; contradiction.
Qed.

(** X18: credentials are used only when both the user name and the
    password are set.  With either of them empty no AUTH is sent over
    implicit TLS and [SendMail] is called without authentication; with
    both set, whatever authentication is made is PLAIN with the empty
    identity, this user name and password, and the SMTP host. *)
Theorem credentials_need_both (env : Env) (penv : ProcEnv)
    (settings : Settings) (results : list CertInfo) (p : Process) :
  exists ops,
    smtpOps (snd (sendEmail env penv settings results p))
    = (smtpOps p ++ ops)%list
    /\ (Username (SMTP (Email settings)) = EmptyString
        \/ Password (SMTP (Email settings)) = EmptyString ->
        (forall a, ~ In (SmtpAuth a) ops)
        /\ (forall addr auth from to message,
              In (SmtpSendMail addr auth from to message) ops ->
              auth = None))
    /\ (forall a,
          In (SmtpAuth a) ops
          \/ (exists addr from to message,
                 In (SmtpSendMail addr (Some a) from to message) ops) ->
          a = mkPlainAuth EmptyString (Username (SMTP (Email settings)))
                (Password (SMTP (Email settings)))
                (smtp_Host (SMTP (Email settings)))
          /\ Username (SMTP (Email settings)) <> EmptyString
          /\ Password (SMTP (Email settings)) <> EmptyString).
Proof.
  destruct (sendEmail_ops env penv settings results p)
    as (ops & Hops & _ & _ & Hplan & Hplain).
  assert (Hauth : forall a,
            In (SmtpAuth a) ops
            \/ (exists addr from to message,
                   In (SmtpSendMail addr (Some a) from to message) ops) ->
            mailAuth (SMTP (Email settings)) = Some a).
  { intros a Hin. destruct (UseSSL (SMTP (Email settings))) eqn:Hssl.
    - destruct (Hplan eq_refl) as (later & Hl).
      destruct (sslPlan_split (Email settings)
                  (mailOf env settings results p)) as (head & Hsplit & Hhead).
      rewrite Hsplit in Hl.
      assert (Hmem : forall op, In op ops ->
                In op ((head ++ SmtpMail (From (Email settings))
                        :: map SmtpRcpt (To (Email settings)) ++ [SmtpData])
                       ++ [SmtpWrite (mailOf env settings results p);
                           SmtpCloseData; SmtpQuit])%list).
      { intros op Hop. rewrite Hl. apply in_app_iff. auto. }
      assert (Hcases : forall op, In op ops ->
                In op head \/ op = SmtpMail (From (Email settings))
                \/ (exists t, op = SmtpRcpt t) \/ op = SmtpData
                \/ (exists m, op = SmtpWrite m) \/ op = SmtpCloseData
                \/ op = SmtpQuit).
      { intros op Hop. apply Hmem in Hop.
        apply in_app_iff in Hop as [Hop|[H|[H|[H|[]]]]]; eauto 10.
        apply in_app_iff in Hop as [Hop|[H|Hop]]; auto.
        apply in_app_iff in Hop as [Hop|[H|[]]]; auto.
        apply in_map_iff in Hop as (t & H & _). eauto 10. }
      destruct Hin as [Hin|(addr & from & to & message & Hin)];
        destruct (Hcases _ Hin)
          as [Hh|[H|[(t & H)|[H|[(m & H)|[H|H]]]]]]; try discriminate H;
        destruct (Hhead _ Hh) as [(x & s & H)|[(h & H)|(x & H & Hx)]];
        try discriminate H.
      injection H as <-. exact Hx.
    - destruct (Hplain eq_refl) as (-> & _).
      destruct Hin as [[H|[]]|(addr & from & to & message & [H|[]])];
        [discriminate H|].
      injection H as _ H _ _ _. exact H. }
  exists ops. split; [exact Hops|]. split.
  - intros Hempty. apply mailAuth_none in Hempty. split.
    + intros a Hin. rewrite (Hauth a (or_introl Hin)) in Hempty.
      discriminate Hempty.
    + intros addr [a|] from to message Hin; [|reflexivity].
      rewrite (Hauth a) in Hempty; [discriminate Hempty|].
      right. eauto.
  - intros a Hin. specialize (Hauth a Hin). unfold mailAuth in Hauth.
    destruct (String.eqb_spec (Username (SMTP (Email settings))) EmptyString);
      destruct (String.eqb_spec (Password (SMTP (Email settings)))
                                EmptyString);
      cbn [negb andb] in Hauth; try discriminate Hauth.
    injection Hauth as <-. auto.
Qed.

Lemma credentials_need_both_witness :
  exists ops,
    smtpOps (snd (sendEmail offlineEnv pickyMail
                    (exampleSettings false false "u" EmptyString
                       ["admin@example.com"]) [] initialProcess))
    = (smtpOps initialProcess ++ ops)%list
    /\ (forall a, ~ In (SmtpAuth a) ops)
    /\ (forall addr auth from to message,
          In (SmtpSendMail addr auth from to message) ops -> auth = None).
Proof.
  destruct (credentials_need_both offlineEnv pickyMail
              (exampleSettings false false "u" EmptyString
                 ["admin@example.com"]) [] initialProcess)
    as (ops & Hops & Hempty & _).
  exists ops. split; [exact Hops|]. apply Hempty. right. reflexivity.
Defined.

Lemma mailMessage_parts (email : EmailConfig) (text html : string) :
  startsWith ("From: " ++ From email ++ crlf
              ++ "To: " ++ strings_Join (To email) ", " ++ crlf
              ++ "Subject: " ++ email_Subject email ++ crlf
              ++ "MIME-Version: 1.0" ++ crlf)
             (mailMessage email text html)
  /\ contains ("--boundary123456789" ++ crlf
               ++ "Content-Type: text/plain; charset=UTF-8" ++ crlf ++ crlf
               ++ text ++ crlf
               ++ "--boundary123456789" ++ crlf
               ++ "Content-Type: text/html; charset=UTF-8" ++ crlf ++ crlf
               ++ html ++ crlf
               ++ "--boundary123456789--" ++ crlf)
              (mailMessage email text html).
Proof.
  unfold mailMessage. cbv zeta. rewrite !string_app_assoc.
  cbn [append crlf]. split.
  - repeat first [ apply startsWith_nil
                 | apply startsWith_cons
                 | apply startsWith_app ].
  - find_needle.
Qed.

(** X19: the mail.  [sendEmail] makes its two reports anew, the text
    report at one reading of the clock and the HTML report at the next,
    and does nothing else outside the mail server.  Every message it
    hands over, by DATA or by [SendMail], opens with the From, To
    (recipients joined by a comma and a space) and Subject lines of the
    settings as they are, and carries the text report and then the HTML
    report between the fixed boundary lines; [SendMail] gets the sender
    and the recipients of the settings. *)
Theorem mail_content (env : Env) (penv : ProcEnv) (settings : Settings)
    (results : list CertInfo) (p : Process) :
  let text := fst (generateTextReport env results (world p)) in
  let html :=
    fst (generateHTMLReport env results
           (mkWorld (S (clockReads (world p))) (dials (world p))
                    (trace (world p)))) in
  exists ops,
    smtpOps (snd (sendEmail env penv settings results p))
    = (smtpOps p ++ ops)%list
    /\ trace (world (snd (sendEmail env penv settings results p)))
       = trace (world p)
    /\ clockReads (world (snd (sendEmail env penv settings results p)))
       = S (S (clockReads (world p)))
    /\ printed (snd (sendEmail env penv settings results p)) = printed p
    /\ (forall addr auth from to message,
          In (SmtpSendMail addr auth from to message) ops ->
          from = From (Email settings) /\ to = To (Email settings))
    /\ (forall message,
          In (SmtpWrite message) ops
          \/ (exists addr auth from to,
                 In (SmtpSendMail addr auth from to message) ops) ->
          startsWith ("From: " ++ From (Email settings) ++ crlf
                      ++ "To: " ++ strings_Join (To (Email settings)) ", "
                      ++ crlf
                      ++ "Subject: " ++ email_Subject (Email settings)
                      ++ crlf
                      ++ "MIME-Version: 1.0" ++ crlf) message
          /\ contains ("--boundary123456789" ++ crlf
                       ++ "Content-Type: text/plain; charset=UTF-8" ++ crlf
                       ++ crlf ++ text ++ crlf
                       ++ "--boundary123456789" ++ crlf
                       ++ "Content-Type: text/html; charset=UTF-8" ++ crlf
                       ++ crlf ++ html ++ crlf
                       ++ "--boundary123456789--" ++ crlf) message).
Proof.
  intros text html.
  destruct (sendEmail_ops env penv settings results p)
    as (ops & Hops & Hworld & Hprinted & Hplan & Hplain).
  destruct (afterReports_parts env results p)
    as (_ & _ & _ & _ & Htrace & _ & Hclock).
  assert (Hmail : mailOf env settings results p
                  = mailMessage (Email settings) text html).
  { unfold mailOf, text, html, generateTextReport, bind, time_Now, ret.
    reflexivity. }
  assert (Hmsg : forall message,
            In (SmtpWrite message) ops
            \/ (exists addr auth from to,
                   In (SmtpSendMail addr auth from to message) ops) ->
            message = mailOf env settings results p).
  { intros message Hin. destruct (UseSSL (SMTP (Email settings))) eqn:Hssl.
    - destruct (message_parts_ssl env settings results p ops
                  (Hplan eq_refl) message) as (Hw & Hs).
      destruct Hin as [Hin|(addr & auth & from & to & Hin)];
        [exact (Hw Hin) | destruct (Hs _ _ _ _ Hin)].
    - destruct (Hplain eq_refl) as (-> & _).
      destruct Hin as [[H|[]]|(addr & auth & from & to & [H|[]])];
        [discriminate H|].
      injection H as _ _ _ _ <-. reflexivity. }
  exists ops. split; [exact Hops|]. rewrite Hworld, Hprinted.
  split; [exact Htrace|]. split; [exact Hclock|]. split; [reflexivity|].
  split.
  - intros addr auth from to message Hin.
    destruct (UseSSL (SMTP (Email settings))) eqn:Hssl.
    + destruct (message_parts_ssl env settings results p ops
                  (Hplan eq_refl) message) as (_ & Hs).
      destruct (Hs _ _ _ _ Hin).
    + destruct (Hplain eq_refl) as (-> & _). destruct Hin as [H|[]].
      injection H as _ _ <- <- _. auto.
  - intros message Hin. rewrite (Hmsg message Hin), Hmail.
    apply mailMessage_parts.
Qed.

Lemma mail_content_witness :
  printed (snd (sendEmail offlineEnv pickyMail
                  (exampleSettings true false "u" "p" ["admin@example.com"])
                  [] initialProcess))
  = printed initialProcess.
Proof.
  destruct (mail_content offlineEnv pickyMail
              (exampleSettings true false "u" "p" ["admin@example.com"])
              [] initialProcess) as (ops & _ & _ & _ & H & _).
  exact H.
Defined.

(** ** The run *)

Lemma liftW_parts {A} (m : M A) (q : Process) :
  liftW m q
  = (fst (m (world q)),
     mkProcess (snd (m (world q))) (smtpOps q) (printed q) (stdLog q)
               (logger q)).
Proof. unfold liftW. destruct (m (world q)). reflexivity. Qed.

Lemma setupLogger_parts penv settings q :
  world (snd (setupLogger penv settings q)) = world q
  /\ smtpOps (snd (setupLogger penv settings q)) = smtpOps q
  /\ printed (snd (setupLogger penv settings q)) = printed q
  /\ logger (snd (setupLogger penv settings q)) <> None.
Proof.
  unfold setupLogger, bindP, log_Printf.
  destruct (negb (String.eqb (File (Logging settings)) EmptyString));
    [destruct (openLogFile penv (File (Logging settings)))|];
    cbn [fst snd world smtpOps printed logger]; repeat split; discriminate.
Qed.

Lemma mailPart_parts env penv settings results q :
  printed (snd (mailPart env penv settings results q)) = printed q
  /\ dials (world (snd (mailPart env penv settings results q)))
     = dials (world q)
  /\ clockReads (world (snd (mailPart env penv settings results q)))
     = (if email_Enabled (Email settings) then S (S (clockReads (world q)))
        else clockReads (world q))
  /\ (exists line,
        trace (world (snd (mailPart env penv settings results q)))
        = (trace (world q) ++ [LogLine line])%list)
  /\ (email_Enabled (Email settings) = false ->
      smtpOps (snd (mailPart env penv settings results q)) = smtpOps q)
  /\ (email_Enabled (Email settings) = true ->
      smtpOps (snd (mailPart env penv settings results q))
      = smtpOps (snd (sendEmail env penv settings results q))).
Proof.
  unfold mailPart. destruct (email_Enabled (Email settings)).
  - unfold bindP.
    destruct (sendEmail_ops env penv settings results q)
      as (ops & Hops & Hworld & Hprinted & _).
    destruct (afterReports_parts env results q)
      as (_ & _ & _ & _ & Htrace & Hdials & Hclock).
    destruct (sendEmail env penv settings results q) as [[e|] q1];
      cbn [snd] in *; rewrite liftW_parts;
      unfold logLine, emit;
      cbn [fst snd world smtpOps printed trace dials clockReads];
      rewrite Hworld, Hprinted, Htrace, Hdials, Hclock;
      (split; [reflexivity|]); (split; [reflexivity|]);
      (split; [reflexivity|]); (split; [eexists; reflexivity|]);
      split; [discriminate | reflexivity | discriminate | reflexivity].
  - rewrite liftW_parts. unfold logLine, emit.
    cbn [fst snd world smtpOps printed trace dials clockReads].
    repeat split; try discriminate. eexists. reflexivity.
Qed.

(** [run], stage by stage. *)
Lemma run_parts env penv settings p :
  exists pMail line,
    let results := fst (scanOf env settings p) in
    let wScan := snd (scanOf env settings p) in
    let report := fst (generateTextReport env results wScan) in
    let wMail := world pMail in
    fst (run env penv settings p) = exitCode results
    /\ printed (snd (run env penv settings p))
       = (printed p ++ [((nl ++ report) ++ nl)%string])%list
    /\ dials wMail = dials wScan
    /\ clockReads wMail
       = (if email_Enabled (Email settings)
          then S (S (S (clockReads wScan))) else S (clockReads wScan))
    /\ trace wMail = (trace wScan ++ [LogLine line])%list
    /\ (email_Enabled (Email settings) = false ->
        smtpOps (snd (run env penv settings p)) = smtpOps p)
    /\ (exists last,
          trace (world (snd (run env penv settings p)))
          = (trace (snd (sendDiscordNotification env
                           (settings_Config settings) results wMail))
             ++ last)%list
          /\ noHttpCall last /\ dialsOf last = []).
Proof.
  unfold run, bindP, scanOf, scanStart.
  destruct (setupLogger_parts penv settings p) as (Hw0 & Hs0 & Hp0 & _).
  destruct (setupLogger penv settings p) as [u p0]. cbn [snd] in Hw0, Hs0, Hp0.
  rewrite !liftW_parts. cbv beta iota.
  cbn [fst snd world smtpOps printed stdLog logger]. rewrite Hw0.
  set (results := fst (checkAllSites env (settings_Config settings)
                         (snd (logLine "SSL証明書チェッカーを開始します"
                                       (world p))))).
  set (wScan := snd (checkAllSites env (settings_Config settings)
                       (snd (logLine "SSL証明書チェッカーを開始します"
                                     (world p))))).
  unfold fmt_Println. cbv beta iota.
  cbn [fst snd world smtpOps printed stdLog logger].
  match goal with
  | |- context [mailPart env penv settings results ?q] =>
      destruct (mailPart_parts env penv settings results q)
        as (Hpr & Hdi & Hck & (line & Htr) & Hoff & _);
      destruct (mailPart env penv settings results q) as [u1 pMail]
  end.
  cbn [fst snd world smtpOps printed stdLog logger trace dials clockReads]
    in Hpr, Hdi, Hck, Htr, Hoff.
  exists pMail, line. cbv zeta.
  rewrite ?liftW_parts. cbv beta iota.
  cbn [fst snd world smtpOps printed stdLog logger].
  destruct (sendDiscordNotification env (settings_Config settings) results
              (world pMail)) as [[e|] wHook];
    rewrite ?liftW_parts; unfold retP; cbv beta iota;
    rewrite ?liftW_parts; cbv beta iota;
    cbn [fst snd world smtpOps printed stdLog logger];
    unfold logLine, emit; cbn [fst snd trace];
    (split; [reflexivity|]);
    (split; [rewrite Hpr, Hp0; reflexivity|]);
    (split; [rewrite Hdi; reflexivity|]);
    (split; [rewrite Hck; unfold generateTextReport, bind, time_Now, ret;
             cbn [snd clockReads]; reflexivity|]);
    (split; [rewrite Htr; unfold generateTextReport, bind, time_Now, ret;
             cbn [snd trace]; reflexivity|]);
    (split; [intros Hoff'; rewrite (Hoff Hoff'); exact Hs0|]).
  - rewrite !liftW_parts. cbv beta iota.
    cbn [fst snd world trace]. rewrite ?liftW_parts.
    cbn [fst snd world trace].
    eexists. rewrite <- app_assoc. split; [reflexivity|].
    split; [|reflexivity].
    intros url contentType body [H|[H|[]]]; discriminate H.
  - rewrite ?liftW_parts. cbv beta iota.
    cbn [fst snd world trace]. rewrite ?liftW_parts.
    cbn [fst snd world trace].
    eexists. split; [reflexivity|]. split; [|reflexivity].
    intros url contentType body [H|[]]; discriminate H.
Qed.

(** The result of a probe depends on the environment only through the
    answer to its dial and the reading of the clock, and on the settings
    only through the thresholds. *)
Lemma checkCertificate_ext env env' config config' site w w' :
  (forall k, timeNow env k = timeNow env' k) ->
  (forall k address serverName,
      tlsDial env k address serverName = tlsDial env' k address serverName) ->
  Alert config = Alert config' ->
  clockReads w = clockReads w' -> dials w = dials w' ->
  fst (checkCertificate env config site w)
  = fst (checkCertificate env' config' site w')
  /\ clockReads (snd (checkCertificate env config site w))
     = clockReads (snd (checkCertificate env' config' site w'))
  /\ dials (snd (checkCertificate env config site w))
     = dials (snd (checkCertificate env' config' site w')).
Proof.
  intros Ht Hd Ha Hc Hn.
  assert (Hans : dialAnswer env site w = dialAnswer env' site w').
  { unfold dialAnswer. rewrite Hn. apply Hd. }
  destruct (checkCertificate_world env config site w) as (_ & Hk).
  destruct (checkCertificate_world env' config' site w') as (_ & Hk').
  rewrite !checkCertificate_dials, Hk, Hk', <- Hans, Hc, Hn.
  split; [|auto].
  destruct (dialAnswer env site w) as [err|[|cert rest]] eqn:E;
    symmetry in Hans.
  - rewrite (checkCertificate_dial_error _ _ _ _ _ E),
      (checkCertificate_dial_error _ _ _ _ _ Hans). reflexivity.
  - rewrite (checkCertificate_no_certificate _ _ _ _ E),
      (checkCertificate_no_certificate _ _ _ _ Hans). reflexivity.
  - rewrite (checkCertificate_leaf _ _ _ _ _ _ E),
      (checkCertificate_leaf _ _ _ _ _ _ Hans).
    unfold classify. rewrite Ha, Hc, Ht. reflexivity.
Qed.

Lemma checkSitesFrom_ext env env' config config' (sites : list Site) :
  (forall k, timeNow env k = timeNow env' k) ->
  (forall k address serverName,
      tlsDial env k address serverName = tlsDial env' k address serverName) ->
  Alert config = Alert config' ->
  forall results w w',
    clockReads w = clockReads w' -> dials w = dials w' ->
    fst (checkSitesFrom env config sites results w)
    = fst (checkSitesFrom env' config' sites results w')
    /\ clockReads (snd (checkSitesFrom env config sites results w))
       = clockReads (snd (checkSitesFrom env' config' sites results w')).
Proof.
  intros Ht Hd Ha.
  induction sites as [|site rest IH]; intros results w w' Hc Hn.
  - cbn. auto.
  - cbn [checkSitesFrom]. unfold bind.
    destruct (checkCertificate_ext env env' config config' site w w'
                Ht Hd Ha Hc Hn) as (Hr & Hc1 & Hn1).
    destruct (checkCertificate env config site w) as [r w1].
    destruct (checkCertificate env' config' site w') as [r' w1'].
    cbn [fst snd] in Hr, Hc1, Hn1. subst r'.
    apply IH; assumption.
Qed.

Lemma checkAllSites_ext env env' config config' w w' :
  (forall k, timeNow env k = timeNow env' k) ->
  (forall k address serverName,
      tlsDial env k address serverName = tlsDial env' k address serverName) ->
  Alert config = Alert config' -> Sites config = Sites config' ->
  clockReads w = clockReads w' -> dials w = dials w' ->
  fst (checkAllSites env config w) = fst (checkAllSites env' config' w')
  /\ clockReads (snd (checkAllSites env config w))
     = clockReads (snd (checkAllSites env' config' w')).
Proof.
  intros Ht Hd Ha Hs Hc Hn.
  unfold checkAllSites, bind, ret, logLine, emit. cbn [fst snd].
  rewrite <- Hs.
  match goal with
  | |- context [checkSitesFrom env config (Sites config) [] ?a] =>
      match goal with
      | |- context [checkSitesFrom env' config' (Sites config) [] ?b] =>
          destruct (checkSitesFrom_ext env env' config config' (Sites config)
                      Ht Hd Ha [] a b Hc Hn) as (Hr & Hk);
          destruct (checkSitesFrom env config (Sites config) [] a);
          destruct (checkSitesFrom env' config' (Sites config) [] b)
      end
  end.
  cbn [fst snd clockReads] in *. auto.
Qed.

(** X20: the exit code of a run is that of the results of its scan.  It
    is decided by the sites, the two thresholds, the answers to the
    dials and the readings of the clock alone: the mail settings and the
    mail server, the webhook settings and its answer, the log file and
    everything printed or logged before make no difference, and no
    failure to deliver changes it. *)
Theorem run_exit_code (env env' : Env) (penv penv' : ProcEnv)
    (settings settings' : Settings) (p p' : Process) :
  (forall k, timeNow env k = timeNow env' k) ->
  (forall k address serverName,
      tlsDial env k address serverName = tlsDial env' k address serverName) ->
  Sites (settings_Config settings) = Sites (settings_Config settings') ->
  Alert (settings_Config settings) = Alert (settings_Config settings') ->
  clockReads (world p) = clockReads (world p') ->
  dials (world p) = dials (world p') ->
  fst (run env penv settings p) = exitCode (fst (scanOf env settings p))
  /\ fst (run env' penv' settings' p') = fst (run env penv settings p).
Proof.
  intros Ht Hd Hs Ha Hc Hn.
  destruct (run_parts env penv settings p) as (pm & line & Hexit & _).
  destruct (run_parts env' penv' settings' p') as (pm' & line' & Hexit' & _).
  cbv zeta in Hexit, Hexit'. rewrite Hexit, Hexit'. split; [reflexivity|].
  unfold scanOf, scanStart, logLine, emit. cbn [snd].
  destruct (checkAllSites_ext env env' (settings_Config settings)
              (settings_Config settings')
              (mkWorld (clockReads (world p)) (dials (world p))
                 (trace (world p) ++ [LogLine "SSL証明書チェッカーを開始します"]))
              (mkWorld (clockReads (world p')) (dials (world p'))
                 (trace (world p') ++ [LogLine "SSL証明書チェッカーを開始します"]))
              Ht Hd Ha Hs Hc Hn) as (Hr & _).
  rewrite Hr. reflexivity.
Qed.

Lemma run_exit_code_witness :
  fst (run offlineEnv pickyMail
         (exampleSettings true false "u" "p" ["nobody@example.com"])
         initialProcess) = 1
  /\ fst (run offlineEnv
            (mkProcEnv (fun _ _ => None) (fun _ => Some "read-only")
                       (fun _ => inr "no such file")
                       (fun _ => inr "empty document"))
            (mkSettings (mkConfig [exampleSite] (mkAlert 30 7)
                                  (mkDiscord false EmptyString []))
                        (mkEmail false (mkSMTP EmptyString 0 false false
                                               EmptyString EmptyString)
                                 EmptyString [] EmptyString)
                        (mkLogging "DEBUG" "/var/log/cert-checker.log"))
            initialProcess)
     = fst (run offlineEnv pickyMail
              (exampleSettings true false "u" "p" ["nobody@example.com"])
              initialProcess).
Proof.
  split.
  - rewrite (proj1 (run_exit_code offlineEnv offlineEnv pickyMail pickyMail
               (exampleSettings true false "u" "p" ["nobody@example.com"])
               (exampleSettings true false "u" "p" ["nobody@example.com"])
               initialProcess initialProcess
               (fun _ => eq_refl) (fun _ _ _ => eq_refl)
               eq_refl eq_refl eq_refl eq_refl)).
    reflexivity.
  - apply run_exit_code; reflexivity.
Defined.

Lemma postsOf_none (events : list Event) :
  noHttpCall events -> postsOf events = [].
Proof.
  induction events as [|e rest IH]; intros H; [reflexivity|].
  assert (Hrest : noHttpCall rest).
  { intros url contentType body Hin. apply (H url contentType body).
    right. exact Hin. }
  destruct e as [line|address serverName|url contentType body];
    cbn [postsOf]; auto.
  exfalso. apply (H url contentType body). left. reflexivity.
Qed.

(** [buildEmbeds] takes nothing from the world but the count of the
    readings of the clock. *)
Lemma buildEmbeds_clock env (filteredResults : list CertInfo) :
  forall embeds w w',
    clockReads w = clockReads w' ->
    fst (buildEmbeds env filteredResults embeds w)
    = fst (buildEmbeds env filteredResults embeds w').
Proof.
  induction filteredResults as [|cert rest IH]; intros embeds w w' Hc.
  - reflexivity.
  - cbn [buildEmbeds]. unfold bind, time_Now. cbv beta iota. rewrite Hc.
    apply IH. reflexivity.
Qed.

(** The dispatcher returns the same and adds the same events in two
    worlds with the same count of clock readings. *)
Lemma sendDiscordNotification_clock env config results w w' :
  clockReads w = clockReads w' ->
  exists events,
    fst (sendDiscordNotification env config results w)
    = fst (sendDiscordNotification env config results w')
    /\ trace (snd (sendDiscordNotification env config results w))
       = (trace w ++ events)%list
    /\ trace (snd (sendDiscordNotification env config results w'))
       = (trace w' ++ events)%list.
Proof.
  intros Hc. unfold sendDiscordNotification.
  destruct (negb (Enabled (Discord config)));
    [eexists; repeat split; reflexivity|].
  cbv zeta.
  destruct (String.eqb (WebhookURL (Discord config)) EmptyString
            || String.eqb (WebhookURL (Discord config)) placeholderURL)%bool;
    [eexists; repeat split; reflexivity|].
  destruct (Z.of_nat (List.length
              (filterResults (NotifyOn (Discord config)) results)) =? 0);
    [eexists; repeat split; reflexivity|].
  unfold bind.
  pose proof (buildEmbeds_clock env
                (filterResults (NotifyOn (Discord config)) results) [] w w' Hc)
    as Hsame.
  pose proof (buildEmbeds_trace env
                (filterResults (NotifyOn (Discord config)) results) [] w)
    as Htr.
  pose proof (buildEmbeds_trace env
                (filterResults (NotifyOn (Discord config)) results) [] w')
    as Htr'.
  destruct (buildEmbeds env
              (filterResults (NotifyOn (Discord config)) results) [] w)
    as [embeds w1].
  destruct (buildEmbeds env
              (filterResults (NotifyOn (Discord config)) results) [] w')
    as [embeds' w1'].
  cbn [fst snd] in Hsame, Htr, Htr'. subst embeds'.
  destruct (jsonMarshal env (mkPayload "SSL証明書チェッカー" embeds))
    as [jsonData|err].
  2:{ exists []. unfold ret. cbn [fst snd]. rewrite Htr, Htr', !app_nil_r.
      auto. }
  unfold http_Post, ret, logLine, emit.
  destruct (httpPost env (WebhookURL (Discord config)) "application/json"
              jsonData) as [err|code].
  - eexists. cbn [fst snd trace]. rewrite Htr, Htr'. auto.
  - destruct (code =? 204); eexists; cbn [fst snd trace];
      rewrite Htr, Htr', <- !app_assoc; auto.
Qed.

(** X21: whatever the mail server answers, whether the log file opens
    and whatever files can be read, a run with the same settings dials
    the same sites and posts the same to the webhook, in the same order;
    the mail part itself never dials a site and never posts.  With mail
    switched off the run makes no call to the mail server at all. *)
Theorem run_mail_does_not_disturb (env : Env) (penv penv' : ProcEnv)
    (settings : Settings) (p : Process) :
  postsOf (trace (world (snd (run env penv settings p))))
  = postsOf (trace (world (snd (run env penv' settings p))))
  /\ dialsOf (trace (world (snd (run env penv settings p))))
     = dialsOf (trace (world (snd (run env penv' settings p))))
  /\ dialsOf (trace (world (snd (run env penv settings p))))
     = (dialsOf (trace (world p))
        ++ map (fun site => (addressOf site, site_URL site))
               (Sites (settings_Config settings)))%list
  /\ (email_Enabled (Email settings) = false ->
      smtpOps (snd (run env penv settings p)) = smtpOps p).
Proof.
  destruct (run_parts env penv settings p)
    as (pm & line & _ & _ & _ & Hck & Htr & Hoff & last & Hlast & Hno & Hnd).
  destruct (run_parts env penv' settings p)
    as (pm' & line' & _ & _ & _ & Hck' & Htr' & _ & last' & Hlast' & Hno'
        & Hnd').
  cbv zeta in *.
  destruct (sendDiscordNotification_clock env (settings_Config settings)
              (fst (scanOf env settings p)) (world pm) (world pm')
              (eq_trans Hck (eq_sym Hck')))
    as (events & _ & Hev & Hev').
  assert (Hevd : dialsOf events = []).
  { clear -Hev. revert Hev.
    generalize (world pm). intros w Hev.
    destruct (Enabled (Discord (settings_Config settings))) eqn:Hen.
    2:{ rewrite (send_disabled _ _ _ _ Hen) in Hev. cbn [snd trace] in Hev.
        apply app_inv_head in Hev. subst events. reflexivity. }
    destruct (String.eqb_spec
                (WebhookURL (Discord (settings_Config settings))) EmptyString)
      as [He|He].
    { rewrite (send_no_url _ _ _ _ Hen (or_introl He)) in Hev.
      cbn [snd trace] in Hev. apply app_inv_head in Hev. subst events.
      reflexivity. }
    destruct (String.eqb_spec
                (WebhookURL (Discord (settings_Config settings)))
                placeholderURL) as [Hp|Hp].
    { rewrite (send_no_url _ _ _ _ Hen (or_intror Hp)) in Hev.
      cbn [snd trace] in Hev. apply app_inv_head in Hev. subst events.
      reflexivity. }
    destruct (filterResults
                (NotifyOn (Discord (settings_Config settings)))
                (fst (scanOf env settings p))) as [|r0 rest] eqn:Hf.
    { rewrite (send_nothing_left _ _ _ _ Hen He Hp Hf) in Hev.
      cbn [snd trace] in Hev. apply app_inv_head in Hev. subst events.
      reflexivity. }
    assert (Hne : filterResults
                    (NotifyOn (Discord (settings_Config settings)))
                    (fst (scanOf env settings p)) <> [])
      by (rewrite Hf; discriminate).
    rewrite (send_attempt _ _ _ _ Hen He Hp Hne) in Hev.
    pose proof (buildEmbeds_trace env
                  (filterResults
                     (NotifyOn (Discord (settings_Config settings)))
                     (fst (scanOf env settings p))) [] w) as Hb.
    destruct (buildEmbeds env _ [] w) as [embeds w1]. cbn [snd] in Hb.
    destruct (jsonMarshal env _) as [jsonData|err].
    2:{ cbn [snd] in Hev. rewrite Hb in Hev.
        rewrite <- (app_nil_r (trace w)) in Hev at 1.
        apply app_inv_head in Hev. subst events. reflexivity. }
    cbv zeta in Hev.
    destruct (httpPost env _ _ jsonData) as [err|code];
      cbn [snd trace] in Hev; rewrite Hb, <- ?app_assoc in Hev;
      apply app_inv_head in Hev; subst events; reflexivity. }
  destruct (checkAllSites_world env (settings_Config settings) (scanStart p))
    as (added & Hscan & Hscanno & Hscand & _).
  fold (scanOf env settings p) in Hscan.
  unfold scanStart, logLine, emit in Hscan. cbn [snd trace] in Hscan.
  rewrite Hlast, Hlast', Hev, Hev', Htr, Htr'.
  rewrite !postsOf_app, !dialsOf_app, Hnd, Hnd', Hevd,
    (postsOf_none _ Hno), (postsOf_none _ Hno').
  cbn [postsOf dialsOf]. rewrite !app_nil_r.
  split; [reflexivity|]. split; [reflexivity|]. split; [|exact Hoff].
  rewrite Hscan, !dialsOf_app, Hscand. cbn [dialsOf]. rewrite app_nil_r.
  reflexivity.
Qed.

(** X22: a run calls [fmt.Println] exactly once, with an empty line and
    the text report of the results of its scan, made right after the
    scan (the lines of the logger are kept apart).  Neither the mail nor
    the webhook, sent or failed, adds to it or takes from it. *)
Theorem run_prints_report (env : Env) (penv : ProcEnv) (settings : Settings)
    (p : Process) :
  printed (snd (run env penv settings p))
  = (printed p
     ++ [((nl ++ fst (generateTextReport env (fst (scanOf env settings p))
                        (snd (scanOf env settings p)))) ++ nl)%string])%list
  /\ forall penv',
       printed (snd (run env penv' settings p))
       = printed (snd (run env penv settings p)).
Proof.
  destruct (run_parts env penv settings p) as (pm & line & _ & Hpr & _).
  cbv zeta in Hpr. split; [exact Hpr|].
  intros penv'.
  destruct (run_parts env penv' settings p) as (pm' & line' & _ & Hpr' & _).
  cbv zeta in Hpr'. rewrite Hpr, Hpr'. reflexivity.
Qed.

Lemma loadConfig_fails penv path err :
  loadConfig penv path = inr err
  <-> readFile penv path = inr err
      \/ exists data,
           readFile penv path = inl data
           /\ yamlUnmarshal penv data = inr err.
Proof.
  unfold loadConfig.
  destruct (readFile penv path) as [data|e].
  - destruct (yamlUnmarshal penv data) as [settings|e] eqn:Hy.
    + split; [discriminate|].
      intros [H|(d & H & Hd)]; [discriminate H|].
      injection H as <-. rewrite Hy in Hd. discriminate Hd.
    + split.
      * intros H. right. exists data. split; [reflexivity|].
        injection H as <-. exact Hy.
      * intros [H|(d & H & Hd)]; [discriminate H|].
        injection H as <-. rewrite Hy in Hd. injection Hd as <-. reflexivity.
  - split.
    + intros H. left. injection H as <-. reflexivity.
    + intros [H|(d & H & _)]; [|discriminate H].
      injection H as <-. reflexivity.
Qed.

(** X23: when the configuration file cannot be read, or what is read
    cannot be decoded, [main] ends with exit code 1 after one line on
    the standard logger that carries the error; it dials no site, reads
    no clock, prints no report, calls no mail server, posts nothing and
    does not set up the logger.  Once the settings are loaded the exit
    code is that of the scan. *)
Theorem main_config_failure (env : Env) (penv : ProcEnv) (configPath : string)
    (p : Process) :
  (forall err,
      (readFile penv configPath = inr err
       \/ exists data,
            readFile penv configPath = inl data
            /\ yamlUnmarshal penv data = inr err) ->
      main env penv configPath p
      = (1, mkProcess (world p) (smtpOps p) (printed p)
              (stdLog p ++ ["設定ファイルの読み込みに失敗しました: " ++ err])
              (logger p)))
  /\ (forall data settings,
         readFile penv configPath = inl data ->
         yamlUnmarshal penv data = inl settings ->
         fst (main env penv configPath p)
         = exitCode (fst (scanOf env settings p))).
Proof.
  split.
  - intros err Hfail. apply loadConfig_fails in Hfail.
    unfold main. rewrite Hfail. reflexivity.
  - intros data settings Hread Hyaml.
    unfold main, loadConfig. rewrite Hread, Hyaml.
    destruct (run_parts env penv settings p) as (pm & line & Hexit & _).
    exact Hexit.
Qed.

Lemma main_config_failure_witness :
  main offlineEnv pickyMail "config.yaml" initialProcess
  = (1, mkProcess initialWorld [] []
          ["設定ファイルの読み込みに失敗しました: no such file"] None).
Proof.
  apply (proj1 (main_config_failure offlineEnv pickyMail "config.yaml"
                  initialProcess) "no such file").
  left. reflexivity.
Defined.

Lemma run_mail_does_not_disturb_witness :
  smtpOps (snd (run offlineEnv pickyMail
                  (mkSettings (exampleConfig [exampleSite] 30 7 issueLabels)
                     (mkEmail false
                        (mkSMTP "smtp.example.com" 465 true false "u" "p")
                        "cert-checker@example.com" ["nobody@example.com"]
                        "SSL証明書有効期限チェック結果")
                     (mkLogging "INFO" EmptyString))
                  initialProcess))
  = smtpOps initialProcess.
Proof.
  apply (proj2 (proj2 (proj2 (run_mail_does_not_disturb offlineEnv pickyMail
                                pickyMail _ initialProcess)))).
  reflexivity.
Defined.

Lemma colorOf_total_witness : colorOf "EXPIRED" = 8421504.
Proof.
  apply (proj2 (proj2 (proj2 (proj2 (proj2 (colorOf_total "EXPIRED")))))).
  repeat split; discriminate.
Defined.

Lemma webhook_post_content_witness :
  exists embeds,
    map embed_Title embeds = ["🔒 b"]
    /\ map embed_Color embeds = [16711680].
Proof.
  destruct (webhook_post_content rejectingEnv
              (exampleConfig [] 30 7 ["CRITICAL"])
              [resultWith "a" "OK"; resultWith "b" "CRITICAL"] initialWorld)
    as (events & Htr & _ & Hpost).
  vm_compute in Htr. subst events.
  destruct (Hpost "https://discord.example/hook" "application/json" "{}")
    as (_ & _ & _ & embeds & _ & Htitle & Hcolor & _);
    [left; reflexivity|].
  exists embeds. split; [exact Htitle | exact Hcolor].
Defined.

Lemma reports_repeat_witness :
  fst (generateTextReport offlineEnv [resultWith "a" "OK"] initialWorld)
  = fst (generateTextReport offlineEnv [resultWith "a" "OK"]
           (snd (generateTextReport offlineEnv [resultWith "a" "OK"]
                   initialWorld))).
Proof.
  pose proof (reports_repeat offlineEnv [resultWith "a" "OK"] initialWorld)
    as H.
  cbv zeta in H. destruct H as (_ & _ & _ & _ & _ & _ & Htext & _).
  apply Htext. reflexivity.
Defined.
